(** * PosterGeneration: the copy pipeline of [main.py]

    A shallow embedding of the pure parts of [main.py]: the colour helpers
    ([color_from_name], [theme_colors]), the prompt construction
    ([build_style_block] and the f-string of [generate_text]), the handling
    of the model's reply inside [generate_text] (text extraction, JSON
    extraction, decoding, normalisation of the decoded object), the
    photo and font data URLs, and the evaluation of the arguments of the
    template, with the two font files read from a file system that is a
    parameter.

    Python values are modelled as follows.
    - A [str] is the list of its code points ([list N]); [u "..."] is the
      [str] that a literal denotes.
    - A decoded JSON value is a [json]; a Python [dict] with string keys is a
      [gmap str json] (dict equality ignores insertion order, as [gmap]'s).
    - [bytes] are [list byte].
    - The library calls [json.loads] and [repr] are fields of the interface
      [PyLib]; a reference decoder following CPython's scanner is given as
      an instance, so that every statement can be run on concrete replies. *)

From Stdlib Require Import ZArith NArith Ascii String.
From Stdlib.Strings Require Import Byte.
From stdpp Require Import gmap list fin_maps.

#[local] Set Warnings "-register-all,-clear-no-such-hyp".
#[local] Open Scope N_scope.

(* ===================================================================== *)
(** ** Strings *)
(* ===================================================================== *)

Abbreviation str := (list N).

(** The bytes of a literal of this file. *)
Fixpoint bytes_of (s : string) : list N :=
  match s with
  | EmptyString => []
  | String c s' => N_of_ascii c :: bytes_of s'
  end.

(** UTF-8 decoding of well-formed input (the literals of this file, as
    the literals of [main.py], are UTF-8 text). *)
Fixpoint utf8_decode (bs : list N) : str :=
  match bs with
  | [] => []
  | b1 :: r1 =>
      if b1 <? 128 then b1 :: utf8_decode r1
      else
        match r1 with
        | [] => []
        | b2 :: r2 =>
            if b1 <? 224 then ((b1 - 192) * 64 + (b2 - 128)) :: utf8_decode r2
            else
              match r2 with
              | [] => []
              | b3 :: r3 =>
                  if b1 <? 240 then
                    ((b1 - 224) * 4096 + (b2 - 128) * 64 + (b3 - 128)) :: utf8_decode r3
                  else
                    match r3 with
                    | [] => []
                    | b4 :: r4 =>
                        ((b1 - 240) * 262144 + (b2 - 128) * 4096
                         + (b3 - 128) * 64 + (b4 - 128)) :: utf8_decode r4
                    end
              end
        end
  end.

(** A literal as a Python [str]; on an ASCII literal, its characters. *)
Definition u (s : string) : str := utf8_decode (bytes_of s).

(** [str.isspace] on one character (CPython's [_PyUnicode_IsWhitespace]);
    it is also the class [\s] of [re] on [str] patterns. *)
Definition py_isspace (c : N) : bool :=
  ((9 <=? c) && (c <=? 13)) || ((28 <=? c) && (c <=? 32))
  || (c =? 133) || (c =? 160) || (c =? 5760)
  || ((8192 <=? c) && (c <=? 8202))
  || (c =? 8232) || (c =? 8233) || (c =? 8239) || (c =? 8287) || (c =? 12288).

(** [s.lstrip()] and [s.strip()]. *)
Fixpoint lstrip (s : str) : str :=
  match s with
  | c :: s' => if py_isspace c then lstrip s' else s
  | [] => []
  end.

Definition strip (s : str) : str := rev (lstrip (rev (lstrip s))).

(** [sep.join(chunks)]. *)
Fixpoint join (sep : str) (chunks : list str) : str :=
  match chunks with
  | [] => []
  | [c] => c
  | c :: rest => c ++ sep ++ join sep rest
  end.

(** [s.find(c)] for a one-character needle: the index of its first
    occurrence, [None] for Python's [-1]. *)
Fixpoint find_char (c : N) (s : str) : option nat :=
  match s with
  | [] => None
  | x :: s' => if x =? c then Some 0%nat else S <$> find_char c s'
  end.

(** The slice [s[i:j]]. *)
Definition slice (s : str) (i j : nat) : str := take (j - i) (drop i s).

(** Decimal digits of a natural number, as [str(n)] prints them. *)
Fixpoint digits_fuel (fuel : nat) (n : N) (acc : str) : str :=
  match fuel with
  | O => acc
  | S f =>
      let acc' := (48 + n mod 10) :: acc in
      if n <? 10 then acc' else digits_fuel f (n / 10) acc'
  end.

Definition str_of_N (n : N) : str := digits_fuel (S (N.to_nat (N.log2 n))) n [].

Definition str_of_Z (z : Z) : str :=
  match z with
  | Zneg p => 45 :: str_of_N (Npos p)
  | _ => str_of_N (Z.to_N z)
  end.

(** Number of positions of [hay] at which [needle] occurs. *)
Fixpoint is_prefix (needle hay : str) : bool :=
  match needle, hay with
  | [], _ => true
  | _ :: _, [] => false
  | a :: n', b :: h' => (a =? b) && is_prefix n' h'
  end.

Fixpoint count_sub (needle hay : str) : nat :=
  match hay with
  | [] => if is_prefix needle [] then 1%nat else 0%nat
  | _ :: h' => ((if is_prefix needle hay then 1 else 0) + count_sub needle h')%nat
  end.

(* ===================================================================== *)
(** ** A backtracking matcher for the regular expressions used *)
(* ===================================================================== *)

Module Re.

(** The fragment of [re] syntax that [main.py] uses: single characters and
    classes, sequencing, the greedy [?], greedy and lazy stars over a
    class, and capture group 1. *)
Inductive re : Type :=
| Eps
| Chr (p : N -> bool)
| Seq (a b : re)
| Opt (a : re)
| Star (p : N -> bool)
| StarLazy (p : N -> bool)
| Group (a : re).

Section Matcher.
Context {R : Type}.

(** Greedy star: take as many characters as possible, then give them
    back one at a time until the continuation accepts. *)
Fixpoint star_greedy (p : N -> bool) (k : str -> option R) (s : str) : option R :=
  match s with
  | c :: s' =>
      if p c then
        match star_greedy p k s' with
        | Some r => Some r
        | None => k s
        end
      else k s
  | [] => k s
  end.

(** Lazy star: try the continuation first, take one more character
    only when it fails. *)
Fixpoint star_lazy (p : N -> bool) (k : str -> option R) (s : str) : option R :=
  match k s with
  | Some r => Some r
  | None =>
      match s with
      | c :: s' => if p c then star_lazy p k s' else None
      | [] => None
      end
  end.

(** [exec r s g k]: match [r] at the front of [s], with [g] the text
    captured so far, and continue with [k] on the rest; alternatives
    are tried in the order of [re]'s backtracking. *)
Fixpoint exec (r : re) (s : str) (g : option str)
    (k : str -> option str -> option R) : option R :=
  match r with
  | Eps => k s g
  | Chr p =>
      match s with
      | c :: s' => if p c then k s' g else None
      | [] => None
      end
  | Seq a b => exec a s g (fun s' g' => exec b s' g' k)
  | Opt a =>
      match exec a s g k with
      | Some x => Some x
      | None => k s g
      end
  | Star p => star_greedy p (fun s' => k s' g) s
  | StarLazy p => star_lazy p (fun s' => k s' g) s
  | Group a =>
      exec a s g (fun s' _ => k s' (Some (take (length s - length s') s)))
  end.
End Matcher.

(** [re.match]: group 1 of the first successful alternative at the front
    of [s] ([Some None]: a match in which group 1 did not take part). *)
Definition match_here (r : re) (s : str) : option (option str) :=
  exec r s None (fun _ g => Some g).

(** [re.search(r, s)]: the leftmost start position with a match. *)
Fixpoint search (r : re) (s : str) : option (option str) :=
  match match_here r s with
  | Some g => Some g
  | None =>
      match s with
      | [] => None
      | _ :: s' => search r s'
      end
  end.

Definition lit (c : N) : re := Chr (N.eqb c).

(** A literal character under [re.I]: it matches every character in
    the list of its case variants. *)
Definition lit_i (variants : list N) : re :=
  Chr (fun c => bool_decide (c ∈ variants)).

Definition seqs (rs : list re) : re := foldr Seq Eps rs.

(** The class of [.] under [re.S]: every character. *)
Definition any_char (c : N) : bool := true.

End Re.

(* ===================================================================== *)
(** ** Decoded JSON values *)
(* ===================================================================== *)

(** A Python [float] produced by the decoder, kept as the decimal literal
    it was read from ([mant * 10 ^ e10], with a sign) or as one of the
    constants [NaN], [Infinity], [-Infinity]. *)
Inductive pyfloat : Type :=
| FNaN
| FInf (neg : bool)
| FDec (neg : bool) (mant : N) (e10 : Z).

(** What [json.loads] returns: [None], [bool], [int], [float], [str],
    [list] and [dict]. *)
Inductive json : Type :=
| JNull
| JBool (b : bool)
| JInt (z : Z)
| JFloat (f : pyfloat)
| JStr (s : str)
| JList (l : list json)
| JDict (d : gmap str json).

Abbreviation dict := (gmap str json).

(** [bool(f)] for a float: false exactly when the literal rounds to zero.
    A nonzero decimal rounds to zero (round-half-even, binary64) when its
    magnitude is at most [2 ^ -1075]. *)
Definition float_truthy (f : pyfloat) : bool :=
  match f with
  | FNaN | FInf _ => true
  | FDec _ m e =>
      if m =? 0 then false
      else
        match e with
        | Zneg p => negb (m * 2 ^ 1075 <=? 10 ^ Npos p)
        | _ => true
        end
  end.

(** Python truthiness, as used by [x or y]. *)
Definition py_truthy (v : json) : bool :=
  match v with
  | JNull => false
  | JBool b => b
  | JInt z => negb (z =? 0)%Z
  | JFloat f => float_truthy f
  | JStr s => match s with [] => false | _ => true end
  | JList l => match l with [] => false | _ => true end
  | JDict d => match map_to_list d with [] => false | _ => true end
  end.

(** [x or y]. *)
Definition py_or (x y : json) : json := if py_truthy x then x else y.

(** [d.get(k)] and [d.get(k, dflt)]. *)
Definition dict_get (d : dict) (k : str) : json := default JNull (d !! k).
Definition dict_get_or (d : dict) (k : str) (dflt : json) : json := default dflt (d !! k).

(** The library functions that [generate_text] calls on decoded values.
    [json_loads] either returns the decoded value or raises; [py_repr] is
    [repr] on floats, lists and dicts. *)
Class PyLib : Type := {
  json_exn : Type;
  json_loads : str -> json_exn + json;
  py_repr : json -> str;
}.

(** [str(v)]. *)
Definition py_str `{PyLib} (v : json) : str :=
  match v with
  | JNull => u "None"
  | JBool true => u "True"
  | JBool false => u "False"
  | JInt z => str_of_Z z
  | JStr s => s
  | JFloat _ | JList _ | JDict _ => py_repr v
  end.

(* ===================================================================== *)
(** ** Colour helpers *)
(* ===================================================================== *)

(** The literal [table] of [color_from_name]. *)
Definition color_table : list (str * str) :=
  [ (u "dark_blue", u "#0f172a");
    (u "navy", u "#0f172a");
    (u "blue", u "#1d4ed8");
    (u "sky_blue", u "#0ea5e9");
    (u "dark_green", u "#166534");
    (u "green", u "#16a34a");
    (u "red", u "#b91c1c");
    (u "maroon", u "#7f1d1d");
    (u "orange", u "#ea580c");
    (u "gold", u "#facc15");
    (u "black", u "#111827");
    (u "dark_gray", u "#374151");
    (u "white", u "#f9fafb") ].

(** [color_from_name(name, fallback)]: [table.get(name, fallback)]. *)
Definition color_from_name (name fallback : str) : str :=
  default fallback ((list_to_map color_table : gmap str str) !! name).

(** The default of the parameter [fallback]. *)
Definition color_from_name_default_fallback : str := u "#111827".

(** [theme_colors(theme)]: the triple (top, bottom, footer). *)
Definition theme_colors (theme : str) : str * str * str :=
  if decide (theme = u "green_gold") then (u "#e8f7eb", u "#fef6d8", u "#14532d")
  else if decide (theme = u "red_yellow") then (u "#fee2e2", u "#fef9c3", u "#7f1d1d")
  else if decide (theme = u "yellow_blue") then (u "#fef9c3", u "#dbeafe", u "#1e3a8a")
  else (u "#e0f2fe", u "#ffedd5", u "#0f172a").

(* ===================================================================== *)
(** ** Handling the reply in [generate_text] *)
(* ===================================================================== *)

(** The exceptions that leave [generate_text] after the reply has come
    back. The first three are its own [ValueError]s, named after the spec:
    - [EmptyResponse]: "Gemini API did not return any text ...";
    - [NoJsonFound raw]: "Could not find JSON in Gemini output:\n" + raw;
    - [InvalidJson e json_text]:
      "Failed to parse JSON from Gemini: {e}\nExtracted:\n{json_text}".
    [AttributeError] is raised by [.get] on a value that is not a dict. *)
Inductive error (E : Type) : Type :=
| EmptyResponse
| NoJsonFound (raw : str)
| InvalidJson (e : E) (json_text : str)
| AttributeError.
Arguments EmptyResponse {E}.
Arguments NoJsonFound {E} raw.
Arguments InvalidJson {E} e json_text.
Arguments AttributeError {E}.

(** The shape of the reply object that the text extraction reads:
    [result.candidates[*].content.parts[*].text] and [result.text]; an
    absent or [None] attribute is [None]. *)
Record part := { part_text : option str }.
Record content := { content_parts : option (list part) }.
Record candidate := { cand_content : option content }.
Record response := { candidates : option (list candidate); response_text : option str }.

(** A [str] attribute that is set and not empty. *)
Definition nonempty_text (t : option str) : option str :=
  match t with
  | Some (c :: s) => Some (c :: s)
  | _ => None
  end.

(** Lines 183-198: the text chunks of the reply. *)
Definition collect_chunks (result : response) : list str :=
  let chunks :=
    flat_map (fun cand =>
      match cand_content cand with
      | None => []
      | Some ct =>
          omap (fun p => nonempty_text (part_text p)) (default [] (content_parts ct))
      end) (default [] (candidates result)) in
  match chunks, nonempty_text (response_text result) with
  | [], Some t => [t]
  | _, _ => chunks
  end.

(** Line 200: ["\n".join(chunks).strip() if chunks else ""]. *)
Definition raw_text (chunks : list str) : str :=
  match chunks with
  | [] => []
  | _ => strip (join [10] chunks)
  end.

(** The pattern of line 209, under [re.S | re.I]:
    three backquotes, [(?:json)?], [\s*], group 1 = [\{.*?\}], [\s*],
    three backquotes. Under [re.I] a letter matches both of its cases, and
    the letter [s] also matches U+017F. *)
Definition json_tag_re : Re.re :=
  Re.seqs [ Re.lit_i [106; 74]; Re.lit_i [115; 83; 383];
            Re.lit_i [111; 79]; Re.lit_i [110; 78] ].

Definition body_re : Re.re :=
  Re.seqs [ Re.lit 123; Re.StarLazy Re.any_char; Re.lit 125 ].

Definition close_re : Re.re :=
  Re.seqs [ Re.Star py_isspace; Re.lit 96; Re.lit 96; Re.lit 96 ].

Definition fence_re : Re.re :=
  Re.seqs
    [ Re.lit 96; Re.lit 96; Re.lit 96;
      Re.Opt json_tag_re;
      Re.Star py_isspace;
      Re.Group body_re;
      Re.Star py_isspace;
      Re.lit 96; Re.lit 96; Re.lit 96 ].

(** The loop of lines 217-224 over [raw[i]], [i] from the current index:
    the index of the brace that brings [depth] back to 0. *)
Fixpoint scan_braces (rest : str) (i : nat) (depth : Z) : option nat :=
  match rest with
  | [] => None
  | c :: rest' =>
      if c =? 123 then scan_braces rest' (S i) (depth + 1)
      else if c =? 125 then
        let depth := (depth - 1)%Z in
        if (depth =? 0)%Z then Some i else scan_braces rest' (S i) depth
      else scan_braces rest' (S i) depth
  end.

(** Lines 214-224: from the first open brace to the brace that closes it. *)
Definition brace_candidate (raw : str) : option str :=
  match find_char 123 raw with
  | None => None
  | Some start =>
      match scan_braces (drop start raw) start 0 with
      | None => None
      | Some i => Some (slice raw start (S i))
      end
  end.

(** Braces that nest properly: the running count of open braces, from
    [depth], never drops below 0 and ends at 0. *)
Fixpoint balanced_from (depth : Z) (s : str) : bool :=
  match s with
  | [] => (depth =? 0)%Z
  | c :: s' =>
      if c =? 123 then balanced_from (depth + 1) s'
      else if c =? 125 then (0 <? depth)%Z && balanced_from (depth - 1) s'
      else balanced_from depth s'
  end.

Definition balanced (s : str) : Prop := balanced_from 0 s = true.

(** Lines 209-224: [json_text]. *)
Definition find_json (raw : str) : option str :=
  match Re.search fence_re raw with
  | Some g => g
  | None => brace_candidate raw
  end.

Definition known_themes : list str :=
  [u "blue_orange"; u "green_gold"; u "red_yellow"; u "yellow_blue"].

(** [theme in [...]]: only a [str] equals a [str]. *)
Definition theme_known (theme : json) : bool :=
  match theme with
  | JStr s => bool_decide (s ∈ known_themes)
  | _ => false
  end.

Section Normalize.
Context `{L : PyLib}.

(** Lines 237-239: the value of [theme] that is stored. *)
Definition resolve_theme (parsed : dict) : json :=
  let theme := dict_get_or parsed (u "color_theme") (JStr (u "blue_orange")) in
  if theme_known theme then theme else JStr (u "blue_orange").

(** Lines 237-240. *)
Definition normalize_theme (parsed : dict) : dict :=
  <[u "color_theme" := resolve_theme parsed]> parsed.

(** Lines 242-244: the list [bullets] before it is cut. *)
Definition bullets_of (parsed : dict) : list json :=
  match py_or (dict_get parsed (u "bullet_points_ta")) (JList []) with
  | JList l => l
  | v => [JStr (py_str v)]
  end.

(** Lines 242-245. *)
Definition normalize_bullets (parsed : dict) : dict :=
  <[u "bullet_points_ta" := JList (take 3 (bullets_of parsed))]> parsed.

(** The dict literal of lines 248-252. *)
Definition text_colors_record (text_colors : dict) : dict :=
  <[u "headline" := dict_get_or text_colors (u "headline") (JStr (u "dark_blue"))]>
    (<[u "body" := dict_get_or text_colors (u "body") (JStr (u "black"))]>
      (<[u "cta" := dict_get_or text_colors (u "cta") (JStr (u "red"))]> ∅)).

(** Lines 247-252; [text_colors.get] exists only on a dict. *)
Definition normalize_text_colors (parsed : dict) : error json_exn + dict :=
  match py_or (dict_get parsed (u "text_colors")) (JDict ∅) with
  | JDict text_colors =>
      inr (<[u "text_colors" := JDict (text_colors_record text_colors)]> parsed)
  | _ => inl AttributeError
  end.

(** Lines 236-254 on the decoded dict. *)
Definition normalize_fields (parsed : dict) : error json_exn + dict :=
  normalize_text_colors (normalize_bullets (normalize_theme parsed)).

(** Lines 236-254 on whatever [json.loads] returned: [parsed.get] exists
    only on a dict. *)
Definition normalize (parsed : json) : error json_exn + dict :=
  match parsed with
  | JDict d => normalize_fields d
  | _ => inl AttributeError
  end.

(** Lines 202-254: from [raw] to the returned dict. *)
Definition parse_raw (raw : str) : error json_exn + dict :=
  match raw with
  | [] => inl EmptyResponse
  | _ =>
      match find_json raw with
      | None | Some [] => inl (NoJsonFound raw)
      | Some json_text =>
          match json_loads json_text with
          | inl e => inl (InvalidJson e json_text)
          | inr parsed => normalize parsed
          end
      end
  end.
End Normalize.

(* ===================================================================== *)
(** ** The prompt *)
(* ===================================================================== *)

Definition POSTER_WIDTH : N := 1080.
Definition POSTER_HEIGHT : N := 1080.
Definition FOOTER_HEIGHT : N := 210.

(** The text returned for ["Conversation"] (lines 82-90). *)
Definition conversation_block : str :=
  concat
    [ [10];
      u "STYLE:" ++ [10];
      u "- body_paragraph_ta should look like a SHORT conversation between" ++ [10];
      u "  " ++ [34] ++ u "ро╡ро╛роЯро┐роХрпНроХрпИропро╛ро│ро░рпН" ++ [34] ++ u " рооро▒рпНро▒рпБроорпН " ++ [34] ++ u "роЖро▓рпЛроЪроХро░рпН" ++ [34] ++ u "." ++ [10];
      u "- Use speaker labels like:" ++ [10];
      u "  " ++ [34] ++ u "ро╡ро╛роЯро┐роХрпНроХрпИропро╛ро│ро░рпН:" ++ [34] ++ u " and " ++ [34] ++ u "роЖро▓рпЛроЪроХро░рпН:" ++ [34] ++ u "." ++ [10];
      u "- 5тАУ7 lines max, casual spoken Tamil, but still neat." ++ [10];
      u "- bullet_points_ta should then summarize 3 key benefits in simple one-liners." ++ [10] ].

(** The text returned for ["Fact-based awareness"] (lines 92-98). *)
Definition fact_block : str :=
  concat
    [ [10];
      u "STYLE:" ++ [10];
      u "- body_paragraph_ta should highlight 2тАУ3 simple facts or scenarios" ++ [10];
      u "  (роЙродро╛ро░рогроорпН: hospital bills, роОродро┐ро░рпНрокро╛ро░ро╛род ро╡ро┐рокродрпНродрпБ, children's future)." ++ [10];
      u "- Use a slightly serious, informative tone." ++ [10];
      u "- bullet_points_ta should look like 3 crisp benefits/facts." ++ [10] ].

(** The text of the [else] branch (lines 100-105). *)
Definition marketing_block : str :=
  concat
    [ [10];
      u "STYLE:" ++ [10];
      u "- Simple marketing style, friendly and emotional." ++ [10];
      u "- body_paragraph_ta: directly talk to the reader (" ++ [34] ++ u "роирпАроЩрпНроХро│рпН" ++ [34] ++ u ")." ++ [10];
      u "- bullet_points_ta: 3 small benefit lines (safety, medical expenses, tax, etc.)." ++ [10] ].

(** The f-string of lines 119-175 up to [{POSTER_WIDTH}]. *)
Definition prompt_intro : str :=
  concat
    [ [10];
      u "роирпА роТро░рпБ роЕройрпБрокро╡роорпН ро╡ро╛ропрпНроирпНрод родрооро┐ро┤рпН роЗройрпНро╖рпВро░ройрпНро╕рпН рооро╛ро░рпНроХрпНроХрпЖроЯрпНроЯро┐роЩрпН роХро╛рокро┐ ро░рпИроЯрпНроЯро░рпН." ++ [10];
      [10];
      u "роЗроирпНрод рокрпЛро╕рпНроЯро░рпН роЯро┐роЪрпИройрпН роЕро│ро╡рпБ:" ++ [10];
      u "- width: " ].

(** From [{POSTER_WIDTH}] to [{POSTER_HEIGHT}]. *)
Definition prompt_after_width : str :=
  concat
    [ u " px" ++ [10];
      u "- height: " ].

(** From [{POSTER_HEIGHT}] to [{FOOTER_HEIGHT}]. *)
Definition prompt_after_height : str :=
  concat
    [ u " px" ++ [10];
      u "- роорпЗро▓рпЗ ~1200 px: родро▓рпИрокрпНрокрпБ, subheadline, main body рооро▒рпНро▒рпБроорпН bullet points." ++ [10];
      u "- роироЯрпБро╡ро┐ро▓рпН ~150 px: CTA (call-to-action) line." ++ [10];
      u "- роХрпАро┤рпЗ " ].

(** From [{FOOTER_HEIGHT}] to [{style_block}]. *)
Definition prompt_after_footer : str :=
  concat
    [ u " px: роПроЬрпЖройрпНроЯрпН рокрпБроХрпИрокрпНрокроЯроорпН, рокрпЖропро░рпН, role, phone number footer роХрпНроХрпБ RESERVED." ++ [10];
      u "роЕродройро╛ро▓рпН роЯрпЖроХрпНро╕рпНроЯрпН роХрпБро▒рпБроХро┐роп, readable рооро▒рпНро▒рпБроорпН роХрпНро░ро╡рпБроЯрпН роЗро▓рпНро▓ро╛род рооро╛родро┐ро░ро┐ роЗро░рпБроХрпНроХрогрпБроорпН." ++ [10];
      [10];
      u "роорпКро┤ро┐:" ++ [10];
      u "- роЗропро▓рпНрокро╛рой рокрпЗроЪрпНроЪрпБ родрооро┐ро┤ро┐ро▓рпН (родрооро┐ро┤рпНроиро╛роЯрпНроЯро┐ро▓рпН роЗройрпНро╖рпВро░ройрпНро╕рпН роПроЬрпЖройрпНроЯрпН рокрпЗроЪрпБро▒ рооро╛родро┐ро░ро┐)." ++ [10];
      u "- роХроЯро┐ройрооро╛рой / ро▓ро┐роЯро░ро░ро┐ родрооро┐ро┤рпН ро╡рпЗрогрпНроЯро╛роорпН." ++ [10];
      u "- English words MIX рокрогрпНрогро╛родрпЗ (numbers ok)." ++ [10];
      [10] ].

(** From [{style_block}] to the end: limits, structure and the JSON contract. *)
Definition prompt_contract : str :=
  concat
    [ [10];
      [10];
      u "TEXT LIMITS (рооро┐роХ роЕро╡роЪро┐ропроорпН рокро┐ройрпНрокро▒рпНро▒рпБ):" ++ [10];
      u "- headline_ta: роЕродро┐роХрокроЯрпНроЪроорпН 22тАУ25 родрооро┐ро┤рпН роОро┤рпБродрпНродрпБроХро│рпН роЕро│ро╡рпБроХрпНроХрпБ. 1тАУ2 ро╡ро░ро┐ ро╣рпБроХрпН роороЯрпНроЯрпБроорпН." ++ [10];
      u "- subheadline_ta: max 70тАУ80 роОро┤рпБродрпНродрпБроХро│рпН." ++ [10];
      u "- body_paragraph_ta: max 220тАУ250 роОро┤рпБродрпНродрпБроХро│рпН (3тАУ4 роЪро┐ройрпНрой ро╡ро╛роХрпНроХро┐ропроЩрпНроХро│рпН роЕро▓рпНро▓родрпБ 5тАУ7 роЪро┐ройрпНрой conversation lines)." ++ [10];
      u "- bullet_points_ta: 3 bullets роороЯрпНроЯрпБроорпН. роТро╡рпНро╡рпКро░рпБ bullet роТро░рпБ ро╡ро░ро┐ (max 45 роОро┤рпБродрпНродрпБроХро│рпН)." ++ [10];
      u "- cta_line_ta: short CTA, max 60 роОро┤рпБродрпНродрпБроХро│рпН." ++ [10];
      [10];
      u "CONTENT STRUCTURE (родрооро┐ро┤ро┐ро▓рпН роиро┐ро░рокрпНрок):" ++ [10];
      [10];
      u "1) headline_ta" ++ [10];
      u "2) subheadline_ta" ++ [10];
      u "3) body_paragraph_ta" ++ [10];
      u "4) bullet_points_ta  (3 strings)" ++ [10];
      u "5) cta_line_ta" ++ [10];
      u "6) color_theme :  " ++ [34] ++ u "blue_orange" ++ [34] ++ u " | " ++ [34] ++ u "green_gold" ++ [34] ++ u " | " ++ [34] ++ u "red_yellow" ++ [34] ++ u " | " ++ [34] ++ u "yellow_blue" ++ [34] ++ [10];
      u "7) text_colors:" ++ [10];
      u "   {" ++ [10];
      u "     " ++ [34] ++ u "headline" ++ [34] ++ u ": " ++ [34] ++ u "dark_blue | navy | red | maroon | dark_green" ++ [34] ++ u "," ++ [10];
      u "     " ++ [34] ++ u "body" ++ [34] ++ u ": " ++ [34] ++ u "black | dark_gray | dark_blue" ++ [34] ++ u "," ++ [10];
      u "     " ++ [34] ++ u "cta" ++ [34] ++ u ": " ++ [34] ++ u "red | dark_blue | green | orange" ++ [34] ++ [10];
      u "   }" ++ [10];
      [10];
      u "STRICTLY роЗроирпНрод JSON format роороЯрпНроЯрпБроорпН return рокрогрпНрогрпБ" ++ [10];
      u "(extra text, explanation, markdown роОродрпБро╡рпБроорпН роЗро▓рпНро▓ро╛рооро▓рпН):" ++ [10];
      [10];
      u "{" ++ [10];
      u "  " ++ [34] ++ u "headline_ta" ++ [34] ++ u ": " ++ [34] ++ u "..." ++ [34] ++ u "," ++ [10];
      u "  " ++ [34] ++ u "subheadline_ta" ++ [34] ++ u ": " ++ [34] ++ u "..." ++ [34] ++ u "," ++ [10];
      u "  " ++ [34] ++ u "body_paragraph_ta" ++ [34] ++ u ": " ++ [34] ++ u "..." ++ [34] ++ u "," ++ [10];
      u "  " ++ [34] ++ u "bullet_points_ta" ++ [34] ++ u ": [" ++ [34] ++ u "..." ++ [34] ++ u ", " ++ [34] ++ u "..." ++ [34] ++ u ", " ++ [34] ++ u "..." ++ [34] ++ u "]," ++ [10];
      u "  " ++ [34] ++ u "cta_line_ta" ++ [34] ++ u ": " ++ [34] ++ u "..." ++ [34] ++ u "," ++ [10];
      u "  " ++ [34] ++ u "color_theme" ++ [34] ++ u ": " ++ [34] ++ u "blue_orange" ++ [34] ++ u "," ++ [10];
      u "  " ++ [34] ++ u "text_colors" ++ [34] ++ u ": {" ++ [10];
      u "    " ++ [34] ++ u "headline" ++ [34] ++ u ": " ++ [34] ++ u "dark_blue" ++ [34] ++ u "," ++ [10];
      u "    " ++ [34] ++ u "body" ++ [34] ++ u ": " ++ [34] ++ u "black" ++ [34] ++ u "," ++ [10];
      u "    " ++ [34] ++ u "cta" ++ [34] ++ u ": " ++ [34] ++ u "red" ++ [34] ++ [10];
      u "  }" ++ [10];
      u "}" ++ [10] ].

(** [build_style_block(style_mode)]. *)
Definition build_style_block (style_mode : str) : str :=
  if decide (style_mode = u "Conversation") then conversation_block
  else if decide (style_mode = u "Fact-based awareness") then fact_block
  else marketing_block.

(** The f-string [prompt] of [generate_text], given [style_block]. *)
Definition prompt_of (style_block : str) : str :=
  prompt_intro ++ str_of_N POSTER_WIDTH
  ++ prompt_after_width ++ str_of_N POSTER_HEIGHT
  ++ prompt_after_height ++ str_of_N FOOTER_HEIGHT
  ++ prompt_after_footer ++ style_block
  ++ prompt_contract.

(** Lines 117-175: the prompt that [generate_text] sends. *)
Definition build_prompt (style_mode : str) : str :=
  prompt_of (build_style_block style_mode).

(** [generate_text(style_mode)], with the call to the service as the
    function [client] from the prompt to the reply object. *)
Definition generate_text `{PyLib} (client : str -> response) (style_mode : str)
    : error json_exn + dict :=
  let prompt := build_prompt style_mode in
  let result := client prompt in
  parse_raw (raw_text (collect_chunks result)).

(* ===================================================================== *)
(** ** A reference decoder for [json.loads] *)
(* ===================================================================== *)

(** The decoder follows CPython's [json] scanner ([scan_once],
    [scanstring] in strict mode, [_match_number], the object and array
    loops) on a [str]. Floats stay decimal literals ([pyfloat]); the
    message of a [JSONDecodeError] is kept without its position. *)
Module JsonRef.

Inductive exn : Type :=
| JSONDecodeError (msg : string)
| ValueError (msg : string).

Definition res (A : Type) : Type := exn + A.

Definition fail {A} (msg : string) : res A := inl (JSONDecodeError msg).

Definition bind {A B} (x : res A) (f : A -> res B) : res B :=
  match x with
  | inl e => inl e
  | inr a => f a
  end.

#[local] Notation "'let*' p := x 'in' k" := (bind x (fun p => k))
  (at level 10, p pattern, x at level 100, k at level 200).

(** [WHITESPACE]: blank, tab, newline, carriage return. *)
Definition is_ws (c : N) : bool :=
  (c =? 32) || (c =? 9) || (c =? 10) || (c =? 13).

Fixpoint skip_ws (s : str) : str :=
  match s with
  | c :: s' => if is_ws c then skip_ws s' else s
  | [] => []
  end.

Definition is_digit (c : N) : bool := (48 <=? c) && (c <=? 57).

Definition hex_value (c : N) : option N :=
  if is_digit c then Some (c - 48)
  else if (97 <=? c) && (c <=? 102) then Some (c - 87)
  else if (65 <=? c) && (c <=? 70) then Some (c - 55)
  else None.

(** Four hexadecimal digits at the front of [s]. *)
Definition hex4 (s : str) : option (N * str) :=
  match s with
  | a :: b :: c :: d :: rest =>
      match hex_value a, hex_value b, hex_value c, hex_value d with
      | Some x, Some y, Some z, Some w =>
          Some (x * 4096 + y * 256 + z * 16 + w, rest)
      | _, _, _, _ => None
      end
  | _ => None
  end.

Definition is_high_surrogate (c : N) : bool := (55296 <=? c) && (c <=? 56319).
Definition is_low_surrogate (c : N) : bool := (56320 <=? c) && (c <=? 57343).

(** One-character escapes after a backslash. *)
Definition simple_escape (c : N) : option N :=
  if c =? 34 then Some 34 else if c =? 92 then Some 92
  else if c =? 47 then Some 47 else if c =? 98 then Some 8
  else if c =? 102 then Some 12 else if c =? 110 then Some 10
  else if c =? 114 then Some 13 else if c =? 116 then Some 9
  else None.

(** [scanstring]: [s] starts after the opening quote; [acc] holds the
    characters read so far, last first. *)
Fixpoint scan_string (fuel : nat) (s : str) (acc : str) : res (str * str) :=
  match fuel with
  | O => fail "Unterminated string starting at"
  | S fuel =>
      match s with
      | [] => fail "Unterminated string starting at"
      | c :: rest =>
          if c =? 34 then inr (rev acc, rest)
          else if c =? 92 then
            match rest with
            | [] => fail "Unterminated string starting at"
            | e :: rest' =>
                if e =? 117 then
                  match hex4 rest' with
                  | None => fail "Invalid \uXXXX escape"
                  | Some (c1, after) =>
                      match after with
                      | [] => fail "Invalid \uXXXX escape"
                      | 92 :: 117 :: low =>
                          if is_high_surrogate c1 && (6 <? N.of_nat (length after)) then
                            match hex4 low with
                            | None => fail "Invalid \uXXXX escape"
                            | Some (c2, after2) =>
                                if is_low_surrogate c2 then
                                  scan_string fuel after2
                                    ((65536 + (c1 - 55296) * 1024 + (c2 - 56320)) :: acc)
                                else scan_string fuel after (c1 :: acc)
                            end
                          else scan_string fuel after (c1 :: acc)
                      | _ => scan_string fuel after (c1 :: acc)
                      end
                  end
                else
                  match simple_escape e with
                  | Some x => scan_string fuel rest' (x :: acc)
                  | None => fail "Invalid \escape"
                  end
            end
          else if c <? 32 then fail "Invalid control character at"
          else scan_string fuel rest (c :: acc)
      end
  end.

(** The longest run of decimal digits at the front of [s]. *)
Fixpoint span_digits (s : str) : str * str :=
  match s with
  | c :: s' =>
      if is_digit c then let '(d, r) := span_digits s' in (c :: d, r) else ([], s)
  | [] => ([], [])
  end.

Definition N_of_digits (d : str) : N := fold_left (fun n c => 10 * n + (c - 48)) d 0.

(** The integer part, an optional minus sign and then either [0] or a
    digit from 1 to 9 and more digits: sign, digits, rest. *)
Definition match_integer (s : str) : option (bool * str * str) :=
  let '(neg, s1) := match s with
                    | 45 :: s1 => (true, s1)
                    | _ => (false, s)
                    end in
  match s1 with
  | c :: s2 =>
      if c =? 48 then Some (neg, [48], s2)
      else if is_digit c then let '(d, r) := span_digits s2 in Some (neg, c :: d, r)
      else None
  | [] => None
  end.

(** The fraction [(\.[0-9]+)?]. *)
Definition match_frac (s : str) : option str * str :=
  match s with
  | 46 :: s1 =>
      match span_digits s1 with
      | ([], _) => (None, s)
      | (d, r) => (Some d, r)
      end
  | _ => (None, s)
  end.

(** The exponent [([eE][-+]?[0-9]+)?]. *)
Definition match_exp (s : str) : option Z * str :=
  match s with
  | e :: s1 =>
      if (e =? 101) || (e =? 69) then
        let '(neg, s2) := match s1 with
                          | 45 :: s2 => (true, s2)
                          | 43 :: s2 => (false, s2)
                          | _ => (false, s1)
                          end in
        match span_digits s2 with
        | ([], _) => (None, s)
        | (d, r) =>
            let x := Z.of_N (N_of_digits d) in
            (Some (if neg then - x else x)%Z, r)
        end
      else (None, s)
  | [] => (None, s)
  end.

(** [sys.int_info.default_max_str_digits]. *)
Definition max_str_digits : nat := 4300.

(** [_match_number]: an [int] when there is neither fraction nor
    exponent, a [float] otherwise. *)
Definition match_number (s : str) : res (json * str) :=
  match match_integer s with
  | None => fail "Expecting value"
  | Some (neg, int_digits, s1) =>
      let '(frac, s2) := match_frac s1 in
      let '(ex, s3) := match_exp s2 in
      match frac, ex with
      | None, None =>
          if decide (max_str_digits < length int_digits)%nat
          then inl (ValueError "Exceeds the limit (4300 digits) for integer string conversion")
          else
            let n := Z.of_N (N_of_digits int_digits) in
            inr (JInt (if neg then - n else n)%Z, s3)
      | _, _ =>
          let fd := default [] frac in
          inr (JFloat (FDec neg (N_of_digits (int_digits ++ fd))
                            (default 0 ex - Z.of_nat (length fd))%Z), s3)
      end
  end.

(** [s[idx:idx+len(w)] == w], and the rest after [w]. *)
Definition eat (w s : str) : option str :=
  if is_prefix w s then Some (drop (length w) s) else None.

(** [scan_once], with the loops of [JSONObject] and [JSONArray]. In
    [object_items] the input stands at the quote of a key, in
    [array_items] at a value. *)
Fixpoint scan_once (fuel : nat) (s : str) : res (json * str) :=
  match fuel with
  | O => fail "Expecting value"
  | S fuel =>
      match s with
      | [] => fail "Expecting value"
      | c :: rest =>
          if c =? 34 then
            let* (x, r) := scan_string (length rest) rest [] in inr (JStr x, r)
          else if c =? 123 then
            match skip_ws rest with
            | 125 :: r => inr (JDict ∅, r)
            | r => object_items fuel r ∅
            end
          else if c =? 91 then
            match skip_ws rest with
            | 93 :: r => inr (JList [], r)
            | r => array_items fuel r []
            end
          else
            match eat (u "null") s, eat (u "true") s, eat (u "false") s with
            | Some r, _, _ => inr (JNull, r)
            | _, Some r, _ => inr (JBool true, r)
            | _, _, Some r => inr (JBool false, r)
            | None, None, None =>
                match eat (u "NaN") s, eat (u "Infinity") s, eat (u "-Infinity") s with
                | Some r, _, _ => inr (JFloat FNaN, r)
                | _, Some r, _ => inr (JFloat (FInf false), r)
                | _, _, Some r => inr (JFloat (FInf true), r)
                | None, None, None => match_number s
                end
            end
      end
  end
with object_items (fuel : nat) (s : str) (acc : dict) : res (json * str) :=
  match fuel with
  | O => fail "Expecting value"
  | S fuel =>
      match s with
      | 34 :: rest =>
          let* (key, r1) := scan_string (length rest) rest [] in
          match skip_ws r1 with
          | 58 :: r2 =>
              let* (v, r3) := scan_once fuel (skip_ws r2) in
              let acc := <[key := v]> acc in
              match skip_ws r3 with
              | 125 :: r4 => inr (JDict acc, r4)
              | 44 :: r4 => object_items fuel (skip_ws r4) acc
              | _ => fail "Expecting ',' delimiter"
              end
          | _ => fail "Expecting ':' delimiter"
          end
      | _ => fail "Expecting property name enclosed in double quotes"
      end
  end
with array_items (fuel : nat) (s : str) (acc : list json) : res (json * str) :=
  match fuel with
  | O => fail "Expecting value"
  | S fuel =>
      let* (v, r1) := scan_once fuel s in
      let acc := acc ++ [v] in
      match skip_ws r1 with
      | 93 :: r2 => inr (JList acc, r2)
      | 44 :: r2 => array_items fuel (skip_ws r2) acc
      | _ => fail "Expecting ',' delimiter"
      end
  end.

(** [json.loads(s)] for a [str]. *)
Definition loads (s : str) : res json :=
  match s with
  | 65279 :: _ => fail "Unexpected UTF-8 BOM (decode using utf-8-sig)"
  | _ =>
      let* (obj, rest) := scan_once (S (length s)) (skip_ws s) in
      match skip_ws rest with
      | [] => inr obj
      | _ => fail "Extra data"
      end
  end.

(** The decoder as an instance of the interface, for a given [repr]. *)
Definition lib (repr : json -> str) : PyLib :=
  {| json_exn := exn; json_loads := loads; py_repr := repr |}.

End JsonRef.

(* ===================================================================== *)
(** ** The photo data URL *)
(* ===================================================================== *)

(** [base64.b64encode] (RFC 4648, standard alphabet, padded), and the
    strict decoder that reads such text back. *)
Module Base64.

Definition alphabet : list byte :=
  list_byte_of_string
    "ABCDEFGHIJKLMNOPQRSTUVWXYZabcdefghijklmnopqrstuvwxyz0123456789+/".

Definition pad : byte := "="%byte.

(** The character of a 6-bit value. *)
Definition b64_char (i : N) : byte := nth (N.to_nat i) alphabet pad.

(** The four characters of a group of three bytes. *)
Definition sextets (a b c : N) : N * N * N * N :=
  (N.shiftr a 2,
   N.lor (N.shiftl (N.land a 3) 4) (N.shiftr b 4),
   N.lor (N.shiftl (N.land b 15) 2) (N.shiftr c 6),
   N.land c 63).

Fixpoint b64encode (bs : list byte) : list byte :=
  match bs with
  | [] => []
  | [a] =>
      let '(s1, s2, _, _) := sextets (Byte.to_N a) 0 0 in
      [b64_char s1; b64_char s2; pad; pad]
  | [a; b] =>
      let '(s1, s2, s3, _) := sextets (Byte.to_N a) (Byte.to_N b) 0 in
      [b64_char s1; b64_char s2; b64_char s3; pad]
  | a :: b :: c :: rest =>
      let '(s1, s2, s3, s4) := sextets (Byte.to_N a) (Byte.to_N b) (Byte.to_N c) in
      b64_char s1 :: b64_char s2 :: b64_char s3 :: b64_char s4 :: b64encode rest
  end.

(** The 6-bit value of a character of the alphabet. *)
Definition b64_value (ch : byte) : option N :=
  let x := Byte.to_N ch in
  if (65 <=? x) && (x <=? 90) then Some (x - 65)
  else if (97 <=? x) && (x <=? 122) then Some (x - 71)
  else if (48 <=? x) && (x <=? 57) then Some (x + 4)
  else if x =? 43 then Some 62
  else if x =? 47 then Some 63
  else None.

(** The bytes of a group of four 6-bit values. *)
Definition octets (s1 s2 s3 s4 : N) : N * N * N :=
  (N.lor (N.shiftl s1 2) (N.shiftr s2 4),
   N.lor (N.shiftl (N.land s2 15) 4) (N.shiftr s3 2),
   N.lor (N.shiftl (N.land s3 3) 6) s4).

Definition is_pad (ch : byte) : bool := Byte.eqb ch pad.

Fixpoint b64decode (cs : list byte) : option (list byte) :=
  match cs with
  | [] => Some []
  | c1 :: c2 :: c3 :: c4 :: rest =>
      s1 ← b64_value c1;
      s2 ← b64_value c2;
      if is_pad c3 && is_pad c4 then
        match rest with
        | [] => let '(a, _, _) := octets s1 s2 0 0 in a' ← Byte.of_N a; Some [a']
        | _ => None
        end
      else
        s3 ← b64_value c3;
        if is_pad c4 then
          match rest with
          | [] =>
              let '(a, b, _) := octets s1 s2 s3 0 in
              a' ← Byte.of_N a; b' ← Byte.of_N b; Some [a'; b']
          | _ => None
          end
        else
          s4 ← b64_value c4;
          let '(a, b, c) := octets s1 s2 s3 s4 in
          a' ← Byte.of_N a; b' ← Byte.of_N b; c' ← Byte.of_N c;
          tl ← b64decode rest;
          Some (a' :: b' :: c' :: tl)
  | _ => None
  end.

(** Exhaustive checks on which the round trip rests: every byte, and
    what the decoder needs of the characters of a group. *)
Definition all_bytes : list byte := omap Byte.of_N (map N.of_nat (seq 0 256)).

Definition head_ok (a b : byte) : bool :=
  let '(s1, s2, _, _) := sextets (Byte.to_N a) (Byte.to_N b) 0 in
  (s1 <? 64) && (s2 <? 64)
  && (N.lor (N.shiftl s1 2) (N.shiftr s2 4) =? Byte.to_N a)
  && (N.land s2 15 =? N.shiftr (Byte.to_N b) 4).

Definition tail_ok (b c : byte) : bool :=
  let '(_, _, s3, s4) := sextets 0 (Byte.to_N b) (Byte.to_N c) in
  (s3 <? 64) && (s4 <? 64)
  && (N.lor (N.shiftl (N.shiftr (Byte.to_N b) 4) 4) (N.shiftr s3 2) =? Byte.to_N b)
  && (N.lor (N.shiftl (N.land s3 3) 6) s4 =? Byte.to_N c).

Definition char_ok (i : N) : bool :=
  bool_decide (b64_value (b64_char i) = Some i) && negb (is_pad (b64_char i)).

End Base64.

(** [bs.decode("ascii")]: defined when every byte is below 128. *)
Definition decode_ascii (bs : list byte) : option str :=
  if forallb (fun b => Byte.to_N b <? 128) bs then Some (map Byte.to_N bs) else None.

Definition data_url_prefix : str := u "data:image/png;base64,".

(** Lines 479-480: [photo_data_url] from [agent_img_bytes]. *)
Definition photo_data_url (agent_img_bytes : list byte) : option str :=
  b64_photo ← decode_ascii (Base64.b64encode agent_img_bytes);
  Some (data_url_prefix ++ b64_photo).

(** Lines 483-489: the data URL of a font file, from its bytes. *)
Definition font_data_url_prefix : str := u "data:font/ttf;base64,".

Definition font_data_url (font_bytes : list byte) : option str :=
  b64 ← decode_ascii (Base64.b64encode font_bytes);
  Some (font_data_url_prefix ++ b64).

(* ===================================================================== *)
(** ** From the returned record to the arguments of the template *)
(* ===================================================================== *)

(** The exceptions of lines 473-513: [d[k]] on a dict without [k], [v[k]]
    on a value that is not a dict or [table.get] on an unhashable name,
    [decode("ascii")], and [open(path, "rb")] or [f.read()] on a file that
    cannot be read ([OSError], of which [FileNotFoundError] is the case of
    a missing file). *)
Inductive ui_error : Type :=
| KeyError (k : str)
| TypeError
| UnicodeDecodeError
| OSError (path : str).

(** The files as lines 483-486 find them: [fs path] is what
    [open(path, "rb")] followed by [f.read()] returns, and [None] when
    either raises. *)
Abbreviation files := (str -> option (list byte)).

Definition regular_font_path : str := u "NotoSansTamil-Regular.ttf".
Definition bold_font_path : str := u "NotoSansTamil-Bold.ttf".

(** [with open(path, "rb") as f: ... f.read()]. *)
Definition read_file (fs : files) (path : str) : ui_error + list byte :=
  match fs path with
  | Some bs => inr bs
  | None => inl (OSError path)
  end.

(** [v[k]] for a string key [k]. *)
Definition subscript (v : json) (k : str) : ui_error + json :=
  match v with
  | JDict d =>
      match d !! k with
      | Some x => inr x
      | None => inl (KeyError k)
      end
  | _ => inl TypeError
  end.

(** [hash(v)] is defined: [v] is neither a list nor a dict. *)
Definition hashable (v : json) : bool :=
  match v with
  | JList _ | JDict _ => false
  | _ => true
  end.

(** [color_from_name(name, fallback)] on any decoded value: only a [str]
    equals a key of the table, and [table.get] hashes its argument. *)
Definition color_from_value (name : json) (fallback : str) : ui_error + str :=
  match name with
  | JStr s => inr (color_from_name s fallback)
  | JList _ | JDict _ => inl TypeError
  | _ => inr fallback
  end.

(** [theme_colors(theme)] on any decoded value: only a [str] equals a
    theme name. *)
Definition theme_colors_of (theme : json) : str * str * str :=
  match theme with
  | JStr s => theme_colors s
  | _ => (u "#e0f2fe", u "#ffedd5", u "#0f172a")
  end.

(** The keyword arguments of [POSTER_HTML.render] (lines 492-513). *)
Record poster_context : Type := {
  ctx_width : N;
  ctx_height : N;
  ctx_footer_height : N;
  ctx_top_color : str;
  ctx_bottom_color : str;
  ctx_footer_color : str;
  ctx_headline_color : str;
  ctx_body_color : str;
  ctx_cta_color : str;
  ctx_headline : json;
  ctx_subheadline : json;
  ctx_body_paragraph : json;
  ctx_bullet_points : json;
  ctx_cta_line : json;
  ctx_agent_name : str;
  ctx_agent_role : str;
  ctx_agent_phone : str;
  ctx_photo_data_url : str;
  ctx_regular_font_data_url : str;
  ctx_bold_font_data_url : str;
}.

Definition ebind {A B : Type} (x : ui_error + A) (f : A -> ui_error + B) : ui_error + B :=
  match x with
  | inl e => inl e
  | inr a => f a
  end.

Definition of_option {A : Type} (e : ui_error) (x : option A) : ui_error + A :=
  match x with
  | Some a => inr a
  | None => inl e
  end.

(** Lines 473-513 up to the call of [render]: the colours, the photo, the
    two font files and the arguments are evaluated in the order of the
    source, and the first exception leaves. *)
Definition poster_context_of (fs : files) (text_spec : dict) (name role number : str)
    (agent_img_bytes : list byte) : ui_error + poster_context :=
  ebind (subscript (JDict text_spec) (u "color_theme")) (fun theme =>
  let '(top_color, bottom_color, footer_color) := theme_colors_of theme in
  ebind (subscript (JDict text_spec) (u "text_colors")) (fun tc1 =>
  ebind (subscript tc1 (u "headline")) (fun h =>
  ebind (color_from_value h (u "#0f172a")) (fun headline_color =>
  ebind (subscript (JDict text_spec) (u "text_colors")) (fun tc2 =>
  ebind (subscript tc2 (u "body")) (fun b =>
  ebind (color_from_value b (u "#111827")) (fun body_color =>
  ebind (subscript (JDict text_spec) (u "text_colors")) (fun tc3 =>
  ebind (subscript tc3 (u "cta")) (fun c =>
  ebind (color_from_value c (u "#b91c1c")) (fun cta_color =>
  ebind (of_option UnicodeDecodeError (photo_data_url agent_img_bytes)) (fun photo =>
  ebind (read_file fs regular_font_path) (fun regular_font =>
  ebind (of_option UnicodeDecodeError (font_data_url regular_font)) (fun regular =>
  ebind (read_file fs bold_font_path) (fun bold_font =>
  ebind (of_option UnicodeDecodeError (font_data_url bold_font)) (fun bold =>
  ebind (subscript (JDict text_spec) (u "headline_ta")) (fun headline =>
  let subheadline := dict_get_or text_spec (u "subheadline_ta") (JStr []) in
  ebind (subscript (JDict text_spec) (u "body_paragraph_ta")) (fun body_paragraph =>
  ebind (subscript (JDict text_spec) (u "bullet_points_ta")) (fun bullet_points =>
  ebind (subscript (JDict text_spec) (u "cta_line_ta")) (fun cta_line =>
  inr {| ctx_width := POSTER_WIDTH;
         ctx_height := POSTER_HEIGHT;
         ctx_footer_height := FOOTER_HEIGHT;
         ctx_top_color := top_color;
         ctx_bottom_color := bottom_color;
         ctx_footer_color := footer_color;
         ctx_headline_color := headline_color;
         ctx_body_color := body_color;
         ctx_cta_color := cta_color;
         ctx_headline := headline;
         ctx_subheadline := subheadline;
         ctx_body_paragraph := body_paragraph;
         ctx_bullet_points := bullet_points;
         ctx_cta_line := cta_line;
         ctx_agent_name := name;
         ctx_agent_role := role;
         ctx_agent_phone := number;
         ctx_photo_data_url := photo;
         ctx_regular_font_data_url := regular;
         ctx_bold_font_data_url := bold |}))))))))))))))))))).

(** A colour as the style sheet takes it: [#] and six hexadecimal digits. *)
Definition is_hex_digit (c : N) : bool :=
  ((48 <=? c) && (c <=? 57)) || ((97 <=? c) && (c <=? 102)) || ((65 <=? c) && (c <=? 70)).

Definition is_hex_color (s : str) : bool :=
  match s with
  | 35 :: digits => (length digits =? 6)%nat && forallb is_hex_digit digits
  | _ => false
  end.

(** The characters of base64 text. *)
Definition is_b64_char (c : N) : bool :=
  ((65 <=? c) && (c <=? 90)) || ((97 <=? c) && (c <=? 122)) || ((48 <=? c) && (c <=? 57))
  || (c =? 43) || (c =? 47) || (c =? 61).

(** The texts of the parts of a reply: [t] is the [text] of a part of the
    content of a candidate. *)
Definition part_text_of (result : response) (t : str) : Prop :=
  exists cands cand ct parts p,
    candidates result = Some cands /\ cand ∈ cands
    /\ cand_content cand = Some ct
    /\ content_parts ct = Some parts /\ p ∈ parts
    /\ part_text p = Some t.

(** Made of whitespace only. *)
Definition blank (s : str) : Prop := Forall (fun c => py_isspace c = true) s.

(** Neither the first nor the last character is whitespace. *)
Definition trimmed (s : str) : Prop :=
  match s with
  | [] => True
  | c :: _ => py_isspace c = false
  end
  /\ match rev s with
     | [] => True
     | c :: _ => py_isspace c = false
     end.

(* ===================================================================== *)
(** ** Records and replies used in the statements *)
(* ===================================================================== *)

(** The three constants of [text_colors]. *)
Definition default_text_colors : dict :=
  <[u "headline" := JStr (u "dark_blue")]>
    (<[u "body" := JStr (u "black")]> (<[u "cta" := JStr (u "red")]> ∅)).

(** A normalised copy record: a known theme, exactly 3 bullets in a list,
    and a [text_colors] that is the record of the three roles. *)
Definition normalized (record : dict) : Prop :=
  (exists t, record !! u "color_theme" = Some (JStr t) /\ t ∈ known_themes)
  /\ (exists a b c, record !! u "bullet_points_ta" = Some (JList [a; b; c]))
  /\ (exists tc, record !! u "text_colors" = Some (JDict tc)
                 /\ dom tc = ({[u "headline"; u "body"; u "cta"]} : gset str)).

(** The library used to run the examples: the reference decoder; none of
    the examples prints a float or a container, and [repr] is left empty. *)
Definition reference : PyLib := JsonRef.lib (fun _ => []).

(** A literal between double quotes. *)
Definition q (s : string) : str := [34] ++ u s ++ [34].

(** A reply with 5 bullets, an unknown theme and no [text_colors]. *)
Definition sample_members : str :=
  concat
    [ q "headline_ta" ++ u ": " ++ q "X" ++ u ",";
      u " " ++ q "body_paragraph_ta" ++ u ": " ++ q "Y" ++ u ",";
      u " " ++ q "bullet_points_ta" ++ u ": ["
        ++ q "A" ++ u ", " ++ q "B" ++ u ", " ++ q "C" ++ u ", " ++ q "D" ++ u ", " ++ q "E"
        ++ u "],";
      u " " ++ q "cta_line_ta" ++ u ": " ++ q "Z" ++ u ",";
      u " " ++ q "color_theme" ++ u ": " ++ q "purple_pink" ].

Definition sample_object_text : str := 123 :: sample_members ++ [125].

Definition sample_fenced_reply : str :=
  u "```json" ++ [10] ++ sample_object_text ++ [10] ++ u "```".

Definition sample_unfenced_reply : str :=
  u "Here is the copy: " ++ sample_object_text ++ u " Done.".

(** The record returned for both replies. *)
Definition sample_record : dict :=
  <[u "text_colors" := JDict default_text_colors]>
    (<[u "bullet_points_ta" := JList [JStr (u "A"); JStr (u "B"); JStr (u "C")]]>
       (<[u "color_theme" := JStr (u "blue_orange")]>
          (<[u "cta_line_ta" := JStr (u "Z")]>
             (<[u "body_paragraph_ta" := JStr (u "Y")]>
                (<[u "headline_ta" := JStr (u "X")]> ∅))))).

(** A decoded object with 5 bullets, an unknown theme and no
    [text_colors]. *)
Definition sample_parsed : dict :=
  <[u "headline_ta" := JStr (u "X")]>
    (<[u "bullet_points_ta" :=
         JList [JStr (u "A"); JStr (u "B"); JStr (u "C"); JStr (u "D"); JStr (u "E")]]>
       (<[u "color_theme" := JStr (u "purple_pink")]> ∅)).

(** A decoded object with a number where the bullets should be. *)
Definition zero_bullets_parsed : dict :=
  <[u "bullet_points_ta" := JInt 0]> (<[u "color_theme" := JStr (u "green_gold")]> ∅).

(** A decoded object with one string where the bullets should be, and a
    partial [text_colors]. *)
Definition one_bullet_parsed : dict :=
  <[u "bullet_points_ta" := JStr (u "A")]>
    (<[u "text_colors" := JDict (<[u "body" := JStr (u "dark_gray")]> ∅)]>
       (<[u "headline_ta" := JStr (u "X")]> ∅)).

Definition one_bullet_record : dict :=
  <[u "text_colors" :=
      JDict (<[u "headline" := JStr (u "dark_blue")]>
               (<[u "body" := JStr (u "dark_gray")]>
                  (<[u "cta" := JStr (u "red")]> ∅)))]>
    (<[u "bullet_points_ta" := JList [JStr (u "A")]]>
       (<[u "color_theme" := JStr (u "blue_orange")]>
          (<[u "headline_ta" := JStr (u "X")]> ∅))).

(** A decoded object with an unknown theme and a string where the
    [text_colors] record should be. *)
Definition string_text_colors_parsed : dict :=
  <[u "color_theme" := JStr (u "purple_pink")]> (<[u "text_colors" := JStr (u "red")]> ∅).

(** A decoded object with 3 bullets, a known theme, the three roles and
    one more entry in [text_colors]. *)
Definition extra_role_record : dict :=
  <[u "text_colors" :=
      JDict (<[u "footer" := JStr (u "white")]> default_text_colors)]>
    (<[u "bullet_points_ta" := JList [JStr (u "A"); JStr (u "B"); JStr (u "C")]]>
       (<[u "color_theme" := JStr (u "green_gold")]> ∅)).

Definition three_roles_record : dict :=
  <[u "text_colors" := JDict default_text_colors]>
    (<[u "bullet_points_ta" := JList [JStr (u "A"); JStr (u "B"); JStr (u "C")]]>
       (<[u "color_theme" := JStr (u "green_gold")]> ∅)).

(** Both font files in place, and the bold one missing. *)
Definition fonts_present : files :=
  fun path =>
    if decide (path = regular_font_path) then Some ["000"%byte; "001"%byte]
    else if decide (path = bold_font_path) then Some ["000"%byte; "002"%byte]
    else None.

Definition bold_font_missing : files :=
  fun path => if decide (path = regular_font_path) then Some ["000"%byte; "001"%byte] else None.

(** A JSON object with a closing brace inside a string: the members, the
    text, the text fenced, and what the brace scan takes of the text. *)
Definition brace_in_string_members : str := q "headline_ta" ++ u ": " ++ q "}".

Definition brace_in_string_text : str := 123 :: brace_in_string_members ++ [125].

Definition brace_in_string_fenced : str :=
  u "```json" ++ [10] ++ brace_in_string_text ++ [10] ++ u "```".

Definition brace_in_string_cut : str := u "{" ++ q "headline_ta" ++ u ": " ++ [34] ++ u "}".

(* ===================================================================== *)
(** * Properties *)
(* ===================================================================== *)

(** Two different literal keys. *)
Ltac keys_differ := let H := fresh in intros H; vm_compute in H; discriminate H.

(** Membership of a literal in a list of literals. *)
Ltac in_literals := apply (bool_decide_unpack _); vm_compute; exact I.

(* --------------------------------------------------------------------- *)
(** ** Colour resolution *)
(* --------------------------------------------------------------------- *)



Lemma color_from_name_unknown name fallback :
  name ∉ color_table.*1 -> color_from_name name fallback = fallback.
Proof.
  intros Hnot. unfold color_from_name.
  by rewrite (not_elem_of_list_to_map_1 color_table name).
Qed.




(* --------------------------------------------------------------------- *)
(** ** The photo data URL *)
(* --------------------------------------------------------------------- *)

Section Base64Facts.
Import Base64.

Lemma all_bytes_complete (b : byte) : b ∈ all_bytes.
Proof.
apply list_elem_of_lookup. exists (N.to_nat (Byte.to_N b)).
destruct b; vm_compute; reflexivity.
Qed.

Lemma forall_byte (P : byte -> bool) :
forallb P all_bytes = true -> forall b, P b = true.
Proof.
intros H b. rewrite forallb_forall in H. apply H.
apply list_elem_of_In, all_bytes_complete.
Qed.

Lemma forall_byte2 (P : byte -> byte -> bool) :
forallb (fun a => forallb (P a) all_bytes) all_bytes = true -> forall a b, P a b = true.
Proof.
intros H a b. apply forall_byte. revert a. apply forall_byte. exact H.
Qed.

Lemma forall_below (n : nat) (P : N -> bool) :
forallb P (map N.of_nat (seq 0 n)) = true -> forall i, i < N.of_nat n -> P i = true.
Proof.
intros H i Hi. rewrite forallb_forall in H. apply H.
apply in_map_iff. exists (N.to_nat i). split; [lia |].
apply in_seq. lia.
Qed.

Lemma head_ok_all a b : head_ok a b = true.
Proof. revert a b. apply forall_byte2. vm_compute. reflexivity. Qed.

Lemma tail_ok_all b c : tail_ok b c = true.
Proof. revert b c. apply forall_byte2. vm_compute. reflexivity. Qed.

Lemma char_ok_below i : i < 64 -> char_ok i = true.
Proof. apply (forall_below 64). vm_compute. reflexivity. Qed.

Lemma list_ind3 {A} (P : list A -> Prop) :
P [] -> (forall a, P [a]) -> (forall a b, P [a; b]) ->
(forall a b c l, P l -> P (a :: b :: c :: l)) ->
forall l, P l.
Proof.
intros H0 H1 H2 H3 l.
assert (P l /\ (forall a, P (a :: l)) /\ (forall a b, P (a :: b :: l))) as [H _].
{ induction l as [| c l (IH0 & IH1 & IH2)]; [auto |].
  split; [apply IH1 |]. split; [intro; apply IH2 |].
  intros a b. apply H3, IH0. }
exact H.
Qed.

(** The sextets of a group, with what the decoder needs of them. *)
Lemma sextets_spec (a b c : byte) :
exists s1 s2 s3 s4,
  sextets (Byte.to_N a) (Byte.to_N b) (Byte.to_N c) = (s1, s2, s3, s4)
  /\ (s1 < 64 /\ s2 < 64 /\ s3 < 64 /\ s4 < 64)
  /\ octets s1 s2 s3 s4 = (Byte.to_N a, Byte.to_N b, Byte.to_N c).
Proof.
pose proof (head_ok_all a b) as Hh. pose proof (tail_ok_all b c) as Ht.
unfold head_ok, tail_ok, sextets in Hh, Ht.
repeat (apply andb_prop in Hh as [Hh ?]). repeat (apply andb_prop in Ht as [Ht ?]).
unfold sextets, octets. do 4 eexists. split; [reflexivity |].
repeat match goal with
       | H : (_ <? _) = true |- _ => apply N.ltb_lt in H
       | H : (_ =? _) = true |- _ => apply N.eqb_eq in H
       end.
split; [auto |].
repeat f_equal; try assumption.
match goal with H : N.land _ 15 = _ |- _ => rewrite H end. assumption.
Qed.

Lemma b64_value_char i : i < 64 -> b64_value (b64_char i) = Some i.
Proof.
intros Hi. pose proof (char_ok_below i Hi) as H. unfold char_ok in H.
apply andb_prop in H as [H _]. by apply bool_decide_eq_true in H.
Qed.

Lemma b64_char_not_pad i : i < 64 -> is_pad (b64_char i) = false.
Proof.
intros Hi. pose proof (char_ok_below i Hi) as H. unfold char_ok in H.
apply andb_prop in H as [_ H]. by apply negb_true_iff in H.
Qed.

Lemma is_pad_pad : is_pad pad = true.
Proof. reflexivity. Qed.

Lemma b64decode_b64encode (bs : list byte) : b64decode (b64encode bs) = Some bs.
Proof.
induction bs as [| a | a b | a b c rest IH] using list_ind3.
- reflexivity.
- destruct (sextets_spec a "000"%byte "000"%byte) as (s1 & s2 & s3 & s4 & Hs & (H1 & H2 & _) & Ho).
  change (Byte.to_N "000"%byte) with 0 in *.
  cbn [b64encode]. rewrite Hs. cbn [b64decode].
  rewrite !b64_value_char by assumption. cbn [mbind option_bind].
  rewrite !is_pad_pad. cbn [andb].
  unfold octets in *. injection Ho as Ha _ _. rewrite Ha, Byte.of_to_N. reflexivity.
- destruct (sextets_spec a b "000"%byte) as (s1 & s2 & s3 & s4 & Hs & (H1 & H2 & H3 & _) & Ho).
  change (Byte.to_N "000"%byte) with 0 in *.
  cbn [b64encode]. rewrite Hs. cbn [b64decode].
  rewrite !b64_value_char by assumption. cbn [mbind option_bind].
  rewrite b64_char_not_pad by assumption. cbn [andb].
  rewrite is_pad_pad.
  unfold octets in *. injection Ho as Ha Hb _. rewrite Ha, Hb, !Byte.of_to_N. reflexivity.
- destruct (sextets_spec a b c) as (s1 & s2 & s3 & s4 & Hs & (H1 & H2 & H3 & H4) & Ho).
  cbn [b64encode]. rewrite Hs. cbn [b64decode].
  rewrite !b64_value_char by assumption. cbn [mbind option_bind].
  rewrite !b64_char_not_pad by assumption. cbn [andb].
  rewrite Ho. rewrite !Byte.of_to_N. cbn [mbind option_bind]. rewrite IH. reflexivity.
Qed.

Lemma b64_char_ascii i : (Byte.to_N (b64_char i) <? 128) = true.
Proof.
unfold b64_char.
assert (Forall (fun b => (Byte.to_N b <? 128) = true) alphabet) as Hall.
{ apply Forall_forall. intros b Hb. revert b Hb. apply Forall_forall.
  apply (bool_decide_unpack _). vm_compute. reflexivity. }
generalize (N.to_nat i). induction Hall as [| x l Hx _ IH]; intros [| n]; simpl; auto.
Qed.

Lemma b64encode_ascii bs : forallb (fun b => Byte.to_N b <? 128) (b64encode bs) = true.
Proof.
induction bs as [| a | a b | a b c rest IH] using list_ind3.
- reflexivity.
- cbn [b64encode sextets forallb]. rewrite !b64_char_ascii. reflexivity.
- cbn [b64encode sextets forallb]. rewrite !b64_char_ascii. reflexivity.
- cbn [b64encode sextets forallb]. rewrite !b64_char_ascii, IH. reflexivity.
Qed.

End Base64Facts.

(** C9. For every sequence of photo bytes the data URL is defined, it is
    the fixed text ["data:image/png;base64,"] followed by the base64 text
    of the bytes, and that base64 text decodes to exactly those bytes; the
    declared type [image/png] does not depend on the bytes. *)
Theorem photo_data_url_is_base64_png (agent_img_bytes : list byte) :
  photo_data_url agent_img_bytes
    = Some (u "data:image/png;base64,"
            ++ map Byte.to_N (Base64.b64encode agent_img_bytes))
  /\ Base64.b64decode (Base64.b64encode agent_img_bytes) = Some agent_img_bytes.
Proof.
  split; [| apply b64decode_b64encode].
  unfold photo_data_url, decode_ascii. rewrite b64encode_ascii. reflexivity.
Qed.

(** The first bytes of a JPEG file are still declared as [image/png]. *)
Example photo_data_url_jpeg :
  photo_data_url ["255"%byte; "216"%byte; "255"%byte]
  = Some (u "data:image/png;base64,/9j/").
Proof. vm_compute. reflexivity. Qed.

(* --------------------------------------------------------------------- *)
(** ** The style block of the prompt *)
(* --------------------------------------------------------------------- *)

(** C7. For every style mode, known or not: the block is chosen by
    equality with ["Conversation"] and ["Fact-based awareness"], any other
    mode taking the direct-marketing block; and the prompt holds exactly
    one occurrence of a style block, the chosen one (the three blocks
    together occur once, and so does the heading ["STYLE:"]). *)
Theorem prompt_has_one_style_block (style_mode : str) :
  (style_mode = u "Conversation" -> build_style_block style_mode = conversation_block)
  /\ (style_mode = u "Fact-based awareness" -> build_style_block style_mode = fact_block)
  /\ (style_mode <> u "Conversation" -> style_mode <> u "Fact-based awareness" ->
      build_style_block style_mode = marketing_block)
  /\ (count_sub conversation_block (build_prompt style_mode)
      + count_sub fact_block (build_prompt style_mode)
      + count_sub marketing_block (build_prompt style_mode) = 1)%nat
  /\ count_sub (build_style_block style_mode) (build_prompt style_mode) = 1%nat
  /\ count_sub (u "STYLE:") (build_prompt style_mode) = 1%nat.
Proof.
  unfold build_prompt, build_style_block.
  destruct (decide (style_mode = u "Conversation")) as [-> | Hc];
    [| destruct (decide (style_mode = u "Fact-based awareness")) as [-> | Hf]].
  - split; [reflexivity |]. split; [intros H; vm_compute in H; discriminate H |].
    split; [intros H; by destruct H |].
    split; [vm_compute; reflexivity |]. split; vm_compute; reflexivity.
  - split; [intros H; vm_compute in H; discriminate H |]. split; [reflexivity |].
    split; [intros _ H; by destruct H |].
    split; [vm_compute; reflexivity |]. split; vm_compute; reflexivity.
  - split; [intros H; by destruct Hc |]. split; [intros H; by destruct Hf |].
    split; [reflexivity |].
    split; [vm_compute; reflexivity |]. split; vm_compute; reflexivity.
Qed.

Lemma prompt_has_one_style_block_witness :
  build_style_block (u "conversation") = marketing_block
  /\ count_sub (build_style_block (u "conversation")) (build_prompt (u "conversation")) = 1%nat
  /\ build_style_block (u "Conversation") = conversation_block.
Proof.
  destruct (prompt_has_one_style_block (u "conversation")) as (_ & _ & Hother & _ & Hone & _).
  destruct (prompt_has_one_style_block (u "Conversation")) as (Hconv & _).
  split; [| split].
  - apply Hother; intros H; vm_compute in H; discriminate H.
  - exact Hone.
  - apply Hconv. reflexivity.
Defined.

(* --------------------------------------------------------------------- *)
(** ** Normalisation of the decoded object *)
(* --------------------------------------------------------------------- *)

Lemma theme_known_inv v :
  theme_known v = true -> exists t, v = JStr t /\ t ∈ known_themes.
Proof.
  destruct v; simpl; try discriminate.
  intros H. apply bool_decide_eq_true in H. eauto.
Qed.

Lemma resolve_theme_known parsed :
  exists t, resolve_theme parsed = JStr t /\ t ∈ known_themes.
Proof.
  unfold resolve_theme.
  destruct (theme_known _) eqn:Hk.
  - by apply theme_known_inv.
  - exists (u "blue_orange"). split; [reflexivity |]. unfold known_themes. set_solver.
Qed.

Lemma resolve_theme_default parsed :
  (parsed !! u "color_theme" = None
   \/ exists v, parsed !! u "color_theme" = Some v /\ theme_known v = false) ->
  resolve_theme parsed = JStr (u "blue_orange").
Proof.
  unfold resolve_theme, dict_get_or.
  intros [-> | (v & -> & Hv)]; simpl; [reflexivity |]. by rewrite Hv.
Qed.

Lemma resolve_theme_keep parsed t :
  parsed !! u "color_theme" = Some (JStr t) -> t ∈ known_themes ->
  resolve_theme parsed = JStr t.
Proof.
  intros Hp Ht. unfold resolve_theme, dict_get_or. rewrite Hp. simpl.
  by rewrite bool_decide_eq_true_2.
Qed.

Lemma py_truthy_dict d : py_truthy (JDict d) = false <-> d = ∅.
Proof.
  simpl. destruct (map_to_list d) eqn:Hl.
  - split; [intros _; by apply map_to_list_empty_iff | reflexivity].
  - split; [discriminate |]. intros ->. by rewrite map_to_list_empty in Hl.
Qed.

(** The record that the three roles are read from. *)
Lemma text_colors_source (parsed : dict) tc :
  py_or (dict_get parsed (u "text_colors")) (JDict ∅) = JDict tc <->
  parsed !! u "text_colors" = Some (JDict tc)
  \/ (tc = ∅ /\ (parsed !! u "text_colors" = None
                 \/ exists v, parsed !! u "text_colors" = Some v /\ py_truthy v = false)).
Proof.
  unfold py_or, dict_get.
  destruct (parsed !! u "text_colors") as [v |] eqn:Hv; simpl.
  - destruct (py_truthy v) eqn:Ht.
    + split.
      * intros ->. by left.
      * intros [[= ->] | (_ & [[=] | (w & [= <-] & Hw)])]; [reflexivity | congruence].
    + split.
      * intros [= <-]. right. split; [reflexivity |]. right. eauto.
      * intros [[= ->] | (-> & _)]; [| reflexivity].
        apply py_truthy_dict in Ht. by rewrite Ht.
  - split.
    + intros [= <-]. right. auto.
    + intros [[=] | (-> & _)]. reflexivity.
Qed.

Section NormalizeFacts.
Context `{L : PyLib}.

(** The three assignments of the normalisation, written out. *)
Lemma normalize_fields_inr parsed r :
  normalize_fields parsed = inr r <->
  exists tc,
    py_or (dict_get parsed (u "text_colors")) (JDict ∅) = JDict tc
    /\ r = <[u "text_colors" := JDict (text_colors_record tc)]>
             (<[u "bullet_points_ta" := JList (take 3 (bullets_of parsed))]>
                (<[u "color_theme" := resolve_theme parsed]> parsed)).
Proof.
  unfold normalize_fields, normalize_text_colors, normalize_bullets, normalize_theme.
  assert (bullets_of (<[u "color_theme" := resolve_theme parsed]> parsed) = bullets_of parsed) as ->.
  { unfold bullets_of, dict_get. rewrite lookup_insert_ne by keys_differ. reflexivity. }
  assert (forall x y, dict_get (<[u "bullet_points_ta" := x]> (<[u "color_theme" := y]> parsed))
                     (u "text_colors") = dict_get parsed (u "text_colors")) as ->.
  { intros. unfold dict_get. rewrite !lookup_insert_ne by keys_differ. reflexivity. }
  destruct (py_or _ _) eqn:Hor;
    try (split; [discriminate | intros (tc & [=] & _)]).
  split.
  - intros [= <-]. eauto.
  - intros (tc & [= <-] & ->). reflexivity.
Qed.

(** Normalisation returns exactly when [text_colors] is absent, falsy or
    a dict; otherwise [text_colors.get] raises. *)
Lemma normalize_fields_returns parsed :
  (exists r, normalize_fields parsed = inr r) <->
  (parsed !! u "text_colors" = None
   \/ exists v, parsed !! u "text_colors" = Some v
                /\ (py_truthy v = false \/ exists tc, v = JDict tc)).
Proof.
  split.
  - intros (r & Hr). apply normalize_fields_inr in Hr as (tc & Hsrc & _).
    apply text_colors_source in Hsrc as [H | (_ & [H | (v & H & Hv)])]; eauto 6.
  - intros H.
    assert (exists tc, py_or (dict_get parsed (u "text_colors")) (JDict ∅) = JDict tc)
      as (tc & Htc).
    { destruct H as [H | (v & H & [Hv | (tc & ->)])].
      - exists ∅. apply text_colors_source. auto.
      - exists ∅. apply text_colors_source. right. eauto.
      - exists tc. apply text_colors_source. auto. }
    eexists. apply normalize_fields_inr. eauto.
Qed.

Lemma normalize_fields_raises parsed e :
  normalize_fields parsed = inl e -> e = AttributeError.
Proof.
  unfold normalize_fields, normalize_text_colors.
  destruct (py_or _ _); congruence.
Qed.

Lemma normalize_inr v r :
  normalize v = inr r <-> exists d, v = JDict d /\ normalize_fields d = inr r.
Proof.
  destruct v; simpl; split; try discriminate; try (intros (d & [=] & _)); eauto.
  intros (d' & [= <-] & H). exact H.
Qed.

Lemma lookup_normalized_theme parsed r :
  normalize_fields parsed = inr r -> r !! u "color_theme" = Some (resolve_theme parsed).
Proof.
  intros (tc & _ & ->)%normalize_fields_inr.
  rewrite !lookup_insert_ne by keys_differ. apply lookup_insert_eq.
Qed.

Lemma lookup_normalized_bullets parsed r :
  normalize_fields parsed = inr r ->
  r !! u "bullet_points_ta" = Some (JList (take 3 (bullets_of parsed))).
Proof.
  intros (tc & _ & ->)%normalize_fields_inr.
  rewrite lookup_insert_ne by keys_differ. apply lookup_insert_eq.
Qed.

Lemma lookup_normalized_text_colors parsed r :
  normalize_fields parsed = inr r ->
  exists tc, py_or (dict_get parsed (u "text_colors")) (JDict ∅) = JDict tc
             /\ r !! u "text_colors" = Some (JDict (text_colors_record tc)).
Proof.
  intros (tc & Hsrc & ->)%normalize_fields_inr.
  exists tc. split; [exact Hsrc | apply lookup_insert_eq].
Qed.

Lemma text_colors_record_lookup tc :
  text_colors_record tc !! u "headline"
    = Some (dict_get_or tc (u "headline") (JStr (u "dark_blue")))
  /\ text_colors_record tc !! u "body"
    = Some (dict_get_or tc (u "body") (JStr (u "black")))
  /\ text_colors_record tc !! u "cta"
    = Some (dict_get_or tc (u "cta") (JStr (u "red"))).
Proof.
  unfold text_colors_record. split; [| split].
  - apply lookup_insert_eq.
  - rewrite lookup_insert_ne by keys_differ. apply lookup_insert_eq.
  - rewrite !lookup_insert_ne by keys_differ. apply lookup_insert_eq.
Qed.

Lemma text_colors_record_dom tc :
  dom (text_colors_record tc) = ({[u "headline"; u "body"; u "cta"]} : gset str).
Proof. unfold text_colors_record. rewrite !dom_insert_L, dom_empty_L. set_solver. Qed.

End NormalizeFacts.

Section ParseFacts.
Context `{L : PyLib}.

Lemma parse_raw_inr raw r :
  parse_raw raw = inr r ->
  exists json_text d,
    raw <> [] /\ find_json raw = Some json_text
    /\ json_loads json_text = inr (JDict d) /\ normalize_fields d = inr r.
Proof.
  unfold parse_raw. destruct raw as [| c raw]; [discriminate |].
  destruct (find_json (c :: raw)) as [[| c' t] |]; try discriminate.
  destruct (json_loads (c' :: t)) as [e | v] eqn:Hl; [discriminate |].
  intros (d & -> & Hn)%normalize_inr. eauto 8.
Qed.

End ParseFacts.

(** C1. Whenever [parse_raw] returns a record, whatever the decoded object
    looked like, the record has a [color_theme] that is one of the 4 known
    names, a [bullet_points_ta] that is a list of at most 3 elements, and
    a [text_colors] that is a record holding the three roles [headline],
    [body] and [cta]. *)
Theorem returned_copy_is_well_formed `{L : PyLib} (raw : str) (r : dict) :
  parse_raw raw = inr r ->
  (exists t, r !! u "color_theme" = Some (JStr t) /\ t ∈ known_themes)
  /\ (exists l, r !! u "bullet_points_ta" = Some (JList l) /\ (length l <= 3)%nat)
  /\ (exists tc, r !! u "text_colors" = Some (JDict tc)
                 /\ is_Some (tc !! u "headline")
                 /\ is_Some (tc !! u "body")
                 /\ is_Some (tc !! u "cta")).
Proof.
  intros (json_text & d & _ & _ & _ & Hn)%parse_raw_inr.
  split; [| split].
  - destruct (resolve_theme_known d) as (t & Ht & Hin).
    exists t. split; [| exact Hin]. rewrite <- Ht. by apply lookup_normalized_theme.
  - eexists. split; [by apply lookup_normalized_bullets |].
    rewrite length_take. lia.
  - destruct (lookup_normalized_text_colors d r Hn) as (tc & _ & Htc).
    eexists. split; [exact Htc |].
    destruct (text_colors_record_lookup tc) as (-> & -> & ->). eauto.
Qed.

Lemma returned_copy_is_well_formed_witness :
  parse_raw (L := reference) sample_fenced_reply = inr sample_record
  /\ (exists t, sample_record !! u "color_theme" = Some (JStr t) /\ t ∈ known_themes)
  /\ (exists l, sample_record !! u "bullet_points_ta" = Some (JList l) /\ (length l <= 3)%nat)
  /\ (exists tc, sample_record !! u "text_colors" = Some (JDict tc)
                 /\ is_Some (tc !! u "headline")
                 /\ is_Some (tc !! u "body")
                 /\ is_Some (tc !! u "cta")).
Proof.
  split; [reflexivity |].
  apply (returned_copy_is_well_formed (L := reference) sample_fenced_reply).
  reflexivity.
Defined.

Lemma bullets_of_cases `{L : PyLib} (parsed : dict) :
  (forall items, parsed !! u "bullet_points_ta" = Some (JList items) ->
                 bullets_of parsed = items)
  /\ (forall v, parsed !! u "bullet_points_ta" = Some v ->
                (forall items, v <> JList items) -> py_truthy v = true ->
                bullets_of parsed = [JStr (py_str v)])
  /\ (forall v, parsed !! u "bullet_points_ta" = Some v -> py_truthy v = false ->
                bullets_of parsed = [])
  /\ (parsed !! u "bullet_points_ta" = None -> bullets_of parsed = []).
Proof.
  unfold bullets_of, py_or, dict_get. repeat split.
  - intros items ->. simpl. by destruct items.
  - intros v -> Hv Ht. simpl. rewrite Ht. destruct v; try reflexivity. by destruct (Hv l).
  - intros v -> Hf. simpl. rewrite Hf. reflexivity.
  - intros ->. reflexivity.
Qed.

(** C3, as the code has it. Whenever normalisation returns, the stored
    [bullet_points_ta] is a list: the first 3 elements, in their order, of
    a decoded list (the whole list when it has 3 elements or fewer: nothing
    is added); the single string [str(v)] for a decoded value [v] that is
    not a list and is truthy; the empty list for a value that is absent or
    falsy. In particular 5 bullets give exactly the first 3. *)
Theorem bullets_are_clamped `{L : PyLib} (parsed r : dict) :
  normalize_fields parsed = inr r ->
  exists l,
    r !! u "bullet_points_ta" = Some (JList l)
    /\ (forall items, parsed !! u "bullet_points_ta" = Some (JList items) ->
                      l = take 3 items
                      /\ length l = Nat.min 3 (length items)
                      /\ (forall i, (i < 3)%nat -> l !! i = items !! i)
                      /\ ((length items <= 3)%nat -> l = items))
    /\ (forall a b c d e,
          parsed !! u "bullet_points_ta" = Some (JList [a; b; c; d; e]) -> l = [a; b; c])
    /\ (forall v, parsed !! u "bullet_points_ta" = Some v ->
                  (forall items, v <> JList items) -> py_truthy v = true ->
                  l = [JStr (py_str v)])
    /\ (forall v, parsed !! u "bullet_points_ta" = Some v -> py_truthy v = false -> l = [])
    /\ (parsed !! u "bullet_points_ta" = None -> l = []).
Proof.
  intros Hn. destruct (bullets_of_cases parsed) as (Hlist & Hwrap & Hfalsy & Habsent).
  exists (take 3 (bullets_of parsed)).
  split; [by apply lookup_normalized_bullets |].
  split; [| split; [| split; [| split]]].
  - intros items Hi. rewrite (Hlist items Hi).
    split; [reflexivity |]. split; [apply length_take |].
    split; [intros i Hi3; by apply lookup_take_lt |].
    intros Hle. by apply take_ge.
  - intros a b c d e Hi. rewrite (Hlist _ Hi). reflexivity.
  - intros v Hv Hnl Ht. rewrite (Hwrap v Hv Hnl Ht). reflexivity.
  - intros v Hv Hf. rewrite (Hfalsy v Hv Hf). reflexivity.
  - intros Hv. rewrite (Habsent Hv). reflexivity.
Qed.

Lemma bullets_are_clamped_witness :
  normalize_fields (L := reference) one_bullet_parsed = inr one_bullet_record
  /\ exists l,
      one_bullet_record !! u "bullet_points_ta" = Some (JList l)
      /\ l = [JStr (u "A")].
Proof.
  split; [reflexivity |].
  destruct (bullets_are_clamped (L := reference) one_bullet_parsed one_bullet_record eq_refl)
    as (l & Hl & _ & _ & Hwrap & _).
  exists l. split; [exact Hl |].
  apply (Hwrap (JStr (u "A"))); [reflexivity | discriminate | reflexivity].
Defined.

(** C3 as stated fails on a falsy value that is not a list: the number 0
    is not wrapped, the stored list is empty. *)
Lemma bullets_falsy_value_not_wrapped :
  exists r,
    normalize_fields (L := reference) zero_bullets_parsed = inr r
    /\ zero_bullets_parsed !! u "bullet_points_ta" = Some (JInt 0)
    /\ r !! u "bullet_points_ta" = Some (JList [])
    /\ ~ (exists x, r !! u "bullet_points_ta" = Some (JList [x])).
Proof.
  eexists. split; [reflexivity |]. split; [reflexivity |].
  split; [reflexivity |]. intros (x & Hx). discriminate Hx.
Qed.

(** C4, as the code has it. For every decoded object whose [text_colors]
    is absent, falsy or a dict, normalisation returns a record in which: a
    [color_theme] that is absent or not one of the 4 known names is stored
    as ["blue_orange"]; every role that the decoded [text_colors] record
    lacks is stored with its constant, [headline] as ["dark_blue"], [body]
    as ["black"], [cta] as ["red"], and a role that it has keeps its
    value; an absent (or falsy) [text_colors] gives exactly the three
    constants. *)
Theorem missing_fields_get_defaults `{L : PyLib} (parsed : dict) :
  (parsed !! u "text_colors" = None
   \/ exists v, parsed !! u "text_colors" = Some v
                /\ (py_truthy v = false \/ exists tc, v = JDict tc)) ->
  exists r,
    normalize_fields parsed = inr r
    /\ ((parsed !! u "color_theme" = None
         \/ exists v, parsed !! u "color_theme" = Some v /\ theme_known v = false) ->
        r !! u "color_theme" = Some (JStr (u "blue_orange")))
    /\ exists tc',
        r !! u "text_colors" = Some (JDict tc')
        /\ (forall tc, parsed !! u "text_colors" = Some (JDict tc) ->
              (tc !! u "headline" = None -> tc' !! u "headline" = Some (JStr (u "dark_blue")))
              /\ (tc !! u "body" = None -> tc' !! u "body" = Some (JStr (u "black")))
              /\ (tc !! u "cta" = None -> tc' !! u "cta" = Some (JStr (u "red")))
              /\ (forall role v, role ∈ [u "headline"; u "body"; u "cta"] ->
                                 tc !! role = Some v -> tc' !! role = Some v))
        /\ ((parsed !! u "text_colors" = None
             \/ exists v, parsed !! u "text_colors" = Some v /\ py_truthy v = false) ->
            tc' = default_text_colors).
Proof.
  intros Hok. destruct (proj2 (normalize_fields_returns parsed) Hok) as (r & Hn).
  exists r. split; [exact Hn |]. split.
  - intros Hth. rewrite (lookup_normalized_theme parsed r Hn).
    by rewrite resolve_theme_default.
  - destruct (lookup_normalized_text_colors parsed r Hn) as (src & Hsrc & Hr).
    exists (text_colors_record src). split; [exact Hr |].
    destruct (text_colors_record_lookup src) as (Hh & Hb & Hc).
    apply text_colors_source in Hsrc. split.
    + intros tc Htc.
      assert (src = tc) as ->.
      { destruct Hsrc as [H | (-> & [H | (v & H & Hv)])]; [congruence.. |].
        rewrite Htc in H. injection H as <-. symmetry. by apply py_truthy_dict. }
      unfold dict_get_or in Hh, Hb, Hc.
      split; [intros Hv; by rewrite Hh, Hv |].
      split; [intros Hv; by rewrite Hb, Hv |].
      split; [intros Hv; by rewrite Hc, Hv |].
      intros role v Hrole Hv.
      apply elem_of_cons in Hrole as [-> | Hrole]; [by rewrite Hh, Hv |].
      apply elem_of_cons in Hrole as [-> | Hrole]; [by rewrite Hb, Hv |].
      apply list_elem_of_singleton in Hrole as ->. by rewrite Hc, Hv.
    + intros Hnone.
      assert (src = ∅) as ->; [| reflexivity].
      destruct Hsrc as [H | (-> & _)]; [| reflexivity].
      destruct Hnone as [Hnone | (v & Hv & Hf)]; [congruence |].
      rewrite H in Hv. injection Hv as <-. by apply py_truthy_dict.
Qed.

Lemma missing_fields_get_defaults_witness :
  normalize_fields (L := reference) sample_parsed
    = inr (<[u "text_colors" := JDict default_text_colors]>
             (<[u "bullet_points_ta" := JList [JStr (u "A"); JStr (u "B"); JStr (u "C")]]>
                (<[u "color_theme" := JStr (u "blue_orange")]> sample_parsed)))
  /\ exists r, normalize_fields (L := reference) sample_parsed = inr r
               /\ r !! u "color_theme" = Some (JStr (u "blue_orange"))
               /\ r !! u "text_colors" = Some (JDict default_text_colors).
Proof.
  split; [reflexivity |].
  destruct (missing_fields_get_defaults (L := reference) sample_parsed)
    as (r & Hn & Hth & tc' & Htc & _ & Hdflt).
  { left. reflexivity. }
  exists r. split; [exact Hn |]. split.
  - apply Hth. right. eexists. split; reflexivity.
  - rewrite Htc. rewrite Hdflt; [reflexivity |]. left. reflexivity.
Defined.

(** C4 as stated fails on a decoded object whose [text_colors] is a
    string: [text_colors.get] raises [AttributeError], no record is
    returned, and the unknown theme is not resolved to ["blue_orange"]. *)
Lemma string_text_colors_raises :
  string_text_colors_parsed !! u "color_theme" = Some (JStr (u "purple_pink"))
  /\ theme_known (JStr (u "purple_pink")) = false
  /\ string_text_colors_parsed !! u "text_colors" = Some (JStr (u "red"))
  /\ normalize_fields (L := reference) string_text_colors_parsed = inl AttributeError
  /\ ~ (exists r, normalize_fields (L := reference) string_text_colors_parsed = inr r
                  /\ r !! u "color_theme" = Some (JStr (u "blue_orange"))).
Proof.
  split; [reflexivity |]. split; [reflexivity |]. split; [reflexivity |].
  assert (normalize_fields (L := reference) string_text_colors_parsed = inl AttributeError)
    as Hraise by reflexivity.
  split; [exact Hraise |].
  intros (r & Hr & _). rewrite Hraise in Hr. discriminate Hr.
Qed.

(** C10. Whenever normalisation returns, every key other than
    [color_theme], [bullet_points_ta] and [text_colors] has in the result
    exactly the entry (or the absence) it had in the decoded object, and
    the keys of the result are those of the decoded object together with
    these three. *)
Theorem normalization_frame `{L : PyLib} (parsed r : dict) :
  normalize_fields parsed = inr r ->
  (forall k, k ∉ [u "color_theme"; u "bullet_points_ta"; u "text_colors"] ->
             r !! k = parsed !! k)
  /\ dom r = dom parsed ∪ {[u "color_theme"; u "bullet_points_ta"; u "text_colors"]}.
Proof.
  intros (tc & _ & ->)%normalize_fields_inr. split.
  - intros k Hk. rewrite !not_elem_of_cons in Hk. destruct Hk as (H1 & H2 & H3 & _).
    by rewrite !lookup_insert_ne.
  - rewrite !dom_insert_L. set_solver.
Qed.

Lemma normalization_frame_witness :
  normalize_fields (L := reference) one_bullet_parsed = inr one_bullet_record
  /\ one_bullet_record !! u "headline_ta" = one_bullet_parsed !! u "headline_ta"
  /\ one_bullet_record !! u "cta_line_ta" = one_bullet_parsed !! u "cta_line_ta"
  /\ dom one_bullet_record
     = dom one_bullet_parsed ∪ {[u "color_theme"; u "bullet_points_ta"; u "text_colors"]}.
Proof.
  split; [reflexivity |].
  destruct (normalization_frame (L := reference) one_bullet_parsed one_bullet_record eq_refl)
    as (Hframe & Hdom).
  split; [| split; [| exact Hdom]]; apply Hframe; apply (bool_decide_unpack _); reflexivity.
Defined.

Lemma text_colors_record_id (tc : dict) :
  dom tc = ({[u "headline"; u "body"; u "cta"]} : gset str) -> text_colors_record tc = tc.
Proof.
  intros Hdom. apply map_eq. intros k.
  assert (forall role, role ∈ [u "headline"; u "body"; u "cta"] ->
            exists v, tc !! role = Some v) as Hrole.
  { intros role Hin. apply (elem_of_dom tc role). rewrite Hdom. set_solver. }
  destruct (text_colors_record_lookup tc) as (Hh & Hb & Hc).
  destruct (decide (k = u "headline")) as [-> | Nh].
  { destruct (Hrole (u "headline")) as (v & Hv); [set_solver |].
    rewrite Hh. unfold dict_get_or. by rewrite Hv. }
  destruct (decide (k = u "body")) as [-> | Nb].
  { destruct (Hrole (u "body")) as (v & Hv); [set_solver |].
    rewrite Hb. unfold dict_get_or. by rewrite Hv. }
  destruct (decide (k = u "cta")) as [-> | Nc].
  { destruct (Hrole (u "cta")) as (v & Hv); [set_solver |].
    rewrite Hc. unfold dict_get_or. by rewrite Hv. }
  transitivity (@None json).
  - apply (not_elem_of_dom (text_colors_record tc) k).
    rewrite text_colors_record_dom. set_solver.
  - symmetry. apply (not_elem_of_dom tc k). rewrite Hdom. set_solver.
Qed.

(** A record with a known theme, a list of at most 3 bullets and the
    record of the three roles is a fixed point of the normalisation. *)
Lemma normalize_fields_fixed `{L : PyLib} (record : dict) t l tc :
  record !! u "color_theme" = Some (JStr t) -> t ∈ known_themes ->
  record !! u "bullet_points_ta" = Some (JList l) -> (length l <= 3)%nat ->
  record !! u "text_colors" = Some (JDict tc) ->
  dom tc = ({[u "headline"; u "body"; u "cta"]} : gset str) ->
  normalize_fields record = inr record.
Proof.
  intros Ht Hin Hb Hlen Htc Hdom.
  apply normalize_fields_inr. exists tc. split.
  - unfold py_or, dict_get. rewrite Htc. simpl.
    destruct (map_to_list tc) eqn:Hl; [| reflexivity].
    apply map_to_list_empty_iff in Hl. subst tc. rewrite dom_empty_L in Hdom. set_solver.
  - rewrite (resolve_theme_keep record t Ht Hin).
    destruct (bullets_of_cases record) as (Hlist & _). rewrite (Hlist _ Hb).
    rewrite (take_ge l 3) by exact Hlen.
    rewrite (text_colors_record_id tc Hdom).
    rewrite (insert_id record _ _ Ht).
    rewrite (insert_id record _ _ Hb).
    by rewrite (insert_id record _ _ Htc).
Qed.

(** A record that normalisation returned with exactly 3 bullets is a
    normalised copy record. *)
Lemma returned_three_bullets_normalized `{L : PyLib} (parsed r : dict) a b c :
  normalize_fields parsed = inr r ->
  r !! u "bullet_points_ta" = Some (JList [a; b; c]) ->
  normalized r.
Proof.
  intros Hn Hb. split; [| split].
  - destruct (resolve_theme_known parsed) as (t & Ht & Hin).
    exists t. split; [| exact Hin]. rewrite <- Ht. by apply lookup_normalized_theme.
  - eauto.
  - destruct (lookup_normalized_text_colors parsed r Hn) as (tc & _ & Htc).
    eexists. split; [exact Htc | apply text_colors_record_dom].
Qed.

(** C6. Normalising a normalised copy record (a known theme, exactly 3
    bullets in a list, and a [text_colors] that is the record of the three
    roles) returns the record unchanged; so does normalising any record
    that normalisation itself returned. *)
Theorem normalization_idempotent `{L : PyLib} (record : dict) :
  normalized record \/ (exists parsed, normalize_fields parsed = inr record) ->
  normalize_fields record = inr record.
Proof.
  intros [((t & Ht & Hin) & (a & b & c & Hb) & (tc & Htc & Hdom)) | (parsed & Hn)].
  - apply (normalize_fields_fixed record t [a; b; c] tc); try assumption. simpl. lia.
  - destruct (resolve_theme_known parsed) as (t & Ht & Hin).
    pose proof (lookup_normalized_theme parsed record Hn) as Hth. rewrite Ht in Hth.
    destruct (lookup_normalized_text_colors parsed record Hn) as (tc & _ & Htc).
    apply (normalize_fields_fixed record t (take 3 (bullets_of parsed)) (text_colors_record tc));
      [exact Hth | exact Hin | by apply lookup_normalized_bullets | rewrite length_take; lia
      | exact Htc | apply text_colors_record_dom].
Qed.

(** X17. What normalisation returns is left unchanged by a second pass,
    with 3 bullets or fewer: normalising twice is normalising once. *)
Lemma normalize_fields_twice `{L : PyLib} (parsed r : dict) :
  normalize_fields parsed = inr r -> normalize_fields r = inr r.
Proof.
  intros Hn. apply normalize_fields_inr.
  destruct (lookup_normalized_text_colors parsed r Hn) as (tc & _ & Htc).
  pose proof (lookup_normalized_theme parsed r Hn) as Hth.
  pose proof (lookup_normalized_bullets parsed r Hn) as Hb.
  destruct (resolve_theme_known parsed) as (t & Ht & Hin). rewrite Ht in Hth.
  exists (text_colors_record tc). split.
  - unfold py_or, dict_get. rewrite Htc. cbn [default py_truthy].
    destruct (map_to_list (text_colors_record tc)) eqn:Hl; [| reflexivity].
    apply map_to_list_empty_iff in Hl.
    pose proof (text_colors_record_dom tc) as Hdom. rewrite Hl, dom_empty_L in Hdom.
    set_solver.
  - rewrite (resolve_theme_keep r t Hth Hin).
    destruct (bullets_of_cases r) as (Hlist & _). rewrite (Hlist _ Hb).
    rewrite take_take, Nat.min_id.
    rewrite (text_colors_record_id _ (text_colors_record_dom tc)).
    rewrite (insert_id r _ _ Hth).
    rewrite (insert_id r _ _ Hb).
    by rewrite (insert_id r _ _ Htc).
Qed.

Lemma normalization_idempotent_witness :
  normalized three_roles_record
  /\ normalize_fields (L := reference) three_roles_record = inr three_roles_record.
Proof.
  assert (normalized three_roles_record) as Hn.
  { split; [| split].
    - eexists. split; [reflexivity |]. apply (bool_decide_unpack _). reflexivity.
    - do 3 eexists. reflexivity.
    - eexists. split; [reflexivity |]. apply (bool_decide_unpack _). reflexivity. }
  split; [exact Hn |].
  exact (normalization_idempotent (L := reference) three_roles_record (or_introl Hn)).
Defined.

(* --------------------------------------------------------------------- *)
(** ** The matcher *)
(* --------------------------------------------------------------------- *)

Section MatcherFacts.
Import Re.
Context {R : Type}.
Implicit Types (k : str -> option R) (K : str -> option str -> option R).

Lemma star_greedy_none p k s :
  (forall a b, s = a ++ b -> Forall (fun c => p c = true) a -> k b = None) ->
  star_greedy p k s = None.
Proof.
  induction s as [| c s IH]; intros H; simpl.
  - by apply (H [] []).
  - assert (k (c :: s) = None) as Hk by (by apply (H [] (c :: s))).
    destruct (p c) eqn:Hp; [| exact Hk].
    rewrite IH; [exact Hk |].
    intros a b -> Ha. apply (H (c :: a) b); [reflexivity | by constructor].
Qed.

Lemma star_greedy_skip p k ws rest r :
  Forall (fun c => p c = true) ws ->
  match rest with c :: _ => p c = false | [] => True end ->
  k rest = Some r ->
  star_greedy p k (ws ++ rest) = Some r.
Proof.
  intros Hws Hrest Hk. induction Hws as [| x ws Hx _ IH]; simpl.
  - destruct rest as [| c rest]; [exact Hk |]. simpl. by rewrite Hrest.
  - by rewrite Hx, IH.
Qed.

Lemma star_lazy_none p k s :
  (forall a b, s = a ++ b -> k b = None) -> star_lazy p k s = None.
Proof.
  induction s as [| c s IH]; intros H; simpl.
  - by rewrite (H [] []).
  - rewrite (H [] (c :: s)) by reflexivity.
    destruct (p c); [| reflexivity].
    apply IH. intros a b ->. by apply (H (c :: a) b).
Qed.

Lemma star_lazy_first p k a b r :
  Forall (fun c => p c = true) a ->
  (forall a1 a2, a = a1 ++ a2 -> a2 <> [] -> k (a2 ++ b) = None) ->
  k b = Some r ->
  star_lazy p k (a ++ b) = Some r.
Proof.
  intros Ha. induction Ha as [| x a Hx _ IH]; intros Hnone Hk; simpl.
  - destruct b; simpl; by rewrite Hk.
  - assert (k (x :: a ++ b) = None) as -> by (by apply (Hnone [] (x :: a))).
    rewrite Hx. apply IH; [| exact Hk].
    intros a1 a2 -> Ha2. by apply (Hnone (x :: a1) a2).
Qed.

Lemma star_greedy_some p k s x :
  star_greedy p k s = Some x -> exists a b, s = a ++ b /\ k b = Some x.
Proof.
  induction s as [| c s IH]; simpl; intros H.
  - exists [], []. auto.
  - destruct (p c); [| exists [], (c :: s); auto].
    destruct (star_greedy p k s) as [y |] eqn:E; [| exists [], (c :: s); auto].
    injection H as ->. destruct (IH eq_refl) as (a & b & -> & Hk).
    exists (c :: a), b. auto.
Qed.

Lemma star_lazy_some p k s x :
  star_lazy p k s = Some x -> exists a b, s = a ++ b /\ k b = Some x.
Proof.
  induction s as [| c s IH]; simpl; intros H.
  - destruct (k []) eqn:E; [| discriminate]. exists [], []. split; [reflexivity | congruence].
  - destruct (k (c :: s)) eqn:E; [exists [], (c :: s); split; [reflexivity | congruence] |].
    destruct (p c); [| discriminate].
    destruct (IH H) as (a & b & -> & Hk). exists (c :: a), b. auto.
Qed.

(** A successful match ends in its continuation, on some suffix. *)
Lemma exec_some (r : re) s g K x :
  exec r s g K = Some x -> exists a b g', s = a ++ b /\ K b g' = Some x.
Proof.
  revert s g K. induction r as [| p | r1 IH1 r2 IH2 | r IH | p | p | r IH];
    intros s g K; simpl; intros H.
  - exists [], s, g. auto.
  - destruct s as [| c s]; [discriminate |].
    destruct (p c); [| discriminate]. exists [c], s, g. auto.
  - apply IH1 in H as (a & b & g' & -> & H).
    apply IH2 in H as (a' & b' & g'' & -> & H).
    exists (a ++ a'), b', g''. split; [by rewrite app_assoc | exact H].
  - destruct (exec r s g K) eqn:E.
    + injection H as ->. by apply IH in E.
    + exists [], s, g. auto.
  - apply star_greedy_some in H as (a & b & -> & H). exists a, b, g. auto.
  - apply star_lazy_some in H as (a & b & -> & H). exists a, b, g. auto.
  - apply IH in H as (a & b & g' & -> & H). eauto.
Qed.

(** A match needs its continuation to accept some suffix. *)
Lemma exec_none (r : re) s g K :
  (forall a b g', s = a ++ b -> K b g' = None) -> exec r s g K = None.
Proof.
  revert s g K. induction r as [| p | r1 IH1 r2 IH2 | r IH | p | p | r IH];
    intros s g K H; simpl.
  - by apply (H []).
  - destruct s as [| c s]; [reflexivity |].
    destruct (p c); [| reflexivity]. by apply (H [c]).
  - apply IH1. intros a b g' ->. apply IH2.
    intros a' b' g'' ->. apply (H (a ++ a')). by rewrite app_assoc.
  - rewrite IH by exact H. by apply (H []).
  - apply star_greedy_none. intros a b -> _. by apply (H a).
  - apply star_lazy_none. intros a b ->. by apply (H a).
  - apply IH. intros a b g' ->. by apply (H a).
Qed.

End MatcherFacts.

(* --------------------------------------------------------------------- *)
(** ** Finding the JSON text *)
(* --------------------------------------------------------------------- *)

Section FenceFacts.
Import Re.

Lemma fence_re_unfold :
  fence_re = Seq (lit 96) (Seq (lit 96) (Seq (lit 96)
               (Seq (Opt json_tag_re) (Seq (Star py_isspace) (Seq (Group body_re) close_re))))).
Proof. reflexivity. Qed.

Lemma exec_seq {R} a b s g (K : str -> option str -> option R) :
  exec (Seq a b) s g K = exec a s g (fun s' g' => exec b s' g' K).
Proof. reflexivity. Qed.

Lemma exec_lit {R} c X s g (K : str -> option str -> option R) :
  exec (Seq (lit c) X) s g K
  = match s with
    | x :: s' => if c =? x then exec X s' g K else None
    | [] => None
    end.
Proof. reflexivity. Qed.

Lemma exec_opt {R} a X s g (K : str -> option str -> option R) :
  exec (Seq (Opt a) X) s g K
  = match exec a s g (fun s' g' => exec X s' g' K) with
    | Some x => Some x
    | None => exec X s g K
    end.
Proof. reflexivity. Qed.

Lemma exec_star {R} p X s g (K : str -> option str -> option R) :
  exec (Seq (Star p) X) s g K = star_greedy p (fun s' => exec X s' g K) s.
Proof. reflexivity. Qed.

Lemma exec_group_body {R} X s g (K : str -> option str -> option R) :
  exec (Seq (Group body_re) X) s g K
  = match s with
    | x :: s1 =>
        if 123 =? x then
          star_lazy any_char
            (fun t => match t with
                      | y :: t' =>
                          if 125 =? y
                          then exec X t' (Some (take (length s - length t') s)) K
                          else None
                      | [] => None
                      end) s1
        else None
    | [] => None
    end.
Proof. destruct s; reflexivity. Qed.

Lemma exec_ticks {R} s g (K : str -> option str -> option R) :
  exec (seqs [lit 96; lit 96; lit 96]) (96 :: 96 :: 96 :: s) g K = K s g.
Proof. reflexivity. Qed.

(** Without an open brace in the text there is no match. *)
Lemma match_here_needs_brace s : 123 ∉ s -> match_here fence_re s = None.
Proof.
  intros Hs. unfold match_here. rewrite fence_re_unfold.
  do 5 (rewrite exec_seq; apply exec_none;
        let a := fresh "a" in intros a ? ? ->;
        apply not_elem_of_app in Hs as [_ Hs]; clear a).
  rewrite exec_group_body.
  match goal with |- match ?t with _ => _ end = _ => destruct t as [| c s'] end;
    [reflexivity |].
  destruct (123 =? c) eqn:Hc; [| reflexivity].
  apply N.eqb_eq in Hc. subst c. destruct Hs. by left.
Qed.

(** A match starts with a backquote. *)
Lemma match_here_needs_tick s :
  match s with c :: _ => 96 <> c | [] => True end -> match_here fence_re s = None.
Proof.
  destruct s as [| c s]; [reflexivity |]. intros Hc.
  unfold match_here. rewrite fence_re_unfold, exec_lit.
  destruct (96 =? c) eqn:E; [| reflexivity].
  apply N.eqb_eq in E. by destruct Hc.
Qed.

Lemma search_needs_brace s : 123 ∉ s -> search fence_re s = None.
Proof.
  induction s as [| c s IH]; intros Hs.
  - reflexivity.
  - cbn [search]. rewrite match_here_needs_brace by exact Hs.
    apply IH. by apply not_elem_of_cons in Hs as [_ Hs].
Qed.

Lemma search_needs_tick s : 96 ∉ s -> search fence_re s = None.
Proof.
  induction s as [| c s IH]; intros Hs.
  - reflexivity.
  - apply not_elem_of_cons in Hs as [Hc Hs].
    cbn [search]. rewrite match_here_needs_tick by exact Hc. by apply IH.
Qed.

Lemma search_skip pre s : 96 ∉ pre -> search fence_re (pre ++ s) = search fence_re s.
Proof.
  induction pre as [| c pre IH]; intros Hpre; [reflexivity |].
  apply not_elem_of_cons in Hpre as [Hc Hpre].
  cbn [app search]. rewrite match_here_needs_tick by exact Hc. by apply IH.
Qed.

Lemma search_here r s g : match_here r s = Some g -> search r s = Some g.
Proof. intros H. destruct s; cbn [search]; by rewrite H. Qed.

Lemma isspace_not c :
  py_isspace c = true -> c <> 96 /\ c <> 123 /\ c <> 125 /\ c <> 106 /\ c <> 74.
Proof. intros H. repeat split; intros ->; discriminate H. Qed.

(** A whitespace prefix of a text that goes on with a closing brace lies
    before that brace. *)
Lemma space_prefix_before_brace (a tail w b : str) :
  a ++ 125 :: tail = w ++ b -> Forall (fun c => py_isspace c = true) w ->
  exists a', a = w ++ a' /\ b = a' ++ 125 :: tail.
Proof.
  intros Heq Hw. revert a Heq. induction Hw as [| x w Hx _ IH]; intros a Heq.
  - exists a. auto.
  - destruct a as [| y a]; simpl in Heq.
    + injection Heq as <- _. discriminate Hx.
    + injection Heq as -> Heq. destruct (IH a Heq) as (a' & -> & ->). eauto.
Qed.

(** After the group only whitespace and the closing backquotes may follow:
    at a closing brace inside the body this fails. *)
Lemma close_fails_inside {R} (a tail : str) g (K : str -> option str -> option R) :
  96 ∉ a -> exec close_re (a ++ 125 :: tail) g K = None.
Proof.
  intros Ha. unfold close_re. change (seqs (?x :: ?l)) with (Seq x (seqs l)).
  rewrite exec_star. apply star_greedy_none. intros w b Heq Hw.
  destruct (space_prefix_before_brace a tail w b Heq Hw) as (a' & -> & ->).
  apply not_elem_of_app in Ha as [_ Ha].
  change (seqs (?x :: ?l)) with (Seq x (seqs l)). rewrite exec_lit.
  destruct a' as [| c a']; [reflexivity |]. cbn [app]. cbv iota.
  destruct (96 =? c) eqn:E; [| reflexivity].
  apply N.eqb_eq in E. subst c. destruct Ha. by left.
Qed.

Lemma close_succeeds ws post g :
  Forall (fun c => py_isspace c = true) ws ->
  exec close_re (ws ++ 96 :: 96 :: 96 :: post) g (fun _ g' => Some g') = Some g.
Proof.
  intros Hws. unfold close_re. change (seqs (?x :: ?l)) with (Seq x (seqs l)).
  rewrite exec_star. by apply star_greedy_skip.
Qed.

(** The group takes the body up to its last brace. *)
Lemma fence_body_match (mid ws post : str) g :
  96 ∉ mid -> Forall (fun c => py_isspace c = true) ws ->
  exec (Seq (Group body_re) close_re)
       (123 :: mid ++ 125 :: ws ++ 96 :: 96 :: 96 :: post) g (fun _ g' => Some g')
  = Some (Some (123 :: mid ++ [125])).
Proof.
  intros Hmid Hws.
  set (tail := ws ++ 96 :: 96 :: 96 :: post).
  set (s := 123 :: mid ++ 125 :: tail).
  rewrite exec_group_body. unfold s at 1. cbv iota. rewrite N.eqb_refl.
  apply star_lazy_first.
  - by apply Forall_forall.
  - intros a1 a2 -> Ha2. destruct a2 as [| c a2]; [done |]. cbn [app]. cbv iota.
    destruct (125 =? c) eqn:E; [| reflexivity].
    apply close_fails_inside. apply not_elem_of_app in Hmid as [_ Hmid].
    by apply not_elem_of_cons in Hmid as [_ Hmid].
  - cbv iota. rewrite N.eqb_refl. unfold tail at 1.
    rewrite close_succeeds by exact Hws. do 2 f_equal.
    replace (length s - length tail)%nat with (length (123 :: mid ++ [125])).
    + replace s with ((123 :: mid ++ [125]) ++ tail); [apply take_app_length |].
      unfold s. cbn [app]. by rewrite <- app_assoc.
    + unfold s. cbn [length]. rewrite !length_app. cbn [length]. lia.
Qed.

(** A fenced block, with or without the tag [json], whose body holds no
    backquote: group 1 is the body. *)
Lemma match_here_fenced (tag ws1 mid ws2 post : str) :
  tag = [] \/ tag = u "json" ->
  Forall (fun c => py_isspace c = true) ws1 ->
  Forall (fun c => py_isspace c = true) ws2 ->
  96 ∉ mid ->
  match_here fence_re
    (u "```" ++ tag ++ ws1 ++ (123 :: mid ++ [125]) ++ ws2 ++ u "```" ++ post)
  = Some (Some (123 :: mid ++ [125])).
Proof.
  intros Htag Hws1 Hws2 Hmid.
  assert (exec (Seq (Star py_isspace) (Seq (Group body_re) close_re))
               (ws1 ++ (123 :: mid ++ [125]) ++ ws2 ++ u "```" ++ post) None
               (fun _ g' => Some g') = Some (Some (123 :: mid ++ [125]))) as Hrest.
  { rewrite exec_star. apply star_greedy_skip; [exact Hws1 | reflexivity |].
    change (u "```") with [96; 96; 96].
    cbn [app]. rewrite <- app_assoc. cbn [app].
    by apply fence_body_match. }
  unfold match_here. rewrite fence_re_unfold.
  change (u "```" ++ ?s) with (96 :: 96 :: 96 :: s).
  do 3 (rewrite exec_lit; cbv iota; rewrite N.eqb_refl). rewrite exec_opt.
  destruct Htag as [-> | ->].
  - change ([] ++ ?s) with s. rewrite Hrest.
    destruct (exec json_tag_re _ _ _) eqn:E; [| reflexivity].
    exfalso. revert E. unfold json_tag_re, lit_i.
    change (seqs (?x :: ?l)) with (Seq x (seqs l)). rewrite exec_seq.
    destruct Hws1 as [| x ws1 Hx _]; cbn [app exec].
    + rewrite bool_decide_eq_false_2; [discriminate |].
      rewrite !elem_of_cons, elem_of_nil. intros [H | [H | []]]; discriminate H.
    + apply isspace_not in Hx as (_ & _ & _ & Hj & HJ).
      rewrite bool_decide_eq_false_2; [discriminate |].
      rewrite !elem_of_cons, elem_of_nil. tauto.
  - change (u "json" ++ ?s) with (106 :: 115 :: 111 :: 110 :: s).
    change (exec json_tag_re (106 :: 115 :: 111 :: 110 :: ?s) ?g ?K) with (K s g).
    cbv beta. rewrite Hrest. reflexivity.
Qed.

(** Whatever precedes it, the closing part leaves the group as it is. *)
Lemma close_keeps_group s g x :
  exec close_re s g (fun _ g' => Some g') = Some x -> x = g.
Proof.
  unfold close_re. change (seqs (?a :: ?l)) with (Seq a (seqs l)).
  rewrite exec_star. intros (a & b & -> & H)%star_greedy_some.
  destruct b as [| c1 [| c2 [| c3 b]]]; simpl in H;
    repeat match type of H with
           | (if ?c then _ else _) = _ => destruct c; try discriminate H
           end; congruence.
Qed.

(** Group 1 of a match is never empty. *)
Lemma match_here_group_nonempty s g :
  match_here fence_re s = Some g -> exists t, g = Some t /\ t <> [].
Proof.
  unfold match_here. rewrite fence_re_unfold. intros H.
  do 5 (rewrite exec_seq in H; apply exec_some in H as (_ & ? & ? & _ & H)).
  rewrite exec_group_body in H.
  match type of H with match ?t with _ => _ end = _ => destruct t as [| c s5] end;
    [discriminate |].
  destruct (123 =? c); [| discriminate].
  apply star_lazy_some in H as (a & b & -> & H).
  destruct b as [| y t]; [discriminate |].
  destruct (125 =? y); [| discriminate].
  apply close_keeps_group in H as ->.
  eexists. split; [reflexivity |].
  replace (length (c :: a ++ y :: t) - length t)%nat with (S (S (length a))).
  - discriminate.
  - cbn [length]. rewrite length_app. cbn [length]. lia.
Qed.

Lemma search_some r s g :
  search r s = Some g -> exists s', match_here r s' = Some g.
Proof.
  induction s as [| c s IH]; cbn [search].
  - destruct (match_here r []) eqn:E; [| discriminate]. intros [= <-]. eauto.
  - destruct (match_here r (c :: s)) eqn:E; [intros [= <-]; eauto | exact IH].
Qed.

(** *** The scan for the closing brace *)

Lemma find_char_none c s : c ∉ s -> find_char c s = None.
Proof.
  induction s as [| x s IH]; [reflexivity |].
  intros [Hx Hs]%not_elem_of_cons. simpl.
  destruct (x =? c) eqn:E; [apply N.eqb_eq in E; congruence |].
  by rewrite IH.
Qed.

Lemma find_char_app c pre s : c ∉ pre -> find_char c (pre ++ c :: s) = Some (length pre).
Proof.
  induction pre as [| x pre IH]; simpl.
  - intros _. by rewrite N.eqb_refl.
  - intros [Hx Hs]%not_elem_of_cons.
    destruct (x =? c) eqn:E; [apply N.eqb_eq in E; congruence |].
    by rewrite IH.
Qed.

Lemma find_char_some c s i :
  find_char c s = Some i -> exists rest, drop i s = c :: rest.
Proof.
  revert i. induction s as [| x s IH]; intros i; simpl; [discriminate |].
  destruct (x =? c) eqn:E.
  - intros [= <-]. apply N.eqb_eq in E as ->. eauto.
  - destruct (find_char c s) as [j |]; [| discriminate].
    intros [= <-]. by apply IH.
Qed.

Lemma scan_braces_balanced mid post i d :
  balanced_from d mid = true ->
  scan_braces (mid ++ 125 :: post) i (d + 1) = Some (i + length mid)%nat.
Proof.
  revert i d. induction mid as [| c mid IH]; intros i d; simpl.
  - intros ->%Z.eqb_eq. simpl. f_equal. lia.
  - destruct (c =? 123).
    + intros H. rewrite (IH _ _ H). f_equal. lia.
    + destruct (c =? 125).
      * intros [Hd H]%andb_prop. apply Z.ltb_lt in Hd.
        replace (d + 1 - 1)%Z with d by lia.
        destruct (d =? 0)%Z eqn:E; [apply Z.eqb_eq in E; lia |].
        replace d with (d - 1 + 1)%Z at 1 by lia.
        rewrite (IH _ _ H). f_equal. lia.
      * intros H. rewrite (IH _ _ H). f_equal. lia.
Qed.

Lemma scan_braces_bounds rest i d j :
  scan_braces rest i d = Some j -> (i <= j < i + length rest)%nat.
Proof.
  revert i d. induction rest as [| c rest IH]; intros i d; simpl; [discriminate |].
  destruct (c =? 123); [intros H%IH; lia |].
  destruct (c =? 125); [| intros H%IH; lia].
  destruct (d - 1 =? 0)%Z; [intros [= <-]; lia | intros H%IH; lia].
Qed.

Lemma brace_candidate_balanced pre mid post :
  123 ∉ pre -> balanced mid ->
  brace_candidate (pre ++ (123 :: mid ++ [125]) ++ post) = Some (123 :: mid ++ [125]).
Proof.
  intros Hpre Hmid. unfold brace_candidate.
  cbn [app]. rewrite find_char_app by exact Hpre.
  rewrite drop_app_length. cbn [scan_braces]. rewrite N.eqb_refl.
  rewrite <- app_assoc. cbn [app].
  rewrite (scan_braces_balanced mid post _ 0 Hmid).
  unfold slice. rewrite drop_app_length.
  replace (S (S (length pre) + length mid) - length pre)%nat
    with (length (123 :: mid ++ [125]))
    by (cbn [length]; rewrite length_app; cbn [length]; lia).
  replace (123 :: mid ++ 125 :: post) with ((123 :: mid ++ [125]) ++ post)
    by (cbn [app]; by rewrite <- app_assoc).
  f_equal. apply take_app_length.
Qed.

Lemma brace_candidate_nonempty raw t : brace_candidate raw = Some t -> t <> [].
Proof.
  unfold brace_candidate.
  destruct (find_char 123 raw) as [start |] eqn:Hf; [| discriminate].
  destruct (scan_braces _ _ _) as [i |] eqn:Hs; [| discriminate].
  intros [= <-]. apply scan_braces_bounds in Hs.
  apply find_char_some in Hf as (rest & Hrest).
  unfold slice. rewrite Hrest.
  replace (S i - start)%nat with (S (i - start)) by lia. discriminate.
Qed.

Lemma find_json_nonempty raw t : find_json raw = Some t -> t <> [].
Proof.
  unfold find_json. destruct (search fence_re raw) as [g |] eqn:Hs.
  - apply search_some in Hs as (s' & Hm).
    apply match_here_group_nonempty in Hm as (t' & -> & Ht). congruence.
  - apply brace_candidate_nonempty.
Qed.

Lemma find_json_no_brace raw : 123 ∉ raw -> find_json raw = None.
Proof.
  intros H. unfold find_json, brace_candidate.
  by rewrite search_needs_brace, find_char_none.
Qed.

Lemma find_json_fenced (pre tag ws1 mid ws2 post : str) :
  96 ∉ pre -> tag = [] \/ tag = u "json" ->
  Forall (fun c => py_isspace c = true) ws1 ->
  Forall (fun c => py_isspace c = true) ws2 ->
  96 ∉ mid ->
  find_json (pre ++ u "```" ++ tag ++ ws1 ++ (123 :: mid ++ [125]) ++ ws2 ++ u "```" ++ post)
  = Some (123 :: mid ++ [125]).
Proof.
  intros Hpre Htag Hws1 Hws2 Hmid. unfold find_json.
  rewrite search_skip by exact Hpre.
  by rewrite (search_here _ _ _ (match_here_fenced tag ws1 mid ws2 post Htag Hws1 Hws2 Hmid)).
Qed.

Lemma find_json_unfenced (pre mid post : str) :
  123 ∉ pre -> 96 ∉ pre -> 96 ∉ mid -> 96 ∉ post -> balanced mid ->
  find_json (pre ++ (123 :: mid ++ [125]) ++ post) = Some (123 :: mid ++ [125]).
Proof.
  intros Hb Hpre Hmid Hpost Hbal. unfold find_json.
  rewrite search_needs_tick; [by apply brace_candidate_balanced |].
  rewrite !not_elem_of_app, not_elem_of_cons, not_elem_of_app, not_elem_of_cons.
  repeat split; try done. apply not_elem_of_nil.
Qed.

End FenceFacts.

(* --------------------------------------------------------------------- *)
(** ** From the raw text to the record or the failure *)
(* --------------------------------------------------------------------- *)

Section ParseRawFacts.
Context `{L : PyLib}.

Lemma parse_raw_candidate raw json_text :
  raw <> [] -> find_json raw = Some json_text ->
  parse_raw raw = match json_loads json_text with
                  | inl e => inl (InvalidJson e json_text)
                  | inr parsed => normalize parsed
                  end.
Proof.
  intros Hraw Hf. pose proof (find_json_nonempty raw json_text Hf) as Ht.
  unfold parse_raw. destruct raw as [| c raw]; [done |]. rewrite Hf.
  by destruct json_text.
Qed.

Lemma parse_raw_no_candidate raw :
  raw <> [] -> find_json raw = None -> parse_raw raw = inl (NoJsonFound raw).
Proof.
  intros Hraw Hf. unfold parse_raw. destruct raw as [| c raw]; [done |].
  by rewrite Hf.
Qed.

Lemma normalize_raises v e : normalize v = inl e -> e = AttributeError.
Proof. destruct v; simpl; try congruence. apply normalize_fields_raises. Qed.

Lemma parse_raw_empty raw : parse_raw raw = inl EmptyResponse <-> raw = [].
Proof.
  split; [| by intros ->].
  destruct raw as [| c raw]; [done |]. intros H. exfalso.
  destruct (find_json (c :: raw)) as [t |] eqn:Hf.
  - rewrite (parse_raw_candidate _ t) in H by done.
    destruct (json_loads t); [discriminate |].
    by apply normalize_raises in H.
  - rewrite parse_raw_no_candidate in H by done. discriminate.
Qed.

Lemma parse_raw_no_json raw x :
  parse_raw raw = inl (NoJsonFound x) <-> raw <> [] /\ x = raw /\ find_json raw = None.
Proof.
  split.
  - intros H. destruct raw as [| c raw]; [discriminate |].
    destruct (find_json (c :: raw)) as [t |] eqn:Hf.
    + rewrite (parse_raw_candidate _ t) in H by done.
      destruct (json_loads t); [discriminate |].
      by apply normalize_raises in H.
    + rewrite parse_raw_no_candidate in H by done. by injection H as <-.
  - intros (Hraw & -> & Hf). by apply parse_raw_no_candidate.
Qed.

Lemma parse_raw_invalid raw e json_text :
  parse_raw raw = inl (InvalidJson e json_text)
  <-> raw <> [] /\ find_json raw = Some json_text /\ json_loads json_text = inl e.
Proof.
  split.
  - intros H. destruct raw as [| c raw]; [discriminate |].
    destruct (find_json (c :: raw)) as [t |] eqn:Hf.
    + rewrite (parse_raw_candidate _ t) in H by done.
      destruct (json_loads t) as [e' | v] eqn:Hl.
      * injection H as -> ->. done.
      * by apply normalize_raises in H.
    + rewrite parse_raw_no_candidate in H by done. discriminate.
  - intros (Hraw & Hf & Hl). rewrite (parse_raw_candidate _ _ Hraw Hf). by rewrite Hl.
Qed.

End ParseRawFacts.

(** C2, as the code has it. [parse_raw] fails with [EmptyResponse] exactly
    when the raw text is empty; with [NoJsonFound], carrying the raw text,
    exactly when the text is not empty and holds no candidate, which is
    the case of every text without an open brace, of ["no braces here"],
    and of ["{invalid"], whose brace is never closed; with [InvalidJson],
    carrying the decoder's exception and the candidate, exactly when a
    candidate is found and the decoder rejects it, which is the case of
    ["{invalid}"] for a decoder that rejects it. A failure is no record. *)
Theorem parse_failures `{L : PyLib} :
  (forall raw, parse_raw raw = inl EmptyResponse <-> raw = [])
  /\ (forall raw x,
        parse_raw raw = inl (NoJsonFound x)
        <-> raw <> [] /\ x = raw /\ find_json raw = None)
  /\ (forall raw e json_text,
        parse_raw raw = inl (InvalidJson e json_text)
        <-> raw <> [] /\ find_json raw = Some json_text /\ json_loads json_text = inl e)
  /\ (forall raw, 123 ∉ raw -> find_json raw = None)
  /\ parse_raw (u "no braces here") = inl (NoJsonFound (u "no braces here"))
  /\ parse_raw (u "{invalid") = inl (NoJsonFound (u "{invalid"))
  /\ (forall e, json_loads (u "{invalid}") = inl e ->
                parse_raw (u "{invalid}") = inl (InvalidJson e (u "{invalid}")))
  /\ (forall raw e r, parse_raw raw = inl e -> parse_raw raw <> inr r).
Proof.
  split; [exact parse_raw_empty |].
  split; [exact parse_raw_no_json |].
  split; [exact parse_raw_invalid |].
  split; [exact find_json_no_brace |].
  split; [reflexivity |].
  split; [reflexivity |].
  split; [| congruence].
  intros e He. apply parse_raw_invalid. split; [discriminate |]. split; [reflexivity | exact He].
Qed.

Lemma parse_failures_witness :
  parse_raw (L := reference) (u "{invalid}")
  = inl (InvalidJson
           (JsonRef.JSONDecodeError "Expecting property name enclosed in double quotes")
           (u "{invalid}")).
Proof.
  destruct (parse_failures (L := reference)) as (_ & _ & _ & _ & _ & _ & Hinv & _).
  apply Hinv. reflexivity.
Defined.

(** The raw text is the joined chunks after [strip()]: a reply of blanks
    only is an empty raw text. *)
Example blank_reply_is_empty_response :
  raw_text [u "  "; [9; 10]] = []
  /\ parse_raw (L := reference) (raw_text [u "  "; [9; 10]]) = inl EmptyResponse.
Proof. split; reflexivity. Qed.

(** C2 as stated fails on ["{invalid"]: the brace is never closed, no
    candidate is found, and the failure is [NoJsonFound], not
    [InvalidJson]; the decoder is not called. *)
Lemma unclosed_brace_is_no_json_found :
  parse_raw (L := reference) (u "{invalid") = inl (NoJsonFound (u "{invalid"))
  /\ ~ (exists e json_text,
          parse_raw (L := reference) (u "{invalid") = inl (InvalidJson e json_text)).
Proof.
  split; [reflexivity |]. intros (e & t & H). discriminate H.
Qed.

(** C5, as the code has it. Take a text that starts with an open brace,
    ends with a closing brace, holds no backquote, and whose braces in
    between nest properly. Fenced (after any text without a backquote,
    with or without the tag [json], with any whitespace around it) and
    unfenced (after any text without brace or backquote, before any text
    without backquote), the same text is taken as the candidate, so both
    replies have the same outcome; and both return the same record when
    the decoder accepts the text as an object that normalisation
    accepts. *)
Theorem fenced_and_unfenced_agree `{L : PyLib}
    (mid pre tag ws1 ws2 post pre' post' : str) :
  balanced mid -> 96 ∉ mid ->
  96 ∉ pre -> tag = [] \/ tag = u "json" ->
  Forall (fun c => py_isspace c = true) ws1 ->
  Forall (fun c => py_isspace c = true) ws2 ->
  123 ∉ pre' -> 96 ∉ pre' -> 96 ∉ post' ->
  find_json (pre ++ u "```" ++ tag ++ ws1 ++ (123 :: mid ++ [125]) ++ ws2 ++ u "```" ++ post)
    = Some (123 :: mid ++ [125])
  /\ find_json (pre' ++ (123 :: mid ++ [125]) ++ post') = Some (123 :: mid ++ [125])
  /\ parse_raw (pre ++ u "```" ++ tag ++ ws1 ++ (123 :: mid ++ [125]) ++ ws2 ++ u "```" ++ post)
     = parse_raw (pre' ++ (123 :: mid ++ [125]) ++ post')
  /\ (forall d r,
        json_loads (123 :: mid ++ [125]) = inr (JDict d) -> normalize_fields d = inr r ->
        parse_raw (pre ++ u "```" ++ tag ++ ws1 ++ (123 :: mid ++ [125]) ++ ws2 ++ u "```" ++ post)
          = inr r
        /\ parse_raw (pre' ++ (123 :: mid ++ [125]) ++ post') = inr r).
Proof.
  intros Hbal Hmid Hpre Htag Hws1 Hws2 Hb' Hpre' Hpost'.
  pose proof (find_json_fenced pre tag ws1 mid ws2 post Hpre Htag Hws1 Hws2 Hmid) as Hf.
  pose proof (find_json_unfenced pre' mid post' Hb' Hpre' Hmid Hpost' Hbal) as Hu.
  assert (pre ++ u "```" ++ tag ++ ws1 ++ (123 :: mid ++ [125]) ++ ws2 ++ u "```" ++ post <> [])
    as Hnf by (intros H; apply (f_equal length) in H; rewrite !length_app in H;
               cbn [length] in H; vm_compute (length (u "```")) in H; lia).
  assert (pre' ++ (123 :: mid ++ [125]) ++ post' <> [])
    as Hnu by (intros H; apply (f_equal length) in H; rewrite !length_app in H;
               cbn [length] in H; lia).
  split; [exact Hf |]. split; [exact Hu |].
  rewrite (parse_raw_candidate _ _ Hnf Hf), (parse_raw_candidate _ _ Hnu Hu).
  split; [reflexivity |].
  intros d r -> Hn. by split.
Qed.

Lemma fenced_and_unfenced_agree_witness :
  parse_raw (L := reference) sample_fenced_reply = inr sample_record
  /\ parse_raw (L := reference) sample_unfenced_reply = inr sample_record.
Proof.
  assert (Forall (fun c => py_isspace c = true) [10]) as Hws
    by (constructor; [reflexivity | constructor]).
  destruct (fenced_and_unfenced_agree (L := reference)
              sample_members [] (u "json") [10] [10] []
              (u "Here is the copy: ") (u " Done."))
    as (_ & _ & _ & Hboth).
  - reflexivity.
  - apply (bool_decide_unpack _). vm_compute. reflexivity.
  - apply not_elem_of_nil.
  - right. reflexivity.
  - exact Hws.
  - exact Hws.
  - apply (bool_decide_unpack _). vm_compute. reflexivity.
  - apply (bool_decide_unpack _). vm_compute. reflexivity.
  - apply (bool_decide_unpack _). vm_compute. reflexivity.
  - apply (Hboth (<[u "color_theme" := JStr (u "purple_pink")]>
                    (<[u "cta_line_ta" := JStr (u "Z")]>
                       (<[u "bullet_points_ta" :=
                            JList [JStr (u "A"); JStr (u "B"); JStr (u "C");
                                   JStr (u "D"); JStr (u "E")]]>
                          (<[u "body_paragraph_ta" := JStr (u "Y")]>
                             (<[u "headline_ta" := JStr (u "X")]> ∅)))))
                 sample_record); reflexivity.
Defined.

(** C5 as stated fails on a JSON object with a closing brace inside a
    string: the decoder accepts its text, the fenced reply returns a
    record, and the unfenced reply fails with [InvalidJson], the brace
    scan having stopped at the brace inside the string. *)
Lemma brace_in_string_breaks_unfenced :
  JsonRef.loads brace_in_string_text
    = inr (JDict (<[u "headline_ta" := JStr (u "}")]> ∅))
  /\ parse_raw (L := reference) brace_in_string_fenced
     = inr (<[u "text_colors" := JDict default_text_colors]>
              (<[u "bullet_points_ta" := JList []]>
                 (<[u "color_theme" := JStr (u "blue_orange")]>
                    (<[u "headline_ta" := JStr (u "}")]> ∅))))
  /\ parse_raw (L := reference) brace_in_string_text
     = inl (InvalidJson (JsonRef.JSONDecodeError "Unterminated string starting at")
                        brace_in_string_cut).
Proof. split; [reflexivity |]. split; reflexivity. Qed.

(* --------------------------------------------------------------------- *)
(** ** The text of the reply *)
(* --------------------------------------------------------------------- *)

Lemma nonempty_text_Some t c : nonempty_text t = Some c <-> t = Some c /\ c <> [].
Proof.
  destruct t as [[| x t] |]; simpl.
  - split; [discriminate |]. intros [[= <-] H]. done.
  - split; [intros [= <-]; done | intros [[= <-] _]; done].
  - split; [discriminate | intros [[=] _]].
Qed.

Lemma elem_of_part_texts (result : response) (c : str) :
  c ∈ flat_map (fun cand =>
         match cand_content cand with
         | None => []
         | Some ct =>
             omap (fun p => nonempty_text (part_text p)) (default [] (content_parts ct))
         end) (default [] (candidates result))
  <-> c <> [] /\ part_text_of result c.
Proof.
  rewrite list_elem_of_In, in_flat_map. unfold part_text_of. split.
  - intros (cand & Hcand & Hc). apply list_elem_of_In in Hcand, Hc.
    destruct (candidates result) as [cands |] eqn:Hcs; [| by apply elem_of_nil in Hcand].
    destruct (cand_content cand) as [ct |] eqn:Hct; [| by apply elem_of_nil in Hc].
    apply list_elem_of_omap in Hc as (p & Hp & Ht).
    destruct (content_parts ct) as [parts |] eqn:Hps; [| by apply elem_of_nil in Hp].
    apply nonempty_text_Some in Ht as [Ht Hne]. split; [exact Hne |].
    exists cands, cand, ct, parts, p. repeat split; done.
  - intros (Hne & cands & cand & ct & parts & p & Hcs & Hcand & Hct & Hps & Hp & Ht).
    exists cand. rewrite Hcs. split; [by apply list_elem_of_In |].
    apply list_elem_of_In. rewrite Hct, Hps. apply list_elem_of_omap.
    exists p. split; [exact Hp |]. by apply nonempty_text_Some.
Qed.

(** X1. The chunks collected from a reply are never empty texts; every
    non-empty text of a part of a candidate is collected; and a chunk is
    either such a part text or, only when no part has a non-empty text,
    the attribute [text] of the reply, which is then the only chunk. *)
Theorem collect_chunks_spec (result : response) :
  (forall c, c ∈ collect_chunks result -> c <> [])
  /\ (forall t, t <> [] -> part_text_of result t -> t ∈ collect_chunks result)
  /\ (forall c, c ∈ collect_chunks result ->
        part_text_of result c
        \/ ((forall t, part_text_of result t -> t = [])
            /\ response_text result = Some c /\ collect_chunks result = [c])).
Proof.
  unfold collect_chunks.
  pose proof (elem_of_part_texts result) as Hin.
  destruct (flat_map _ _) as [| x chunks] eqn:Hchunks.
  - assert (forall t, part_text_of result t -> t = []) as Hnone.
    { intros t Ht. destruct t as [| c t]; [reflexivity |].
      assert (c :: t ∈ @nil str) as H by (apply Hin; done). by apply elem_of_nil in H. }
    destruct (nonempty_text (response_text result)) as [t |] eqn:Ht.
    + apply nonempty_text_Some in Ht as [Ht Hne].
      split; [| split].
      * intros c ->%list_elem_of_singleton. exact Hne.
      * intros t' Hne' Hp. by destruct (Hne' (Hnone t' Hp)).
      * intros c ->%list_elem_of_singleton. right. auto.
    + split; [| split].
      * intros c Hc. by apply elem_of_nil in Hc.
      * intros t' Hne' Hp. by destruct (Hne' (Hnone t' Hp)).
      * intros c Hc. by apply elem_of_nil in Hc.
  - assert (forall c, c ∈ x :: chunks <-> c <> [] /\ part_text_of result c) as Hin' by exact Hin.
    cbv beta iota zeta.
    split; [| split].
    + intros c Hc. by apply Hin'.
    + intros t Hne Hp. by apply Hin'.
    + intros c Hc. left. by apply Hin'.
Qed.

Lemma lstrip_spec s :
  exists a, s = a ++ lstrip s /\ blank a
            /\ match lstrip s with c :: _ => py_isspace c = false | [] => True end.
Proof.
  induction s as [| c s (a & Hs & Ha & Hh)]; simpl.
  - exists []. repeat split. constructor.
  - destruct (py_isspace c) eqn:Hc.
    + exists (c :: a). split; [by rewrite Hs at 1 |]. split; [by constructor | exact Hh].
    + exists []. repeat split; [constructor | exact Hc].
Qed.

Lemma lstrip_blank s : blank s -> lstrip s = [].
Proof. induction 1 as [| c s Hc _ IH]; simpl; [reflexivity |]. by rewrite Hc. Qed.

Lemma strip_spec s :
  exists a b, s = a ++ strip s ++ b /\ blank a /\ blank b /\ trimmed (strip s).
Proof.
  unfold strip.
  destruct (lstrip_spec s) as (a & Hs & Ha & Hh).
  destruct (lstrip_spec (rev (lstrip s))) as (b & Hr & Hb & Hh').
  set (t := lstrip s) in *. set (w := lstrip (rev t)) in *.
  assert (t = rev w ++ rev b) as Ht.
  { rewrite <- (rev_involutive t), Hr. apply rev_app_distr. }
  exists a, (rev b). split; [by rewrite <- Ht |]. split; [exact Ha |].
  split; [by apply Forall_rev |].
  split.
  - destruct (rev w) as [| c r] eqn:Hw; [exact I |].
    rewrite Ht in Hh. exact Hh.
  - rewrite rev_involutive. exact Hh'.
Qed.

Lemma strip_nil_iff s : strip s = [] <-> blank s.
Proof.
  split.
  - intros H. destruct (strip_spec s) as (a & b & Hs & Ha & Hb & _).
    rewrite H in Hs. rewrite Hs. by apply Forall_app.
  - intros H. unfold strip. by rewrite (lstrip_blank s H).
Qed.

Lemma join_blank chunks : blank (join [10] chunks) <-> Forall blank chunks.
Proof.
  induction chunks as [| c [| r rest] IH].
  - split; constructor.
  - cbn [join]. split; [intros H; by repeat constructor | by intros [H _]%Forall_cons].
  - change (join [10] (c :: r :: rest)) with (c ++ [10] ++ join [10] (r :: rest)).
    unfold blank in *. rewrite !Forall_app, IH, (Forall_cons _ c).
    split; [tauto |]. intros [Hc Hr]. repeat split; try done. by repeat constructor.
Qed.

(** X2. The raw text is the chunks joined by newlines with the whitespace
    at both ends removed: the joined text is the raw text between two
    runs of whitespace, the raw text neither starts nor ends with
    whitespace, and it is empty exactly when every chunk is made of
    whitespace only. *)
Theorem raw_text_spec (chunks : list str) :
  (exists a b, join [10] chunks = a ++ raw_text chunks ++ b /\ blank a /\ blank b)
  /\ trimmed (raw_text chunks)
  /\ (raw_text chunks = [] <-> Forall blank chunks).
Proof.
  destruct chunks as [| c rest].
  - split; [| split].
    + exists [], []. repeat split; constructor.
    + by split.
    + split; constructor.
  - change (raw_text (c :: rest)) with (strip (join [10] (c :: rest))).
    destruct (strip_spec (join [10] (c :: rest))) as (a & b & Hs & Ha & Hb & Ht).
    split; [by exists a, b |]. split; [exact Ht |].
    rewrite strip_nil_iff. apply join_blank.
Qed.

(** X3. [generate_text] fails with [EmptyResponse] exactly when the reply
    to its prompt has no text chunk or only chunks of whitespace;
    whatever else the reply holds, the failure is another one or a record
    is returned. *)
Theorem generate_text_empty_response `{L : PyLib} (client : str -> response) (style_mode : str) :
  generate_text client style_mode = inl EmptyResponse
  <-> Forall blank (collect_chunks (client (build_prompt style_mode))).
Proof.
  unfold generate_text. rewrite parse_raw_empty.
  apply raw_text_spec.
Qed.

(* --------------------------------------------------------------------- *)
(** ** The candidate, whichever way it is found *)
(* --------------------------------------------------------------------- *)

Lemma find_char_split c s i :
  find_char c s = Some i ->
  exists pre rest, s = pre ++ c :: rest /\ length pre = i /\ c ∉ pre.
Proof.
  revert i. induction s as [| x s IH]; intros i; simpl; [discriminate |].
  destruct (x =? c) eqn:E.
  - intros [= <-]. apply N.eqb_eq in E as ->.
    exists [], s. repeat split. apply not_elem_of_nil.
  - destruct (find_char c s) as [j |]; [| discriminate].
    intros [= <-]. destruct (IH j eq_refl) as (pre & rest & -> & <- & Hpre).
    exists (x :: pre), rest. repeat split.
    apply not_elem_of_cons. split; [| exact Hpre].
    intros ->. by rewrite N.eqb_refl in E.
Qed.

Lemma scan_braces_inv rest i d j :
  (0 <= d)%Z -> scan_braces rest i (d + 1) = Some j ->
  exists mid post,
    rest = mid ++ 125 :: post /\ j = (i + length mid)%nat /\ (balanced_from d mid = true).
Proof.
  revert i d. induction rest as [| c rest IH]; intros i d Hd; simpl; [discriminate |].
  destruct (c =? 123) eqn:E1.
  - intros H. destruct (IH (S i) (d + 1)%Z ltac:(lia) H) as (mid & post & -> & -> & Hb).
    exists (c :: mid), post. simpl. rewrite E1. repeat split; [lia | exact Hb].
  - destruct (c =? 125) eqn:E2.
    + apply N.eqb_eq in E2 as ->. replace (d + 1 - 1)%Z with d by lia.
      destruct (d =? 0)%Z eqn:E0.
      * intros [= <-]. exists [], rest. simpl. rewrite E0. repeat split. lia.
      * apply Z.eqb_neq in E0. intros H.
        replace d with (d - 1 + 1)%Z in H at 1 by lia.
        destruct (IH (S i) (d - 1)%Z ltac:(lia) H) as (mid & post & -> & -> & Hb).
        exists (125 :: mid), post. simpl. rewrite Hb.
        assert ((0 <? d)%Z = true) as -> by (apply Z.ltb_lt; lia).
        repeat split. lia.
    + intros H. destruct (IH (S i) d Hd H) as (mid & post & -> & -> & Hb).
      exists (c :: mid), post. simpl. rewrite E1, E2. repeat split; [lia | exact Hb].
Qed.

(** X4. The brace scan yields a candidate exactly when the raw text has
    an open brace whose first occurrence is followed by properly nested
    braces and then a closing brace; the candidate runs from that first
    open brace to that closing brace, and the text before and after plays
    no part. In particular an open brace that is never closed, or closed
    only after more open braces than closing ones, gives no candidate. *)
Theorem brace_candidate_iff (raw t : str) :
  brace_candidate raw = Some t
  <-> exists pre mid post,
        raw = pre ++ (123 :: mid ++ [125]) ++ post
        /\ (123 ∉ pre) /\ balanced mid /\ t = 123 :: mid ++ [125].
Proof.
  split.
  - unfold brace_candidate.
    destruct (find_char 123 raw) as [start |] eqn:Hf; [| discriminate].
    destruct (find_char_split _ _ _ Hf) as (pre & rest & -> & <- & Hpre).
    rewrite drop_app_length. cbn [scan_braces]. rewrite N.eqb_refl.
    destruct (scan_braces rest _ _) as [j |] eqn:Hs; [| discriminate].
    destruct (scan_braces_inv rest _ 0 j ltac:(lia) Hs) as (mid & post & -> & -> & Hb).
    intros [= <-]. exists pre, mid, post.
    assert (pre ++ 123 :: mid ++ 125 :: post = pre ++ (123 :: mid ++ [125]) ++ post) as Heq
      by (cbn [app]; by rewrite <- app_assoc).
    split; [exact Heq |]. split; [exact Hpre |]. split; [exact Hb |].
    unfold slice. rewrite drop_app_length.
    replace (123 :: mid ++ 125 :: post) with ((123 :: mid ++ [125]) ++ post)
      by (cbn [app]; by rewrite <- app_assoc).
    match goal with
    | |- take ?n _ = _ =>
        replace n with (length (123 :: mid ++ [125]))
          by (cbn [length]; rewrite length_app; cbn [length]; lia)
    end.
    apply take_app_length.
  - intros (pre & mid & post & -> & Hpre & Hb & ->).
    by apply brace_candidate_balanced.
Qed.

Lemma brace_candidate_iff_witness :
  brace_candidate (u "see {a{b}c} and {d}") = Some (u "{a{b}c}")
  /\ brace_candidate (u "see {a{b}c and d") = None.
Proof.
  split.
  - apply (brace_candidate_iff (u "see {a{b}c} and {d}") (u "{a{b}c}")).
    exists (u "see "), (u "a{b}c"), (u " and {d}").
    split; [reflexivity |]. split; [| split; reflexivity].
    apply (bool_decide_unpack _). vm_compute. reflexivity.
  - destruct (brace_candidate (u "see {a{b}c and d")) as [t |] eqn:E; [| reflexivity].
    vm_compute in E. discriminate E.
Defined.

Section CandidateShape.
Import Re.

Lemma search_some_suffix r s g :
  search r s = Some g -> exists a s', s = a ++ s' /\ match_here r s' = Some g.
Proof.
  induction s as [| c s IH]; cbn [search].
  - destruct (match_here r []) eqn:E; [| discriminate]. intros [= <-]. by exists [], [].
  - destruct (match_here r (c :: s)) eqn:E.
    + intros [= <-]. by exists [], (c :: s).
    + intros (a & s' & -> & H)%IH. by exists (c :: a), s'.
Qed.

(** Group 1 of a match is a part of the text, from an open brace to a
    closing brace. *)
Lemma match_here_group_shape s g :
  match_here fence_re s = Some g ->
  exists pre mid post, s = pre ++ (123 :: mid ++ [125]) ++ post /\ g = Some (123 :: mid ++ [125]).
Proof.
  unfold match_here. rewrite fence_re_unfold. intros H.
  assert (exists pre s5 g5, s = pre ++ s5
            /\ exec (Seq (Group body_re) close_re) s5 g5 (fun _ g' => Some g') = Some g)
    as (pre & s5 & g5 & -> & H5).
  { rewrite exec_seq in H. apply exec_some in H as (a1 & s1 & g1 & -> & H).
    rewrite exec_seq in H. apply exec_some in H as (a2 & s2 & g2 & -> & H).
    rewrite exec_seq in H. apply exec_some in H as (a3 & s3 & g3 & -> & H).
    rewrite exec_seq in H. apply exec_some in H as (a4 & s4 & g4 & -> & H).
    rewrite exec_seq in H. apply exec_some in H as (a5 & s5 & g5 & -> & H).
    exists (a1 ++ a2 ++ a3 ++ a4 ++ a5), s5, g5. split; [by rewrite <- !app_assoc | exact H]. }
  rewrite exec_group_body in H5.
  destruct s5 as [| c s5]; [discriminate |].
  destruct (123 =? c) eqn:Ec; [| discriminate]. apply N.eqb_eq in Ec as <-.
  apply star_lazy_some in H5 as (a & b & -> & H5).
  destruct b as [| y t]; [discriminate |].
  destruct (125 =? y) eqn:Ey; [| discriminate]. apply N.eqb_eq in Ey as <-.
  apply close_keeps_group in H5 as ->.
  exists pre, a, t.
  assert (123 :: a ++ 125 :: t = (123 :: a ++ [125]) ++ t) as Heq
    by (cbn [app]; by rewrite <- app_assoc).
  split; [by rewrite Heq |]. f_equal. rewrite Heq.
  match goal with
  | |- take ?n _ = _ =>
      replace n with (length (123 :: a ++ [125])) by (rewrite (length_app _ t); lia)
  end.
  apply take_app_length.
Qed.

End CandidateShape.

(** X5. Whichever way it is found, by the fence pattern or by the brace
    scan, the candidate is a part of the raw text that starts with an open
    brace and ends with a closing brace; on a text without a backquote the
    fence pattern never matches and the candidate is that of the brace
    scan. *)
Theorem find_json_shape (raw t : str) :
  (find_json raw = Some t ->
   exists pre mid post, raw = pre ++ t ++ post /\ t = 123 :: mid ++ [125])
  /\ (96 ∉ raw -> find_json raw = brace_candidate raw).
Proof.
  split.
  - unfold find_json. destruct (Re.search fence_re raw) as [g |] eqn:Hs.
    + apply search_some_suffix in Hs as (a & s' & -> & Hm).
      apply match_here_group_shape in Hm as (pre & mid & post & -> & ->).
      intros [= <-]. exists (a ++ pre), mid, post. by rewrite <- app_assoc.
    + intros (pre & mid & post & -> & _ & _ & ->)%brace_candidate_iff. eauto.
  - intros H. unfold find_json. by rewrite search_needs_tick.
Qed.

Lemma find_json_shape_witness :
  exists pre mid post,
    sample_fenced_reply = pre ++ sample_object_text ++ post
    /\ sample_object_text = 123 :: mid ++ [125].
Proof.
  apply (proj1 (find_json_shape sample_fenced_reply sample_object_text)).
  reflexivity.
Defined.

(** X6. The two outcomes of [parse_raw] that follow a successful
    decoding. A record is returned exactly when a candidate is found, the
    decoder returns a dict for it and normalisation of that dict returns
    the record; [AttributeError] leaves exactly when a candidate is found
    and the decoder returns either a value that is not a dict or a dict
    whose [text_colors] is truthy and not a dict. *)
Theorem parse_raw_after_decoding `{L : PyLib} (raw : str) :
  (forall r,
      parse_raw raw = inr r
      <-> exists json_text d,
            raw <> [] /\ find_json raw = Some json_text
            /\ json_loads json_text = inr (JDict d) /\ normalize_fields d = inr r)
  /\ (parse_raw raw = inl AttributeError
      <-> exists json_text v,
            raw <> [] /\ find_json raw = Some json_text /\ json_loads json_text = inr v
            /\ ((forall d, v <> JDict d)
                \/ exists d x, v = JDict d /\ d !! u "text_colors" = Some x
                               /\ py_truthy x = true /\ forall tc, x <> JDict tc)).
Proof.
  split.
  - intros r. split; [apply parse_raw_inr |].
    intros (t & d & Hraw & Hf & Hl & Hn).
    rewrite (parse_raw_candidate raw t Hraw Hf), Hl. exact Hn.
  - split.
    + intros H. destruct raw as [| c raw]; [discriminate |].
      destruct (find_json (c :: raw)) as [t |] eqn:Hf;
        [| rewrite parse_raw_no_candidate in H by done; discriminate].
      rewrite (parse_raw_candidate _ t) in H by done.
      destruct (json_loads t) as [e | v] eqn:Hl; [discriminate |].
      exists t, v. split; [done |]. split; [reflexivity |]. split; [exact Hl |].
      destruct v as [| | | | | | d]; try (left; discriminate).
      right. simpl in H.
      destruct (d !! u "text_colors") as [x |] eqn:Hx.
      * exists d, x. split; [reflexivity |]. split; [exact Hx |].
        destruct (py_truthy x) eqn:Ht.
        -- split; [reflexivity |]. intros tc ->.
           assert (exists r, normalize_fields d = inr r) as (r & Hr)
               by (apply normalize_fields_returns; right; eauto).
           congruence.
        -- assert (exists r, normalize_fields d = inr r) as (r & Hr)
               by (apply normalize_fields_returns; right; eauto).
           congruence.
      * assert (exists r, normalize_fields d = inr r) as (r & Hr)
            by (apply normalize_fields_returns; left; exact Hx).
        congruence.
    + intros (t & v & Hraw & Hf & Hl & Hv).
      rewrite (parse_raw_candidate raw t Hraw Hf), Hl.
      destruct Hv as [Hv | (d & x & -> & Hx & Ht & Hnd)].
      * destruct v; try reflexivity. by destruct (Hv d).
      * simpl. destruct (normalize_fields d) as [e | r] eqn:Hn.
        -- by rewrite (normalize_fields_raises d e Hn).
        -- exfalso.
           assert (exists r, normalize_fields d = inr r) as Hex by eauto.
           apply normalize_fields_returns in Hex as [Hnone | (x' & Hx' & [Hf' | (tc & ->)])].
           ++ congruence.
           ++ congruence.
           ++ rewrite Hx in Hx'. injection Hx' as ->. by destruct (Hnd tc).
Qed.

Lemma parse_raw_after_decoding_witness :
  parse_raw (L := reference) (u "{" ++ q "text_colors" ++ u ": " ++ q "red" ++ u "}")
  = inl AttributeError.
Proof.
  apply (proj2 (parse_raw_after_decoding (L := reference) _)).
  exists (u "{" ++ q "text_colors" ++ u ": " ++ q "red" ++ u "}"),
         (JDict (<[u "text_colors" := JStr (u "red")]> ∅)).
  split; [discriminate |]. split; [reflexivity |]. split; [reflexivity |].
  right. exists (<[u "text_colors" := JStr (u "red")]> ∅), (JStr (u "red")).
  split; [reflexivity |]. split; [reflexivity |]. split; [reflexivity | discriminate].
Defined.

(** X7. Normalisation fails only with [AttributeError], and exactly when
    the decoded [text_colors] is truthy and not a dict (a non-empty
    string or list, a number other than 0, [true]); an absent, falsy or
    dict-valued [text_colors] never fails. *)
Theorem normalize_fields_failure `{L : PyLib} (parsed : dict) :
  (forall e, normalize_fields parsed = inl e -> e = AttributeError)
  /\ (normalize_fields parsed = inl AttributeError
      <-> exists x, parsed !! u "text_colors" = Some x
                    /\ py_truthy x = true /\ forall tc, x <> JDict tc).
Proof.
  split; [apply normalize_fields_raises |].
  pose proof (normalize_fields_returns parsed) as Hret.
  split.
  - intros H.
    destruct (parsed !! u "text_colors") as [x |] eqn:Hx.
    + exists x. split; [reflexivity |].
      destruct (py_truthy x) eqn:Ht.
      * split; [reflexivity |]. intros tc ->.
        destruct (proj2 Hret) as (r & Hr); [right; eauto | congruence].
      * destruct (proj2 Hret) as (r & Hr); [right; eauto | congruence].
    + destruct (proj2 Hret) as (r & Hr); [by left | congruence].
  - intros (x & Hx & Ht & Hnd).
    destruct (normalize_fields parsed) as [e | r] eqn:Hn.
    + by rewrite (normalize_fields_raises parsed e Hn).
    + exfalso. destruct (proj1 Hret) as [Hnone | (x' & Hx' & [Hf | (tc & ->)])]; [eauto | ..].
      * congruence.
      * congruence.
      * rewrite Hx in Hx'. injection Hx' as ->. by destruct (Hnd tc).
Qed.

Lemma normalize_fields_failure_witness :
  normalize_fields (L := reference) (<[u "text_colors" := JList [JStr (u "red")]]> ∅)
  = inl AttributeError.
Proof.
  apply (proj2 (normalize_fields_failure (L := reference) _)).
  exists (JList [JStr (u "red")]).
  split; [reflexivity |]. split; [reflexivity | discriminate].
Defined.

(** X8. In every returned record [text_colors] holds the three roles and
    nothing else: an entry of the reply's [text_colors] under any other
    name is dropped, and each role holds the reply's value when the reply
    has the role, of whatever type, even [null]. *)
Theorem returned_text_colors_exact `{L : PyLib} (parsed r : dict) :
  normalize_fields parsed = inr r ->
  exists tc',
    r !! u "text_colors" = Some (JDict tc')
    /\ dom tc' = ({[u "headline"; u "body"; u "cta"]} : gset str)
    /\ (forall k, k ∉ [u "headline"; u "body"; u "cta"] -> tc' !! k = None)
    /\ (forall tc role v,
          parsed !! u "text_colors" = Some (JDict tc) ->
          role ∈ [u "headline"; u "body"; u "cta"] ->
          tc !! role = Some v -> tc' !! role = Some v).
Proof.
  intros Hn. destruct (lookup_normalized_text_colors parsed r Hn) as (src & Hsrc & Hr).
  exists (text_colors_record src). split; [exact Hr |].
  pose proof (text_colors_record_dom src) as Hdom.
  split; [exact Hdom |]. split.
  - intros k Hk. apply (not_elem_of_dom (text_colors_record src) k). rewrite Hdom.
    rewrite !not_elem_of_cons in Hk. set_solver.
  - intros tc role v Htc Hrole Hv.
    assert (src = tc) as ->.
    { apply text_colors_source in Hsrc as [H | (-> & [H | (x & H & Hx)])]; [congruence.. |].
      rewrite Htc in H. injection H as <-. symmetry. by apply py_truthy_dict. }
    destruct (text_colors_record_lookup tc) as (Hh & Hb & Hc).
    unfold dict_get_or in Hh, Hb, Hc.
    apply elem_of_cons in Hrole as [-> | Hrole]; [by rewrite Hh, Hv |].
    apply elem_of_cons in Hrole as [-> | Hrole]; [by rewrite Hb, Hv |].
    apply list_elem_of_singleton in Hrole as ->. by rewrite Hc, Hv.
Qed.

Lemma returned_text_colors_exact_witness :
  exists tc',
    <[u "text_colors" := JDict default_text_colors]> extra_role_record !! u "text_colors"
      = Some (JDict tc')
    /\ tc' !! u "footer" = None.
Proof.
  destruct (returned_text_colors_exact (L := reference) extra_role_record
              (<[u "text_colors" := JDict default_text_colors]> extra_role_record) eq_refl)
    as (tc' & Htc & _ & Hother & _).
  exists tc'. split; [exact Htc |].
  apply Hother. apply (bool_decide_unpack _). reflexivity.
Defined.

(* --------------------------------------------------------------------- *)
(** ** Colours as the style sheet takes them *)
(* --------------------------------------------------------------------- *)

Lemma color_table_values_hex :
  Forall (fun entry => is_hex_color entry.2 = true) color_table.
Proof. repeat constructor. Qed.

Lemma color_from_name_hex name fallback :
  is_hex_color fallback = true -> is_hex_color (color_from_name name fallback) = true.
Proof.
  intros Hf. unfold color_from_name.
  destruct (list_to_map color_table !! name) as [c |] eqn:Hc; [| exact Hf].
  apply elem_of_list_to_map_2 in Hc.
  pose proof color_table_values_hex as Hall. rewrite Forall_forall in Hall.
  apply (Hall (name, c) Hc).
Qed.

Lemma theme_colors_cases theme :
  theme_colors theme = theme_colors (u "blue_orange")
  \/ theme_colors theme = theme_colors (u "green_gold")
  \/ theme_colors theme = theme_colors (u "red_yellow")
  \/ theme_colors theme = theme_colors (u "yellow_blue").
Proof.
  unfold theme_colors at 1 3 5 7. repeat case_decide; subst; auto.
Qed.

Lemma theme_colors_hex theme :
  is_hex_color (theme_colors theme).1.1 = true
  /\ is_hex_color (theme_colors theme).1.2 = true
  /\ is_hex_color (theme_colors theme).2 = true.
Proof.
  destruct (theme_colors_cases theme) as [-> | [-> | [-> | ->]]]; repeat split.
Qed.

(** X9. The colour helpers return colours of the form [#] and six
    hexadecimal digits: [color_from_name] whenever its fallback has that
    form, whatever the name; [theme_colors] for every theme name. *)
Theorem colors_are_hex :
  (forall name fallback,
      is_hex_color fallback = true -> is_hex_color (color_from_name name fallback) = true)
  /\ (forall theme,
        is_hex_color (theme_colors theme).1.1 = true
        /\ is_hex_color (theme_colors theme).1.2 = true
        /\ is_hex_color (theme_colors theme).2 = true).
Proof.
  split; [exact color_from_name_hex | exact theme_colors_hex].
Qed.

Lemma colors_are_hex_witness :
  is_hex_color (color_from_name (u "teal") (u "#b91c1c")) = true.
Proof. apply (proj1 colors_are_hex). reflexivity. Defined.

(* --------------------------------------------------------------------- *)
(** ** The arguments of the template *)
(* --------------------------------------------------------------------- *)

Lemma subscript_dict d k x : subscript (JDict d) k = inr x <-> d !! k = Some x.
Proof. simpl. destruct (d !! k); split; congruence. Qed.

Lemma color_from_value_inr v fallback c :
  color_from_value v fallback = inr c ->
  hashable v = true
  /\ (is_hex_color fallback = true -> is_hex_color c = true)
  /\ ((forall s, v = JStr s -> s ∉ color_table.*1) -> c = fallback).
Proof.
  destruct v; simpl; intros [= <-]; repeat split; auto.
  - by apply color_from_name_hex.
  - intros H. apply color_from_name_unknown. by apply H.
Qed.

Lemma color_from_value_hashable v fallback :
  hashable v = true -> exists c, color_from_value v fallback = inr c.
Proof. destruct v; simpl; try discriminate; eauto. Qed.

Lemma photo_data_url_Some bs : exists url, photo_data_url bs = Some url.
Proof.
  unfold photo_data_url, decode_ascii. rewrite b64encode_ascii. simpl. eauto.
Qed.

Lemma font_data_url_Some bs : exists url, font_data_url bs = Some url.
Proof.
  unfold font_data_url, decode_ascii. rewrite b64encode_ascii. simpl. eauto.
Qed.

Lemma read_file_inr fs path bs : read_file fs path = inr bs <-> fs path = Some bs.
Proof. unfold read_file. destruct (fs path); split; congruence. Qed.

Section ContextFacts.
Context (fs : files) (text_spec : dict) (name role number : str).
Context (agent_img_bytes : list byte).

(** What a successful evaluation of the arguments has read. *)
Lemma poster_context_of_inr ctx :
  poster_context_of fs text_spec name role number agent_img_bytes = inr ctx ->
  exists theme tc h b c,
    text_spec !! u "color_theme" = Some theme
    /\ text_spec !! u "text_colors" = Some (JDict tc)
    /\ tc !! u "headline" = Some h /\ tc !! u "body" = Some b /\ tc !! u "cta" = Some c
    /\ color_from_value h (u "#0f172a") = inr (ctx_headline_color ctx)
    /\ color_from_value b (u "#111827") = inr (ctx_body_color ctx)
    /\ color_from_value c (u "#b91c1c") = inr (ctx_cta_color ctx)
    /\ (ctx_top_color ctx, ctx_bottom_color ctx, ctx_footer_color ctx) = theme_colors_of theme
    /\ text_spec !! u "headline_ta" = Some (ctx_headline ctx)
    /\ text_spec !! u "body_paragraph_ta" = Some (ctx_body_paragraph ctx)
    /\ text_spec !! u "bullet_points_ta" = Some (ctx_bullet_points ctx)
    /\ text_spec !! u "cta_line_ta" = Some (ctx_cta_line ctx)
    /\ ctx_subheadline ctx = dict_get_or text_spec (u "subheadline_ta") (JStr [])
    /\ photo_data_url agent_img_bytes = Some (ctx_photo_data_url ctx)
    /\ exists regular_font bold_font,
         fs regular_font_path = Some regular_font
         /\ fs bold_font_path = Some bold_font
         /\ font_data_url regular_font = Some (ctx_regular_font_data_url ctx)
         /\ font_data_url bold_font = Some (ctx_bold_font_data_url ctx).
Proof.
  unfold poster_context_of, read_file.
  destruct (text_spec !! u "color_theme") as [theme |] eqn:Hth; simpl; rewrite ?Hth; simpl;
    [| discriminate].
  destruct (theme_colors_of theme) as [[top bottom] footer] eqn:Htc.
  destruct (text_spec !! u "text_colors") as [tcv |] eqn:Htcv; simpl; [| discriminate].
  destruct tcv as [| | | | | | tc]; simpl; try discriminate.
  destruct (tc !! u "headline") as [h |] eqn:Hh; simpl; [| discriminate].
  destruct (color_from_value h _) as [e | hc] eqn:Hhc; simpl; [discriminate |].
  destruct (tc !! u "body") as [b |] eqn:Hb; simpl; [| discriminate].
  destruct (color_from_value b _) as [e | bc] eqn:Hbc; simpl; [discriminate |].
  destruct (tc !! u "cta") as [c |] eqn:Hc; simpl; [| discriminate].
  destruct (color_from_value c _) as [e | cc] eqn:Hcc; simpl; [discriminate |].
  destruct (photo_data_url agent_img_bytes) as [photo |] eqn:Hp; simpl; [| discriminate].
  destruct (fs regular_font_path) as [regular_font |] eqn:Hrf; simpl; [| discriminate].
  destruct (font_data_url regular_font) as [reg |] eqn:Hreg; simpl; [| discriminate].
  destruct (fs bold_font_path) as [bold_font |] eqn:Hbf; simpl; [| discriminate].
  destruct (font_data_url bold_font) as [bold |] eqn:Hbold; simpl; [| discriminate].
  destruct (text_spec !! u "headline_ta") as [hl |] eqn:Hhl; simpl; [| discriminate].
  destruct (text_spec !! u "body_paragraph_ta") as [bp |] eqn:Hbp; simpl; [| discriminate].
  destruct (text_spec !! u "bullet_points_ta") as [bl |] eqn:Hbl; simpl; [| discriminate].
  destruct (text_spec !! u "cta_line_ta") as [cl |] eqn:Hcl; simpl; [| discriminate].
  intros [= <-]. simpl. exists theme, tc, h, b, c.
  do 15 (split; [done |]). exists regular_font, bold_font. done.
Qed.

(** What makes the evaluation of the arguments succeed. *)
Lemma poster_context_of_returns theme tc h b c hl bp bl cl regular_font bold_font :
  fs regular_font_path = Some regular_font ->
  fs bold_font_path = Some bold_font ->
  text_spec !! u "color_theme" = Some theme ->
  text_spec !! u "text_colors" = Some (JDict tc) ->
  tc !! u "headline" = Some h -> tc !! u "body" = Some b -> tc !! u "cta" = Some c ->
  hashable h = true -> hashable b = true -> hashable c = true ->
  text_spec !! u "headline_ta" = Some hl ->
  text_spec !! u "body_paragraph_ta" = Some bp ->
  text_spec !! u "bullet_points_ta" = Some bl ->
  text_spec !! u "cta_line_ta" = Some cl ->
  exists ctx, poster_context_of fs text_spec name role number agent_img_bytes = inr ctx.
Proof.
  intros Hrf Hbf Hth Htc Hh Hb Hc Hhh Hhb Hhc Hhl Hbp Hbl Hcl.
  unfold poster_context_of, read_file. simpl. rewrite Hth. simpl.
  destruct (theme_colors_of theme) as [[top bottom] footer].
  rewrite Htc. simpl. rewrite Hh. simpl.
  destruct (color_from_value_hashable h (u "#0f172a") Hhh) as (hc & ->). simpl.
  rewrite Hb. simpl.
  destruct (color_from_value_hashable b (u "#111827") Hhb) as (bc & ->). simpl.
  rewrite Hc. simpl.
  destruct (color_from_value_hashable c (u "#b91c1c") Hhc) as (cc & ->). simpl.
  destruct (photo_data_url_Some agent_img_bytes) as (photo & ->). simpl.
  rewrite Hrf. simpl.
  destruct (font_data_url_Some regular_font) as (reg & ->). simpl.
  rewrite Hbf. simpl.
  destruct (font_data_url_Some bold_font) as (bold & ->). simpl.
  rewrite Hhl. simpl. rewrite Hbp. simpl. rewrite Hbl. simpl. rewrite Hcl. simpl.
  eauto.
Qed.

End ContextFacts.

(** X10. For a record that normalisation returned, the arguments of the
    template can be evaluated exactly when the two font files can be
    read, the record has [headline_ta], [body_paragraph_ta] and
    [cta_line_ta] (normalisation adds none of them) and none of the three
    role values is a list or a dict (they are used as keys of the colour
    table). The keys [color_theme], [text_colors], its three roles and
    [bullet_points_ta] never fail, and [subheadline_ta] may be absent. *)
Theorem poster_context_of_returned `{L : PyLib} (fs : files) (parsed r : dict)
    (name role number : str) (agent_img_bytes : list byte) :
  normalize_fields parsed = inr r ->
  (exists ctx, poster_context_of fs r name role number agent_img_bytes = inr ctx)
  <-> is_Some (fs regular_font_path)
      /\ is_Some (fs bold_font_path)
      /\ is_Some (r !! u "headline_ta")
      /\ is_Some (r !! u "body_paragraph_ta")
      /\ is_Some (r !! u "cta_line_ta")
      /\ (forall tc k v,
            r !! u "text_colors" = Some (JDict tc) ->
            k ∈ [u "headline"; u "body"; u "cta"] -> tc !! k = Some v -> hashable v = true).
Proof.
  intros Hn. split.
  - intros (ctx & Hctx).
    apply poster_context_of_inr in Hctx
      as (theme & tc & h & b & c & _ & Htc & Hh & Hb & Hc & Hhc & Hbc & Hcc & _
          & Hhl & Hbp & _ & Hcl & _ & _ & (rf & bf & Hrf & Hbf & _)).
    split; [exists rf; exact Hrf |]. split; [exists bf; exact Hbf |]. clear Hrf Hbf.
    split; [eauto |]. split; [eauto |]. split; [eauto |].
    intros tc' k v Htc' Hk Hv. rewrite Htc in Htc'. injection Htc' as <-.
    apply color_from_value_inr in Hhc as [Hhh _], Hbc as [Hhb _], Hcc as [Hhcc _].
    apply elem_of_cons in Hk as [-> | Hk]; [congruence |].
    apply elem_of_cons in Hk as [-> | Hk]; [congruence |].
    apply list_elem_of_singleton in Hk as ->. congruence.
  - intros ((rf & Hrf) & (bf & Hbf) & (hl & Hhl) & (bp & Hbp) & (cl & Hcl) & Hhash).
    destruct (lookup_normalized_text_colors parsed r Hn) as (src & _ & Htc).
    destruct (text_colors_record_lookup src) as (Hh & Hb & Hc).
    eapply (poster_context_of_returns fs r);
      [exact Hrf | exact Hbf
      | apply (lookup_normalized_theme parsed r Hn) | exact Htc | exact Hh | exact Hb | exact Hc
      | | | | exact Hhl | exact Hbp | apply (lookup_normalized_bullets parsed r Hn) | exact Hcl].
    + apply (Hhash _ (u "headline") _ Htc); [in_literals | exact Hh].
    + apply (Hhash _ (u "body") _ Htc); [in_literals | exact Hb].
    + apply (Hhash _ (u "cta") _ Htc); [in_literals | exact Hc].
Qed.

Lemma poster_context_of_returned_witness :
  (exists ctx, poster_context_of fonts_present sample_record (u "A") (u "B") (u "1") []
               = inr ctx)
  /\ poster_context_of bold_font_missing sample_record (u "A") (u "B") (u "1") []
     = inl (OSError bold_font_path)
  /\ poster_context_of fonts_present one_bullet_record (u "A") (u "B") (u "1") []
     = inl (KeyError (u "body_paragraph_ta")).
Proof.
  split; [| split; reflexivity].
  assert (normalize_fields (L := reference)
            (<[u "color_theme" := JStr (u "purple_pink")]>
               (<[u "cta_line_ta" := JStr (u "Z")]>
                  (<[u "bullet_points_ta" :=
                       JList [JStr (u "A"); JStr (u "B"); JStr (u "C");
                              JStr (u "D"); JStr (u "E")]]>
                     (<[u "body_paragraph_ta" := JStr (u "Y")]>
                        (<[u "headline_ta" := JStr (u "X")]> ∅)))))
          = inr sample_record) as Hn by reflexivity.
  apply (poster_context_of_returned (L := reference) fonts_present _ sample_record
           (u "A") (u "B") (u "1") [] Hn).
  split; [by eexists |]. split; [by eexists |].
  split; [by eexists |]. split; [by eexists |]. split; [by eexists |].
  intros tc k v [= <-] Hk Hv.
  apply elem_of_cons in Hk as [-> | Hk]; [by injection Hv as <- |].
  apply elem_of_cons in Hk as [-> | Hk]; [by injection Hv as <- |].
  apply list_elem_of_singleton in Hk as ->. by injection Hv as <-.
Defined.

(** X11. When the arguments of the template are evaluated on a record
    that normalisation returned: the three background colours are those
    of the record's theme, which is one of the 4 known themes; all six
    colours have the form [#] and six hexadecimal digits; the bullets are
    a list of at most 3 elements; and the size is 1080 by 1080 with a
    footer of 210. *)
Theorem poster_context_well_formed `{L : PyLib} (fs : files) (parsed r : dict)
    (name role number : str) (agent_img_bytes : list byte) (ctx : poster_context) :
  normalize_fields parsed = inr r ->
  poster_context_of fs r name role number agent_img_bytes = inr ctx ->
  (exists t, r !! u "color_theme" = Some (JStr t) /\ t ∈ known_themes
             /\ (ctx_top_color ctx, ctx_bottom_color ctx, ctx_footer_color ctx)
                = theme_colors t)
  /\ (is_hex_color (ctx_top_color ctx) = true
      /\ is_hex_color (ctx_bottom_color ctx) = true
      /\ is_hex_color (ctx_footer_color ctx) = true
      /\ is_hex_color (ctx_headline_color ctx) = true
      /\ is_hex_color (ctx_body_color ctx) = true
      /\ is_hex_color (ctx_cta_color ctx) = true)
  /\ (exists l, ctx_bullet_points ctx = JList l /\ (length l <= 3)%nat)
  /\ (ctx_width ctx, ctx_height ctx, ctx_footer_height ctx) = (1080, 1080, 210).
Proof.
  intros Hn Hctx.
  pose proof Hctx as Hfields. unfold poster_context_of in Hfields.
  apply poster_context_of_inr in Hctx
    as (theme & tc & h & b & c & Hth & Htc & Hh & Hb & Hc & Hhc & Hbc & Hcc & Htriple
        & _ & _ & Hbl & _).
  destruct (resolve_theme_known parsed) as (t & Ht & Hin).
  pose proof (lookup_normalized_theme parsed r Hn) as Hrt. rewrite Ht in Hrt.
  rewrite Hrt in Hth. injection Hth as <-.
  simpl in Htriple.
  assert (is_hex_color (ctx_top_color ctx) = true
          /\ is_hex_color (ctx_bottom_color ctx) = true
          /\ is_hex_color (ctx_footer_color ctx) = true) as (H1 & H2 & H3).
  { destruct (theme_colors_hex t) as (G1 & G2 & G3).
    rewrite <- Htriple in G1, G2, G3. auto. }
  split; [exists t; repeat split; [exact Hrt | done..] |].
  split.
  { repeat split; try assumption.
    - by apply (color_from_value_inr _ _ _ Hhc).
    - by apply (color_from_value_inr _ _ _ Hbc).
    - by apply (color_from_value_inr _ _ _ Hcc). }
  split.
  { rewrite (lookup_normalized_bullets parsed r Hn) in Hbl. injection Hbl as <-.
    eexists. split; [reflexivity |]. rewrite length_take. lia. }
  clear -Hfields.
  repeat match type of Hfields with
         | ebind ?x _ = _ => destruct x; simpl in Hfields; [discriminate |]
         | (let '(_, _) := ?x in _) = _ => destruct x as [[? ?] ?]
         end.
  injection Hfields as <-. reflexivity.
Qed.

(** X12. A role that the reply does not give takes the colour that the
    call site passes as fallback: when [text_colors] is absent or falsy,
    or is a dict without the role, the headline colour is [#0f172a], the
    body colour [#111827] and the call-to-action colour [#b91c1c]; the
    constants [dark_blue], [black] and [red] of normalisation name these
    same colours. *)
Theorem absent_roles_take_fallback_colors `{L : PyLib} (fs : files) (parsed r : dict)
    (name role number : str) (agent_img_bytes : list byte) (ctx : poster_context) :
  normalize_fields parsed = inr r ->
  poster_context_of fs r name role number agent_img_bytes = inr ctx ->
  forall k fallback color,
    (k, fallback, color) ∈ [ (u "headline", u "#0f172a", ctx_headline_color ctx);
                             (u "body", u "#111827", ctx_body_color ctx);
                             (u "cta", u "#b91c1c", ctx_cta_color ctx) ] ->
    (parsed !! u "text_colors" = None
     \/ (exists v, parsed !! u "text_colors" = Some v /\ py_truthy v = false)
     \/ (exists tc, parsed !! u "text_colors" = Some (JDict tc) /\ tc !! k = None)) ->
    color = fallback.
Proof.
  intros Hn Hctx k fallback color Hk Habsent.
  apply poster_context_of_inr in Hctx
    as (theme & tc' & h & b & c & _ & Htc' & Hh & Hb & Hc & Hhc & Hbc & Hcc & _).
  destruct (lookup_normalized_text_colors parsed r Hn) as (src & Hsrc & Hr).
  rewrite Hr in Htc'. injection Htc' as <-.
  destruct (text_colors_record_lookup src) as (Gh & Gb & Gc).
  unfold dict_get_or in Gh, Gb, Gc.
  assert (src !! k = None) as Hnone.
  { apply text_colors_source in Hsrc.
    destruct Habsent as [Hp | [(v & Hp & Hv) | (tc & Hp & Hk')]].
    - destruct Hsrc as [Hs | (-> & _)]; [congruence | apply lookup_empty].
    - destruct Hsrc as [Hs | (-> & _)]; [| apply lookup_empty].
      rewrite Hp in Hs. injection Hs as ->. apply py_truthy_dict in Hv as ->.
      apply lookup_empty.
    - destruct Hsrc as [Hs | (-> & _)]; [| apply lookup_empty]. congruence. }
  apply elem_of_cons in Hk as [[= -> -> ->] | Hk].
  { rewrite Gh, Hnone in Hh. injection Hh as <-. simpl in Hhc. by injection Hhc as <-. }
  apply elem_of_cons in Hk as [[= -> -> ->] | Hk].
  { rewrite Gb, Hnone in Hb. injection Hb as <-. simpl in Hbc. by injection Hbc as <-. }
  apply list_elem_of_singleton in Hk as [= -> -> ->].
  rewrite Gc, Hnone in Hc. injection Hc as <-. simpl in Hcc. by injection Hcc as <-.
Qed.

(* --------------------------------------------------------------------- *)
(** ** Base64 text and the data URLs *)
(* --------------------------------------------------------------------- *)

Section DataUrlFacts.
Import Base64.

Lemma b64encode_length bs : length (b64encode bs) = (4 * ((length bs + 2) / 3))%nat.
Proof.
  induction bs as [| a | a b | a b c rest IH] using list_ind3; try reflexivity.
  cbn [b64encode sextets length]. rewrite IH.
  replace (S (S (S (length rest))) + 2)%nat with (1 * 3 + (length rest + 2))%nat by lia.
  rewrite Nat.div_add_l by lia. lia.
Qed.

Lemma b64_char_is_b64 i : is_b64_char (Byte.to_N (b64_char i)) = true.
Proof.
  unfold b64_char.
  assert (Forall (fun b => is_b64_char (Byte.to_N b) = true) alphabet) as Hall
    by (repeat constructor).
  generalize (N.to_nat i). induction Hall as [| x l Hx _ IH]; intros [| n]; simpl; auto.
Qed.

Lemma b64encode_chars bs :
  Forall (fun c => is_b64_char c = true) (map Byte.to_N (b64encode bs)).
Proof.
  induction bs as [| a | a b | a b c rest IH] using list_ind3;
    cbn [b64encode sextets map]; repeat constructor;
    try apply b64_char_is_b64; exact IH.
Qed.

Lemma is_b64_char_safe c :
  is_b64_char c = true -> py_isspace c = false /\ c ∉ [34; 39; 40; 41; 60; 62; 92].
Proof.
  intros H. split.
  - unfold is_b64_char in H. unfold py_isspace.
    repeat (apply orb_true_iff in H as [H | H]);
      rewrite ?andb_true_iff, ?N.leb_le, ?N.eqb_eq in H;
      repeat (apply orb_false_iff; split);
      rewrite ?andb_false_iff, ?N.leb_gt, ?N.eqb_neq; lia.
  - rewrite !not_elem_of_cons. repeat split; try (intros ->; discriminate H).
    apply not_elem_of_nil.
Qed.

Lemma map_to_N_inj (l1 l2 : list byte) : map Byte.to_N l1 = map Byte.to_N l2 -> l1 = l2.
Proof.
  revert l2. induction l1 as [| x l1 IH]; intros [| y l2]; simpl; try discriminate; auto.
  intros [= Hxy Hl]. f_equal; [| by apply IH].
  apply (f_equal Byte.of_N) in Hxy. rewrite !Byte.of_to_N in Hxy. by injection Hxy.
Qed.

Lemma b64encode_inj bs1 bs2 : b64encode bs1 = b64encode bs2 -> bs1 = bs2.
Proof.
  intros H. apply (f_equal b64decode) in H. rewrite !b64decode_b64encode in H.
  by injection H.
Qed.

Lemma photo_data_url_eq bs :
  photo_data_url bs = Some (data_url_prefix ++ map Byte.to_N (b64encode bs)).
Proof. unfold photo_data_url, decode_ascii. by rewrite b64encode_ascii. Qed.

Lemma font_data_url_eq bs :
  font_data_url bs = Some (font_data_url_prefix ++ map Byte.to_N (b64encode bs)).
Proof. unfold font_data_url, decode_ascii. by rewrite b64encode_ascii. Qed.

End DataUrlFacts.

(** X13. The data URL of a photo of [n] bytes has 22 characters for the
    prefix and 4 characters for every 3 bytes, the last group being
    padded: its length is [22 + 4 * ceil(n / 3)]. *)
Theorem photo_data_url_length (agent_img_bytes : list byte) (url : str) :
  photo_data_url agent_img_bytes = Some url ->
  length url = (22 + 4 * ((length agent_img_bytes + 2) / 3))%nat.
Proof.
  rewrite photo_data_url_eq. intros H.
  assert (url = data_url_prefix ++ map Byte.to_N (Base64.b64encode agent_img_bytes)) as ->
    by (apply (inj Some) in H; symmetry; exact H).
  rewrite length_app, length_map, b64encode_length. reflexivity.
Qed.

Lemma photo_data_url_length_witness :
  exists url, photo_data_url ["255"%byte; "216"%byte; "255"%byte; "224"%byte] = Some url
              /\ length url = 30%nat.
Proof.
  eexists. split; [reflexivity |].
  apply (photo_data_url_length ["255"%byte; "216"%byte; "255"%byte; "224"%byte]).
  reflexivity.
Defined.

(** X14. No data URL, of the photo or of a font, holds a quote, a
    parenthesis, a backslash, an angle bracket or whitespace, whatever the
    bytes: placed in [url('...')] of the style sheet it cannot end the
    quoted text. *)
Theorem data_urls_are_quote_free (bs : list byte) (url : str) :
  photo_data_url bs = Some url \/ font_data_url bs = Some url ->
  forall c, c ∈ url -> py_isspace c = false /\ c ∉ [34; 39; 40; 41; 60; 62; 92].
Proof.
  intros Hurl c Hc.
  assert (exists prefix, url = prefix ++ map Byte.to_N (Base64.b64encode bs)
                         /\ (prefix = data_url_prefix \/ prefix = font_data_url_prefix))
    as (prefix & -> & Hprefix).
  { destruct Hurl as [H | H].
    - rewrite photo_data_url_eq in H. exists data_url_prefix. split; [apply (inj Some) in H; symmetry; exact H | by left].
    - rewrite font_data_url_eq in H. exists font_data_url_prefix. split; [apply (inj Some) in H; symmetry; exact H | by right]. }
  apply elem_of_app in Hc as [Hc | Hc].
  - assert (Forall (fun c => py_isspace c = false /\ c ∉ [34; 39; 40; 41; 60; 62; 92]) prefix)
      as Hall.
    { destruct Hprefix as [-> | ->]; apply Forall_forall; intros x Hx;
        (split; [| apply (bool_decide_unpack _)]); revert x Hx; apply Forall_forall;
        apply (bool_decide_unpack _); vm_compute; reflexivity. }
    rewrite Forall_forall in Hall. by apply Hall.
  - apply is_b64_char_safe. pose proof (b64encode_chars bs) as Hall.
    rewrite Forall_forall in Hall. by apply Hall.
Qed.

Lemma data_urls_are_quote_free_witness :
  photo_data_url ["039"%byte; "041"%byte; "059"%byte] = Some (u "data:image/png;base64,Jyk7")
  /\ Forall (fun c => py_isspace c = false /\ c ∉ [34; 39; 40; 41; 60; 62; 92])
            (u "data:image/png;base64,Jyk7").
Proof.
  split; [reflexivity |]. apply Forall_forall.
  apply (data_urls_are_quote_free ["039"%byte; "041"%byte; "059"%byte]).
  left. reflexivity.
Defined.

(** X15. Different bytes give different data URLs, for the photo and for
    the fonts: the bytes can be read back from the URL. *)
Theorem data_urls_are_injective (bs1 bs2 : list byte) :
  (photo_data_url bs1 = photo_data_url bs2 -> bs1 = bs2)
  /\ (font_data_url bs1 = font_data_url bs2 -> bs1 = bs2)
  /\ (forall url, font_data_url bs1 = Some url ->
        Base64.b64decode (Base64.b64encode bs1) = Some bs1
        /\ url = font_data_url_prefix ++ map Byte.to_N (Base64.b64encode bs1)).
Proof.
  split; [| split].
  - rewrite !photo_data_url_eq. intros H.
    apply b64encode_inj, map_to_N_inj, (app_inv_head data_url_prefix).
    apply (inj Some) in H. exact H.
  - rewrite !font_data_url_eq. intros H.
    apply b64encode_inj, map_to_N_inj, (app_inv_head font_data_url_prefix).
    apply (inj Some) in H. exact H.
  - intros url. rewrite font_data_url_eq. intros H.
    split; [apply b64decode_b64encode |].
    apply (inj Some) in H. symmetry. exact H.
Qed.

Lemma data_urls_are_injective_witness :
  font_data_url ["000"%byte; "001"%byte] = Some (u "data:font/ttf;base64,AAE=").
Proof.
  destruct (data_urls_are_injective ["000"%byte; "001"%byte] []) as (_ & _ & H).
  destruct (H (u "data:font/ttf;base64,AAE=") eq_refl) as (_ & ->). reflexivity.
Defined.

(* --------------------------------------------------------------------- *)
(** ** One prompt for each style block *)
(* --------------------------------------------------------------------- *)

Lemma prompt_of_inj b1 b2 : prompt_of b1 = prompt_of b2 -> b1 = b2.
Proof.
  unfold prompt_of. intros H.
  do 7 apply app_inv_head in H. by apply app_inv_tail in H.
Qed.

(** X16. Two style modes get the same prompt exactly when they select
    the same style block. The three modes that the form offers get three
    different prompts, and every mode other than ["Conversation"] and
    ["Fact-based awareness"], whatever its spelling, gets the prompt of
    ["Standard marketing"]. *)
Theorem prompts_differ_by_style_block :
  (forall m1 m2,
      build_prompt m1 = build_prompt m2 <-> build_style_block m1 = build_style_block m2)
  /\ build_prompt (u "Standard marketing") <> build_prompt (u "Conversation")
  /\ build_prompt (u "Standard marketing") <> build_prompt (u "Fact-based awareness")
  /\ build_prompt (u "Conversation") <> build_prompt (u "Fact-based awareness")
  /\ (forall m, m <> u "Conversation" -> m <> u "Fact-based awareness" ->
                build_prompt m = build_prompt (u "Standard marketing")).
Proof.
  split; [| split; [| split; [| split]]].
  - intros m1 m2. unfold build_prompt. split; [apply prompt_of_inj | by intros ->].
  - intros H%prompt_of_inj. vm_compute in H. discriminate H.
  - intros H%prompt_of_inj. vm_compute in H. discriminate H.
  - intros H%prompt_of_inj. vm_compute in H. discriminate H.
  - intros m Hc Hf. unfold build_prompt. f_equal.
    transitivity marketing_block.
    + unfold build_style_block.
      rewrite (decide_False (P := m = u "Conversation")) by exact Hc.
      rewrite (decide_False (P := m = u "Fact-based awareness")) by exact Hf.
      reflexivity.
    + symmetry. vm_compute. reflexivity.
Qed.

Lemma prompts_differ_by_style_block_witness :
  build_prompt (u "standard") = build_prompt (u "Standard marketing").
Proof.
  destruct prompts_differ_by_style_block as (_ & _ & _ & _ & H).
  apply H; intros E; vm_compute in E; discriminate E.
Defined.

(** The record of the sample reply is what normalisation returns for the
    object that the sample reply holds. *)
Lemma sample_record_normalized :
  normalize_fields (L := reference)
    (<[u "color_theme" := JStr (u "purple_pink")]>
       (<[u "cta_line_ta" := JStr (u "Z")]>
          (<[u "bullet_points_ta" :=
               JList [JStr (u "A"); JStr (u "B"); JStr (u "C"); JStr (u "D"); JStr (u "E")]]>
             (<[u "body_paragraph_ta" := JStr (u "Y")]>
                (<[u "headline_ta" := JStr (u "X")]> ∅)))))
  = inr sample_record.
Proof. reflexivity. Qed.

Lemma poster_context_well_formed_witness :
  exists ctx,
    poster_context_of fonts_present sample_record (u "A") (u "B") (u "1") [] = inr ctx
    /\ (ctx_top_color ctx, ctx_bottom_color ctx, ctx_footer_color ctx)
       = theme_colors (u "blue_orange")
    /\ is_hex_color (ctx_cta_color ctx) = true.
Proof.
  eexists. split; [reflexivity |].
  destruct (poster_context_well_formed (L := reference) fonts_present _ sample_record
              (u "A") (u "B") (u "1") [] _ sample_record_normalized eq_refl)
    as ((t & Ht & _ & Htriple) & (_ & _ & _ & _ & _ & Hcta) & _).
  split; [| exact Hcta].
  rewrite Htriple. assert (Some (JStr (u "blue_orange")) = Some (JStr t)) as E by exact Ht.
  by injection E as <-.
Defined.

Lemma absent_roles_take_fallback_colors_witness :
  exists ctx,
    poster_context_of fonts_present sample_record (u "A") (u "B") (u "1") [] = inr ctx
    /\ ctx_headline_color ctx = u "#0f172a"
    /\ ctx_body_color ctx = u "#111827"
    /\ ctx_cta_color ctx = u "#b91c1c".
Proof.
  eexists. split; [reflexivity |].
  pose proof (absent_roles_take_fallback_colors (L := reference) fonts_present _ sample_record
                (u "A") (u "B") (u "1") [] _ sample_record_normalized eq_refl) as H.
  split; [| split].
  - apply (H (u "headline") (u "#0f172a")); [| left; reflexivity].
    apply elem_of_cons. left. reflexivity.
  - apply (H (u "body") (u "#111827")); [| left; reflexivity].
    apply elem_of_cons. right. apply elem_of_cons. left. reflexivity.
  - apply (H (u "cta") (u "#b91c1c")); [| left; reflexivity].
    apply elem_of_cons. right. apply elem_of_cons. right.
    apply elem_of_cons. left. reflexivity.
Defined.

Lemma normalize_fields_twice_witness :
  normalize_fields (L := reference) sample_record = inr sample_record.
Proof.
  exact (normalize_fields_twice (L := reference) _ sample_record sample_record_normalized).
Defined.

(* --------------------------------------------------------------------- *)
(** ** The tag of the fence, and the failures of the template arguments *)
(* --------------------------------------------------------------------- *)

Section TagFacts.
Import Re.

Lemma exec_json_tag {R} c1 c2 c3 c4 s g (K : str -> option str -> option R) :
  c1 ∈ [106; 74] -> c2 ∈ [115; 83; 383] -> c3 ∈ [111; 79] -> c4 ∈ [110; 78] ->
  exec json_tag_re (c1 :: c2 :: c3 :: c4 :: s) g K = K s g.
Proof.
  intros H1 H2 H3 H4. unfold json_tag_re, lit_i. cbn [seqs foldr exec].
  by rewrite !bool_decide_eq_true_2.
Qed.

End TagFacts.

(** X18. The tag of a fence is read without regard to letter case: after
    three backquotes and [json] in any mix of upper and lower case, the
    body of the fence is the candidate, as it is after [json] in lower
    case. *)
Theorem find_json_fenced_any_case (pre ws1 mid ws2 post : str) (c1 c2 c3 c4 : N) :
  96 ∉ pre ->
  c1 ∈ [106; 74] -> c2 ∈ [115; 83] -> c3 ∈ [111; 79] -> c4 ∈ [110; 78] ->
  Forall (fun c => py_isspace c = true) ws1 ->
  Forall (fun c => py_isspace c = true) ws2 ->
  96 ∉ mid ->
  find_json (pre ++ u "```" ++ [c1; c2; c3; c4] ++ ws1 ++ (123 :: mid ++ [125])
                 ++ ws2 ++ u "```" ++ post)
  = Some (123 :: mid ++ [125]).
Proof.
  intros Hpre H1 H2 H3 H4 Hws1 Hws2 Hmid.
  assert (c2 ∈ [115; 83; 383]) as H2' by set_solver.
  unfold find_json. rewrite search_skip by exact Hpre.
  assert (Re.match_here fence_re
            (u "```" ++ [c1; c2; c3; c4] ++ ws1 ++ (123 :: mid ++ [125])
               ++ ws2 ++ u "```" ++ post)
          = Some (Some (123 :: mid ++ [125]))) as Hm.
  { assert (Re.exec (Re.Seq (Re.Star py_isspace) (Re.Seq (Re.Group body_re) close_re))
                    (ws1 ++ (123 :: mid ++ [125]) ++ ws2 ++ u "```" ++ post) None
                    (fun _ g' => Some g') = Some (Some (123 :: mid ++ [125]))) as Hrest.
    { rewrite exec_star. apply star_greedy_skip; [exact Hws1 | reflexivity |].
      change (u "```") with [96; 96; 96].
      cbn [app]. rewrite <- app_assoc. cbn [app].
      by apply fence_body_match. }
    unfold Re.match_here. rewrite fence_re_unfold.
    change (u "```" ++ ?s) with (96 :: 96 :: 96 :: s).
    do 3 (rewrite exec_lit; cbv iota; rewrite N.eqb_refl). rewrite exec_opt.
    change ([c1; c2; c3; c4] ++ ?s) with (c1 :: c2 :: c3 :: c4 :: s).
    rewrite exec_json_tag by assumption. by rewrite Hrest. }
  by rewrite (search_here _ _ _ Hm).
Qed.

Lemma find_json_fenced_any_case_witness :
  find_json (u "Sure: ```JSON" ++ [10] ++ u "{a}" ++ [10] ++ u "``` bye") = Some (u "{a}").
Proof.
  apply (find_json_fenced_any_case (u "Sure: ") [10] (u "a") [10] (u " bye") 74 83 79 78).
  - apply (bool_decide_unpack _). vm_compute. reflexivity.
  - apply (bool_decide_unpack _). vm_compute. reflexivity.
  - apply (bool_decide_unpack _). vm_compute. reflexivity.
  - apply (bool_decide_unpack _). vm_compute. reflexivity.
  - apply (bool_decide_unpack _). vm_compute. reflexivity.
  - repeat constructor.
  - repeat constructor.
  - apply (bool_decide_unpack _). vm_compute. reflexivity.
Defined.

Lemma color_from_value_inl v fallback e :
  color_from_value v fallback = inl e -> e = TypeError /\ hashable v = false.
Proof. destruct v; simpl; intros [= <-]; split; reflexivity. Qed.

(** X19. On a record that normalisation returned, the evaluation of the
    template arguments fails in three ways only: with [TypeError], when
    one of the three role values is a list or a dict; with [OSError], on
    one of the two font files, which cannot be read; or with [KeyError] on
    one of [headline_ta], [body_paragraph_ta], [cta_line_ta], a key that
    the record does not have. *)
Theorem poster_context_failures `{L : PyLib} (fs : files) (parsed r : dict)
    (name role number : str) (agent_img_bytes : list byte) (e : ui_error) :
  normalize_fields parsed = inr r ->
  poster_context_of fs r name role number agent_img_bytes = inl e ->
  (e = TypeError
   /\ exists tc k v, r !! u "text_colors" = Some (JDict tc)
                     /\ k ∈ [u "headline"; u "body"; u "cta"]
                     /\ tc !! k = Some v /\ hashable v = false)
  \/ (exists path, e = OSError path
                   /\ path ∈ [regular_font_path; bold_font_path]
                   /\ fs path = None)
  \/ (exists k, e = KeyError k
                /\ k ∈ [u "headline_ta"; u "body_paragraph_ta"; u "cta_line_ta"]
                /\ r !! k = None).
Proof.
  intros Hn.
  destruct (lookup_normalized_text_colors parsed r Hn) as (src & _ & Htc).
  destruct (text_colors_record_lookup src) as (Hh & Hb & Hc).
  pose proof (lookup_normalized_theme parsed r Hn) as Hth.
  pose proof (lookup_normalized_bullets parsed r Hn) as Hbl.
  unfold poster_context_of, read_file. simpl. rewrite Hth. simpl.
  destruct (theme_colors_of _) as [[top bottom] footer].
  rewrite Htc. simpl. rewrite Hh. simpl.
  destruct (color_from_value _ (u "#0f172a")) as [e1 | hc] eqn:Ehc; simpl.
  { intros [= <-]. left.
    destruct (color_from_value_inl _ _ _ Ehc) as [-> Hf].
    split; [reflexivity |]. exists (text_colors_record src), (u "headline"). eexists.
    split; [reflexivity |]. split; [in_literals |]. split; [exact Hh | exact Hf]. }
  rewrite Hb. simpl.
  destruct (color_from_value _ (u "#111827")) as [e1 | bc] eqn:Ebc; simpl.
  { intros [= <-]. left.
    destruct (color_from_value_inl _ _ _ Ebc) as [-> Hf].
    split; [reflexivity |]. exists (text_colors_record src), (u "body"). eexists.
    split; [reflexivity |]. split; [in_literals |]. split; [exact Hb | exact Hf]. }
  rewrite Hc. simpl.
  destruct (color_from_value _ (u "#b91c1c")) as [e1 | cc] eqn:Ecc; simpl.
  { intros [= <-]. left.
    destruct (color_from_value_inl _ _ _ Ecc) as [-> Hf].
    split; [reflexivity |]. exists (text_colors_record src), (u "cta"). eexists.
    split; [reflexivity |]. split; [in_literals |]. split; [exact Hc | exact Hf]. }
  destruct (photo_data_url_Some agent_img_bytes) as (photo & ->). simpl.
  destruct (fs regular_font_path) as [regular_font |] eqn:Hrf; simpl.
  2:{ intros [= <-]. right. left. exists regular_font_path.
      repeat split; [in_literals | exact Hrf]. }
  destruct (font_data_url_Some regular_font) as (reg & ->). simpl.
  destruct (fs bold_font_path) as [bold_font |] eqn:Hbf; simpl.
  2:{ intros [= <-]. right. left. exists bold_font_path.
      repeat split; [in_literals | exact Hbf]. }
  destruct (font_data_url_Some bold_font) as (bold & ->). simpl.
  destruct (r !! u "headline_ta") as [hl |] eqn:Hhl; simpl.
  2:{ intros [= <-]. right. right. exists (u "headline_ta").
      repeat split; [in_literals | exact Hhl]. }
  destruct (r !! u "body_paragraph_ta") as [bp |] eqn:Hbp; simpl.
  2:{ intros [= <-]. right. right. exists (u "body_paragraph_ta").
      repeat split; [in_literals | exact Hbp]. }
  rewrite Hbl. simpl.
  destruct (r !! u "cta_line_ta") as [cl |] eqn:Hcl; simpl.
  2:{ intros [= <-]. right. right. exists (u "cta_line_ta").
      repeat split; [in_literals | exact Hcl]. }
  discriminate.
Qed.

Lemma poster_context_failures_witness :
  poster_context_of bold_font_missing one_bullet_record (u "A") (u "B") (u "1") []
    = inl (OSError bold_font_path)
  /\ bold_font_missing bold_font_path = None.
Proof.
  split; [reflexivity |].
  assert (normalize_fields (L := reference) one_bullet_parsed = inr one_bullet_record)
    as Hn by reflexivity.
  destruct (poster_context_failures (L := reference) bold_font_missing one_bullet_parsed
              one_bullet_record (u "A") (u "B") (u "1") [] (OSError bold_font_path) Hn eq_refl)
    as [(Habs & _) | [(path & Hp & _ & Hnone) | (k & Habs & _)]];
    [discriminate Habs | | discriminate Habs].
  assert (path = bold_font_path) as -> by congruence. exact Hnone.
Defined.
